(** * IA-shop-agent: custodial wallet actions on Mantle Sepolia

    A shallow embedding of the agent's wallet actions and of the wallet
    provider:

    - [src/agent/actions/createWallet.ts]   (wallet store, provisioning flow)
    - [src/agent/actions/transferERC20.ts]  (AISHOP transfer flow)
    - the [transferMNT] action              (native MNT transfer flow)
    - the [checkBalance] action             (balance query flow)
    - [src/agent/providers/wallet.ts]       (wallet session, wallet provider)
    - [src/agent/config/token.ts]           (token registry)

    Texts are JavaScript strings; they are modelled by [string], the sequence
    of bytes of their UTF-8 encoding.  Every pattern the code matches is made
    of ASCII characters, which UTF-8 keeps as single bytes that never occur
    inside the encoding of another character. *)

From Stdlib Require Import ZArith String Ascii List Lia QArith.
From Stdlib Require Import HexadecimalString DecimalString DecimalZ DecimalPos.
From stdpp Require Import gmap strings.

Open Scope Z_scope.
Open Scope string_scope.

(* ================================================================== *)
(** * Part I: the embedding                                            *)
(* ================================================================== *)

(** ** Character classes of the regular expressions *)

(** [\d] *)
Definition is_digit (c : ascii) : bool :=
  let n := N_of_ascii c in ((48 <=? n) && (n <=? 57))%N.

(** [[a-fA-F0-9]] *)
Definition is_hex_digit (c : ascii) : bool :=
  let n := N_of_ascii c in
  (((48 <=? n) && (n <=? 57)) || ((97 <=? n) && (n <=? 102))
   || ((65 <=? n) && (n <=? 70)))%N.

(** One letter of a pattern under the [i] flag: [l] is the lower-case
    letter of the pattern.  Without the [u] flag no character outside
    ASCII is folded onto an ASCII letter. *)
Definition eq_ignore_case (l c : ascii) : bool :=
  let n := N_of_ascii c in
  (n =? N_of_ascii l)%N || (n + 32 =? N_of_ascii l)%N.

(** [String.prototype.toUpperCase] and [toLowerCase], on the ASCII letters. *)
Definition upper_ascii (c : ascii) : ascii :=
  let n := N_of_ascii c in
  if ((97 <=? n) && (n <=? 122))%N then ascii_of_N (n - 32) else c.

Definition lower_ascii (c : ascii) : ascii :=
  let n := N_of_ascii c in
  if ((65 <=? n) && (n <=? 90))%N then ascii_of_N (n + 32) else c.

Fixpoint map_string (f : ascii -> ascii) (s : string) : string :=
  match s with
  | EmptyString => EmptyString
  | String c s' => String (f c) (map_string f s')
  end.

Definition toUpperCase : string -> string := map_string upper_ascii.
Definition toLowerCase : string -> string := map_string lower_ascii.

(** [s.startsWith(p)] *)
Fixpoint startsWith (p s : string) : bool :=
  match p, s with
  | EmptyString, _ => true
  | String a p', String b s' => if Ascii.eqb a b then startsWith p' s' else false
  | String _ _, EmptyString => false
  end.

(** [lines.join("\n")] *)
Definition newline : string := String (ascii_of_N 10) EmptyString.

Definition join_lines (lines : list string) : string :=
  String.concat newline lines.

(** ** [extractEthereumWalletAddress]: [/0x[a-fA-F0-9]{40}/g] *)

(** [[a-fA-F0-9]{n}] at the head of [s]: the [n] characters matched and
    what follows them. *)
Fixpoint hex_run (n : nat) (s : string) : option (string * string) :=
  match n with
  | O => Some (EmptyString, s)
  | S n' =>
      match s with
      | String c s' =>
          if is_hex_digit c then
            match hex_run n' s' with
            | Some (m, r) => Some (String c m, r)
            | None => None
            end
          else None
      | EmptyString => None
      end
  end.

(** The whole pattern at the head of [s]. *)
Definition eth_address_at (s : string) : option (string * string) :=
  match s with
  | String "0" (String "x" s') =>
      match hex_run 40 s' with
      | Some (m, r) => Some (String "0" (String "x" m), r)
      | None => None
      end
  | _ => None
  end.

(** [text.match(re)] for the global pattern: every match, left to right;
    the search resumes after the 42 characters of a match ([skip] counts the
    characters of the last match still to step over). *)
Fixpoint match_eth_address (skip : nat) (s : string) : list string :=
  match s with
  | EmptyString => []
  | String _ s' =>
      match skip with
      | S k => match_eth_address k s'
      | O =>
          match eth_address_at s with
          | Some (m, _) => m :: match_eth_address 41 s'
          | None => match_eth_address 0 s'
          end
      end
  end.

(** [matches ? matches[0] : null]; [match] gives [null] when nothing matches. *)
Definition extractEthereumWalletAddress (text : string) : option string :=
  match match_eth_address 0 text with
  | [] => None
  | m :: _ => Some m
  end.

(** ** [extractAmount] and [extractTokenTransferInfo]:
       [/(\d+(\.\d+)?)\s*(SYM|sym)/i] *)

(** [\d*], greedy: the longest run of digits and what follows it. *)
Fixpoint digits_run (s : string) : string * string :=
  match s with
  | String c s' =>
      if is_digit c then
        let '(d, r) := digits_run s' in (String c d, r)
      else (EmptyString, s)
  | EmptyString => (EmptyString, EmptyString)
  end.

(** [\s*], greedy.  White space is the ASCII controls 9 to 13 and the space,
    and, in UTF-8, U+00A0, U+1680, U+2000 to U+200A, U+2028, U+2029, U+202F,
    U+205F, U+3000 and U+FEFF. *)
Definition space3 (a b c : N) : bool :=
  (((a =? 225) && (b =? 154) && (c =? 128))
   || ((a =? 226) && (b =? 128)
       && (((128 <=? c) && (c <=? 138)) || (c =? 168) || (c =? 169) || (c =? 175)))
   || ((a =? 226) && (b =? 129) && (c =? 159))
   || ((a =? 227) && (b =? 128) && (c =? 128))
   || ((a =? 239) && (b =? 187) && (c =? 191)))%N.

Fixpoint skip_space (s : string) : string :=
  match s with
  | String a s1 =>
      let na := N_of_ascii a in
      if (((9 <=? na) && (na <=? 13)) || (na =? 32))%N then skip_space s1
      else
        match s1 with
        | String b s2 =>
            if ((na =? 194) && (N_of_ascii b =? 160))%N then skip_space s2
            else
              match s2 with
              | String c s3 =>
                  if space3 na (N_of_ascii b) (N_of_ascii c)
                  then skip_space s3 else s
              | EmptyString => s
              end
        | EmptyString => s
        end
  | EmptyString => s
  end.

(** The symbol alternative under [i]: the characters matched (group 3). *)
Fixpoint symbol_at (sym s : string) : option string :=
  match sym with
  | EmptyString => Some EmptyString
  | String l sym' =>
      match s with
      | String c s' =>
          if eq_ignore_case l c then
            match symbol_at sym' s' with
            | Some m => Some (String c m)
            | None => None
            end
          else None
      | EmptyString => None
      end
  end.

(** The whole pattern at the head of [s]: groups 1 and 3.  The match is
    found without backtracking: a shorter run of digits is followed by a
    digit, and an integer part whose fraction was left out is followed by
    the dot, where the pattern wants white space or the symbol. *)
Definition amount_at (sym s : string) : option (string * string) :=
  let '(int, r1) := digits_run s in
  match int with
  | EmptyString => None
  | String _ _ =>
      let '(g1, r2) :=
        match r1 with
        | String "." r =>
            let '(frac, r') := digits_run r in
            match frac with
            | EmptyString => (int, r1)
            | String _ _ => (int +:+ "." +:+ frac, r')
            end
        | _ => (int, r1)
        end in
      match symbol_at sym (skip_space r2) with
      | Some g3 => Some (g1, g3)
      | None => None
      end
  end.

(** [text.match(re)] without the [g] flag: the leftmost match. *)
Fixpoint match_amount (sym s : string) : option (string * string) :=
  match amount_at sym s with
  | Some g => Some g
  | None =>
      match s with
      | String _ s' => match_amount sym s'
      | EmptyString => None
      end
  end.

(** [extractAmount]: [match ? match[1] : null] with the symbol [MNT]. *)
Definition extractAmount (text : string) : option string :=
  match match_amount "mnt" text with
  | Some (g1, _) => Some g1
  | None => None
  end.

Record token_transfer_info := { amount : string; symbol : string }.

(** [extractTokenTransferInfo]: the symbol is [AISHOP]. *)
Definition extractTokenTransferInfo (text : string) : option token_transfer_info :=
  match match_amount "aishop" text with
  | Some (g1, g3) => Some {| amount := g1; symbol := toUpperCase g3 |}
  | None => None
  end.

(** The message of the parsing example. *)
Definition example_message : string :=
  "enviar 0.5 MNT a 0x1111111111111111111111111111111111111111".

(** ** What counts as an address in a text *)

(** [s] from its [i]-th character on. *)
Fixpoint drop_string (i : nat) (s : string) : string :=
  match i, s with
  | O, _ => s
  | S i', String _ s' => drop_string i' s'
  | S _, EmptyString => EmptyString
  end.

(** [0x] and 40 hexadecimal characters, nothing else. *)
Definition eth_address_shape (a : string) : bool :=
  match eth_address_at a with
  | Some (_, EmptyString) => true
  | _ => false
  end.

(** The pattern matches at position [i] of [text]. *)
Definition matches_at (text : string) (i : nat) : bool :=
  match eth_address_at (drop_string i text) with
  | Some _ => true
  | None => false
  end.

(** A well-formed address at position [i]: the pattern matches there and
    the 40 hexadecimal characters are not followed by one more. *)
Definition exact_address_at (text : string) (i : nat) : bool :=
  match eth_address_at (drop_string i text) with
  | Some (_, String c _) => negb (is_hex_digit c)
  | Some (_, EmptyString) => true
  | None => false
  end.

(** ** [generateId] *)

(** [x | 0] on a number: ToInt32, which drops the fraction and wraps the
    integer into 32 signed bits.  A number is a rational here (every finite
    double is one). *)
Definition to_int32 (x : Q) : Z :=
  let t := Z.quot (Qnum x) (Zpos (Qden x)) in
  let m := t mod 2 ^ 32 in
  if (m <? 2 ^ 31)%Z then m else m - 2 ^ 32.

(** [v.toString(16)] on an integer. *)
Definition toString16 (v : Z) : string :=
  if (v <? 0)%Z
  then "-" +:+ HexadecimalString.NilZero.string_of_uint (N.to_hex_uint (Z.to_N (- v)))
  else HexadecimalString.NilZero.string_of_uint (N.to_hex_uint (Z.to_N v)).

Definition uuid_template : string := "xxxxxxxx-xxxx-4xxx-yxxx-xxxxxxxxxxxx".

(** The replacement function; [random] is what its call of [Math.random()]
    returns. *)
Definition replace_char (c : ascii) (random : Q) : string :=
  let r := to_int32 (random * 16) in
  let v := if Ascii.eqb c "x" then r else Z.lor (Z.land r 3) 8 in
  toString16 v.

(** [template.replace(/[xy]/g, f)]: the matches are replaced from left to
    right; [k] calls of [Math.random()] were made before. *)
Fixpoint replace_xy (random : nat -> Q) (k : nat) (s : string) : string :=
  match s with
  | EmptyString => EmptyString
  | String c s' =>
      if Ascii.eqb c "x" || Ascii.eqb c "y"
      then replace_char c (random k) +:+ replace_xy random (S k) s'
      else String c (replace_xy random k s')
  end.

(** [random k] is the result of the [k]-th call of [Math.random()]. *)
Definition generateId (random : nat -> Q) : string :=
  replace_xy random 0 uuid_template.

(** Calls of [Math.random()] made by one [generateId]. *)
Definition generateId_draws : nat := 31.

(** The shape 8-4-4-4-12: hyphens at 8, 13, 18 and 23, hexadecimal
    characters elsewhere; [i] is the index of the head of [s]. *)
Fixpoint uuid_groups (i : nat) (s : string) : bool :=
  match s with
  | EmptyString => true
  | String c s' =>
      (if (i =? 8)%nat || (i =? 13)%nat || (i =? 18)%nat || (i =? 23)%nat
       then Ascii.eqb c "-" else is_hex_digit c)
      && uuid_groups (S i) s'
  end.

Definition is_variant_nibble (c : ascii) : bool :=
  Ascii.eqb c "8" || Ascii.eqb c "9" || Ascii.eqb c "a" || Ascii.eqb c "b".

Definition uuid_like (s : string) : bool :=
  (String.length s =? 36)%nat
  && uuid_groups 0 s
  && match String.get 14 s with Some c => Ascii.eqb c "4" | None => false end
  && match String.get 19 s with Some c => is_variant_nibble c | None => false end.

(** ** JavaScript values, exceptions *)

(** The values the cache can hold and [JSON.parse] can return.  Numbers
    are the integers (the code stores [Date.now()] only). *)
#[warnings="-register-all"] Inductive jsval : Type :=
| JUndefined
| JNull
| JBool (b : bool)
| JNum (n : Z)
| JStr (s : string)
| JObj (fields : list (string * jsval)).

(** What a [catch] receives: an [Error] with its message ([error instanceof
    Error]), or any other thrown value. *)
Inductive exn : Type :=
| Error (message : string)
| NotError.

Inductive outcome (A : Type) : Type :=
| Ok (a : A)
| Throw (e : exn).
Arguments Ok {A} a.
Arguments Throw {A} e.

(** [!!v] *)
Definition truthy (v : jsval) : bool :=
  match v with
  | JUndefined | JNull => false
  | JBool b => b
  | JNum n => negb (n =? 0)%Z
  | JStr s => negb (String.eqb s EmptyString)
  | JObj _ => true
  end.

Fixpoint assoc {A : Type} (k : string) (l : list (string * A)) : option A :=
  match l with
  | [] => None
  | (k', v) :: l' => if String.eqb k k' then Some v else assoc k l'
  end.

(** [n.toString()] on an integer. *)
Definition toString10 (n : Z) : string :=
  DecimalString.NilZero.string_of_int (Z.to_int n).

(** A value inside a template literal.  A number prints with all its
    digits, as JavaScript prints the integers below [10 ^ 21]; the only
    number the code stores is [Date.now()]. *)
Definition to_js_string (v : jsval) : string :=
  match v with
  | JUndefined => "undefined"
  | JNull => "null"
  | JBool true => "true"
  | JBool false => "false"
  | JNum n => toString10 n
  | JStr s => s
  | JObj _ => "[object Object]"
  end.

(** [error instanceof Error ? error.message : "Error desconocido"] *)
Definition error_message (e : exn) : string :=
  match e with
  | Error m => m
  | NotError => "Error desconocido"
  end.

(** ** Token registry ([config/token.ts]) *)

Inductive TokenConfig : Type :=
| NativeToken (symbol name : string) (decimals : Z)
| ERC20Token (symbol name : string) (decimals : Z) (address : string).

Definition token_symbol (t : TokenConfig) : string :=
  match t with NativeToken s _ _ | ERC20Token s _ _ _ => s end.

Definition token_name (t : TokenConfig) : string :=
  match t with NativeToken _ n _ | ERC20Token _ n _ _ => n end.

Definition token_decimals (t : TokenConfig) : Z :=
  match t with NativeToken _ _ d | ERC20Token _ _ d _ => d end.

Definition AISHOP_address : string := "0x0E02649Db4d1Aa8c202aA44EA99e3606d12a21b1".

(** The entries in the order of their definition. *)
Definition TOKENS : list (string * TokenConfig) :=
  [ ("MNT", NativeToken "MNT" "Mantle" 18);
    ("AISHOP", ERC20Token "AISHOP" "AI Shop Agent" 18 AISHOP_address) ].

Definition isERC20Token (t : TokenConfig) : bool :=
  match t with ERC20Token _ _ _ _ => true | NativeToken _ _ _ => false end.

(** [Object.values(TOKENS).filter(isERC20Token)] *)
Definition getERC20Tokens : list TokenConfig :=
  filter (fun t => isERC20Token t) (map snd TOKENS).

(** ** Messages, records, the chain *)

(** The inbound message with the state: [memory.userId], [state?.userId],
    [memory.content?.text], [memory.agentId], [memory.roomId]. *)
Record Memory : Type := {
  memory_userId : option string;
  state_userId : option string;
  content_text : option string;
  memory_agentId : string;
  memory_roomId : string;
}.

Definition nonempty (o : option string) : option string :=
  match o with
  | Some (String _ _ as s) => Some s
  | _ => None
  end.

(** [memory.userId || state?.userId], [None] when the result is falsy. *)
Definition resolve_userId (m : Memory) : option string :=
  match nonempty (memory_userId m) with
  | Some u => Some u
  | None => nonempty (state_userId m)
  end.

(** [memory.content?.text], the empty text when it is missing. *)
Definition text_or_empty (m : Memory) : string :=
  match content_text m with Some t => t | None => EmptyString end.

Record Receipt : Type := { receipt_status : string; receipt_blockNumber : Z }.

(** The [transaction] object of a transfer's record. *)
Record transaction_summary : Type := {
  tx_hash : string;
  tx_from : string;
  tx_to : string;
  tx_token : option (string * string);
  tx_amount : string;
  tx_blockNumber : Z;
  tx_status : string;
}.

(** What a flow adds to [content] besides [text] and [action]. *)
Inductive payload : Type :=
| WalletCreated (walletAddress : string) (createdAt : Z)
| Balances (balances : list (string * string)) (address : string)
| Transaction (transaction : transaction_summary).

(** The argument of [documentsManager.createMemory]. *)
Record InteractionRecord : Type := {
  rec_id : string;
  rec_userId : option string;
  rec_agentId : string;
  rec_roomId : string;
  rec_text : string;
  rec_action : string;
  rec_payload : payload;
}.

Definition has_transaction_payload (r : InteractionRecord) : bool :=
  match rec_payload r with Transaction _ => true | _ => false end.

(** A transaction handed to the wallet client: [sendTransaction] with its
    account, [to] and [value], or [writeContract] on [transfer] with its
    account, the contract and the arguments. *)
Inductive chain_write : Type :=
| SendTransaction (account to : string) (value : Z)
| WriteContract (account contract to : string) (amount : Z).

(** ** The host: runtime, chain client and built-ins

    Everything the code calls and does not define.  What depends on the
    moment of the call (faults of the cache and of the document store, the
    answers of the RPC node, random values, the clock) is a function of the
    number of calls made so far. *)
Record host : Type := {
  (* agent runtime *)
  cache_get_fault : nat -> option exn;
  cache_set_fault : nat -> option exn;
  createMemory_fault : nat -> option exn;
  getSetting : string -> option string;
  (* RPC node, through the public and the wallet client *)
  rpc_getBalance : nat -> string -> outcome Z;
  rpc_readContract : nat -> string -> string -> list string -> outcome Z;
  rpc_sendTransaction : nat -> chain_write -> outcome string;
  rpc_waitForTransactionReceipt : nat -> string -> outcome Receipt;
  (* chain-client library *)
  generatePrivateKey : nat -> string;
  privateKeyToAccount : string -> outcome string;
  parseEther : string -> outcome Z;
  formatEther : Z -> string;
  parseUnits : string -> Z -> outcome Z;
  formatUnits : Z -> Z -> string;
  (* JavaScript built-ins *)
  JSON_stringify : jsval -> string;
  JSON_parse : string -> outcome jsval;
  Date_now : nat -> Z;
  Math_random : nat -> Q;
  type_error_message : string;
}.

(** ** The state a flow acts on *)
Record world : Type := {
  cache : gmap string jsval;
  documents : list InteractionRecord;
  replies : list string;
  broadcasts : list chain_write;
  clock : nat;
}.

(** [documents]: the records created, oldest first.  [replies]: the texts
    of the [callback?.(...)] calls, oldest first.  [broadcasts]: the
    transactions handed to the wallet client, oldest first. *)

Definition with_cache (c : gmap string jsval) (w : world) : world :=
  {| cache := c; documents := documents w; replies := replies w;
     broadcasts := broadcasts w; clock := clock w |}.

Definition with_clock (n : nat) (w : world) : world :=
  {| cache := cache w; documents := documents w; replies := replies w;
     broadcasts := broadcasts w; clock := n |}.

Definition add_document (r : InteractionRecord) (w : world) : world :=
  {| cache := cache w; documents := documents w ++ [r]; replies := replies w;
     broadcasts := broadcasts w; clock := clock w |}.

Definition add_reply (t : string) (w : world) : world :=
  {| cache := cache w; documents := documents w; replies := replies w ++ [t];
     broadcasts := broadcasts w; clock := clock w |}.

Definition add_broadcast (c : chain_write) (w : world) : world :=
  {| cache := cache w; documents := documents w; replies := replies w;
     broadcasts := broadcasts w ++ [c]; clock := clock w |}.

(** ** Computations: state and exceptions *)

Definition M (A : Type) : Type := world -> outcome A * world.

Definition ret {A : Type} (a : A) : M A := fun w => (Ok a, w).

Definition throw {A : Type} (e : exn) : M A := fun w => (Throw e, w).

Definition bind {A B : Type} (m : M A) (f : A -> M B) : M B :=
  fun w =>
    match m w with
    | (Ok a, w') => f a w'
    | (Throw e, w') => (Throw e, w')
    end.

(** [try { m } catch (error) { handler }] *)
Definition try_catch {A : Type} (m : M A) (handler : exn -> M A) : M A :=
  fun w =>
    match m w with
    | (Ok a, w') => (Ok a, w')
    | (Throw e, w') => handler e w'
    end.

Definition lift {A : Type} (o : outcome A) : M A := fun w => (o, w).

Notation "'let*' x ':=' m 'in' k" := (bind m (fun x => k))
  (at level 10, x name, m at level 100, k at level 200).
Notation "m ';;' k" := (bind m (fun _ => k))
  (at level 100, k at level 200, right associativity).

(** A call of the host: the number of calls made before it; the call is
    counted. *)
Definition tick : M nat := fun w => (Ok (clock w), with_clock (S (clock w)) w).

(** [callback?.({ text }, [])]: the text is recorded; a runtime that passes
    no callback drops it. *)
Definition reply (text : string) : M unit := fun w => (Ok tt, add_reply text w).

Section Calls.
Variable h : host.

(** [agent.cacheManager.get(key)]; a missing key gives [undefined]. *)
Definition cache_get (key : string) : M jsval :=
  let* t := tick in
  match cache_get_fault h t with
  | Some e => throw e
  | None => fun w => (Ok (default JUndefined (cache w !! key)), w)
  end.

(** [agent.cacheManager.set(key, value)] *)
Definition cache_set (key : string) (v : jsval) : M unit :=
  let* t := tick in
  match cache_set_fault h t with
  | Some e => throw e
  | None => fun w => (Ok tt, with_cache (<[key := v]> (cache w)) w)
  end.

(** [agent.documentsManager.createMemory(record)] *)
Definition createMemory (r : InteractionRecord) : M unit :=
  let* t := tick in
  match createMemory_fault h t with
  | Some e => throw e
  | None => fun w => (Ok tt, add_document r w)
  end.

(** [publicClient.getBalance({ address })] *)
Definition getBalance (address : string) : M Z :=
  let* t := tick in lift (rpc_getBalance h t address).

(** [publicClient.readContract({ address, abi, functionName, args })] *)
Definition readContract (contract functionName : string) (args : list string) : M Z :=
  let* t := tick in lift (rpc_readContract h t contract functionName args).

(** [walletClient.sendTransaction] and [walletClient.writeContract]: the
    transaction is handed over, the node answers with its hash or fails. *)
Definition broadcast (c : chain_write) : M string :=
  let* t := tick in
  (fun w => (Ok tt, add_broadcast c w)) ;;
  lift (rpc_sendTransaction h t c).

(** [publicClient.waitForTransactionReceipt({ hash, confirmations: 1 })] *)
Definition waitForTransactionReceipt (hash : string) : M Receipt :=
  let* t := tick in lift (rpc_waitForTransactionReceipt h t hash).

(** [generateId()]: 31 calls of [Math.random()]. *)
Definition newId : M string :=
  fun w =>
    (Ok (generateId (fun k => Math_random h (clock w + k)%nat)),
     with_clock (clock w + generateId_draws)%nat w).
End Calls.

(** ** Wallet store ([actions/createWallet.ts]) *)

(** What [getUserWallet] returns: the two properties read from the stored
    value, whatever they are. *)
Record wallet : Type := { wallet_address : jsval; wallet_privateKey : jsval }.

(** The [walletData] of a new wallet. *)
Record WalletData : Type := {
  wd_address : string;
  wd_privateKey : string;
  wd_createdAt : Z;
}.

(** [walletData] as a value: the object literal of the handler. *)
Definition wallet_object (d : WalletData) : jsval :=
  JObj [ ("address", JStr (wd_address d));
         ("privateKey", JStr (wd_privateKey d));
         ("createdAt", JNum (wd_createdAt d)) ].

Definition user_wallet_key (userId : string) : string := "user_wallet:" +:+ userId.
Definition address_to_user_key (address : string) : string :=
  "address_to_user:" +:+ address.

Section Store.
Variable h : host.

(** [v.name]: reading a property of [undefined] or [null] throws. *)
Definition get_prop (v : jsval) (name : string) : outcome jsval :=
  match v with
  | JUndefined | JNull => Throw (Error (type_error_message h))
  | JObj fields =>
      Ok (match assoc name fields with Some x => x | None => JUndefined end)
  | JBool _ | JNum _ | JStr _ => Ok JUndefined
  end.

Definition userHasWallet (userId : string) : M bool :=
  try_catch
    (let* userWalletRecord := cache_get h (user_wallet_key userId) in
     ret (truthy userWalletRecord))
    (fun _ => ret false).

Definition saveUserWallet (userId : string) (walletData : WalletData) : M bool :=
  try_catch
    (cache_set h (user_wallet_key userId)
       (JStr (JSON_stringify h (wallet_object walletData))) ;;
     cache_set h (address_to_user_key (wd_address walletData)) (JStr userId) ;;
     ret true)
    (fun _ => ret false).

Definition getUserWallet (userId : string) : M (option wallet) :=
  try_catch
    (let* walletData := cache_get h (user_wallet_key userId) in
     if negb (truthy walletData) then ret None
     else
       let* parsedData :=
         match walletData with
         | JStr s => lift (JSON_parse h s)
         | _ => ret walletData
         end in
       let* a := lift (get_prop parsedData "address") in
       let* k := lift (get_prop parsedData "privateKey") in
       ret (Some {| wallet_address := a; wallet_privateKey := k |}))
    (fun _ => ret None).

Definition getUserIdByAddress (address : string) : M (option string) :=
  try_catch
    (let* userId := cache_get h (address_to_user_key address) in
     ret (match userId with JStr s => Some s | _ => None end))
    (fun _ => ret None).

(** ** Wallet session ([providers/wallet.ts]) *)

(** A [WalletProvider]: the account of its private key. *)
Record WalletProvider : Type := { wp_privateKey : string; wp_address : string }.

(** [new WalletProvider(privateKey, rpcUrl)]; [privateKeyToAccount] throws
    on a key it does not accept. *)
Definition new_WalletProvider (privateKey : string) : outcome WalletProvider :=
  match privateKeyToAccount h privateKey with
  | Ok a => Ok {| wp_privateKey := privateKey; wp_address := a |}
  | Throw e => Throw e
  end.

(** [key.startsWith("0x") ? key : `0x${key}`] *)
Definition normalize_key (key : string) : string :=
  if startsWith "0x" key then key else "0x" +:+ key.

Definition initUserWalletProvider (userId : string) : M (option WalletProvider) :=
  try_catch
    (let* userWallet := getUserWallet userId in
     match userWallet with
     | None => ret None
     | Some uw =>
         match wallet_privateKey uw with
         | JStr key =>
             let* p := lift (new_WalletProvider (normalize_key key)) in
             ret (Some p)
         | _ => throw (Error (type_error_message h))
         end
     end)
    (fun _ => ret None).

Definition initWalletProvider : option WalletProvider :=
  match getSetting h "EVM_PRIVATE_KEY" with
  | Some (String _ _ as key) =>
      match new_WalletProvider (normalize_key key) with
      | Ok p => Some p
      | Throw _ => None
      end
  | _ => None
  end.

(** [provider.getBalance()] *)
Definition wp_getBalance (p : WalletProvider) : M string :=
  let* balance := getBalance h (wp_address p) in
  ret (formatEther h balance).

(** [provider.getTokenBalance(tokenAddress)]: two reads, one after the
    other. *)
Definition wp_getTokenBalance (p : WalletProvider) (tokenAddress : string) : M string :=
  let* decimals := readContract h tokenAddress "decimals" [] in
  let* balance := readContract h tokenAddress "balanceOf" [wp_address p] in
  ret (formatUnits h balance decimals).
End Store.

(** ** Replies shared by the flows *)

Definition dquote : string := String (ascii_of_N 34) EmptyString.

Definition msg_no_account : string :=
  "No se pudo identificar tu cuenta. Por favor inténtalo de nuevo o contacta a soporte.".

Definition msg_no_address : string :=
  "No se pudo identificar una dirección de wallet válida en tu mensaje. Por favor, proporciona una dirección en formato 0x...".

Definition msg_no_access : string :=
  "No se pudo acceder a tu wallet. Por favor intenta crear una nueva wallet o contacta a soporte.".

(** ** Wallet provisioning flow ([createWalletAction.handler]) *)

Definition msg_wallet_unreadable : string :=
  "Se detectó una wallet registrada, pero no se pudo recuperar su información. Por favor contacta a soporte.".

Definition msg_wallet_exists (address : string) : string :=
  "Ya tienes una wallet creada. Tu dirección es:" +:+ newline +:+ newline
  +:+ "`" +:+ address +:+ "`" +:+ newline +:+ newline
  +:+ "Tu wallet está segura y lista para usar.".

Definition msg_creating : string :=
  "Creando una nueva wallet para ti. Esto tomará solo un momento...".

Definition msg_not_saved : string :=
  "Hubo un problema al guardar tu wallet. Por favor inténtalo de nuevo más tarde.".

Definition msg_wallet_created (address : string) : string :=
  join_lines
    [ "✅ ¡Tu wallet ha sido creada con éxito!";
      EmptyString;
      "Tu dirección pública es:";
      "`" +:+ address +:+ "`";
      EmptyString;
      "Esta wallet está asociada a tu cuenta de usuario y puede ser utilizada para:";
      "- Recibir y enviar tokens MNT";
      "- Recibir y enviar tokens AISHOP";
      "- Interactuar con aplicaciones en la red Mantle";
      EmptyString;
      "Tu clave privada está almacenada de forma segura y se utilizará automáticamente cuando necesites realizar transacciones.";
      EmptyString;
      "Puedes consultar tu balance en cualquier momento escribiendo "
        +:+ dquote +:+ "ver mi balance" +:+ dquote +:+ " o "
        +:+ dquote +:+ "check balance" +:+ dquote +:+ "." ].

Section CreateWallet.
Variable h : host.

Definition createWallet_handler (memory : Memory) : M bool :=
  try_catch
    (match resolve_userId memory with
     | None => reply msg_no_account ;; ret false
     | Some userId =>
         let* hasWallet := userHasWallet h userId in
         if hasWallet then
           let* wallet := getUserWallet h userId in
           match wallet with
           | None => reply msg_wallet_unreadable ;; ret false
           | Some wl =>
               reply (msg_wallet_exists (to_js_string (wallet_address wl))) ;;
               ret true
           end
         else
           reply msg_creating ;;
           let* t := tick in
           let privateKey := generatePrivateKey h t in
           let* address := lift (privateKeyToAccount h privateKey) in
           let* t' := tick in
           let walletData :=
             {| wd_address := address; wd_privateKey := privateKey;
                wd_createdAt := Date_now h t' |} in
           let* saved := saveUserWallet h userId walletData in
           if negb saved then reply msg_not_saved ;; ret false
           else
             let* id := newId h in
             createMemory h
               {| rec_id := id;
                  rec_userId := Some userId;
                  rec_agentId := memory_agentId memory;
                  rec_roomId := memory_roomId memory;
                  rec_text :=
                    "Se ha creado una nueva wallet para el usuario: " +:+ address;
                  rec_action := "CREATE_WALLET";
                  rec_payload := WalletCreated address (wd_createdAt walletData) |} ;;
             reply (msg_wallet_created address) ;;
             ret true
     end)
    (fun error =>
       reply ("Error al crear wallet: " +:+ error_message error) ;; ret false).
End CreateWallet.

(** ** Native transfer flow ([transferMNTAction.handler]) *)

Definition msg_insufficient (held requested symbol : string) : string :=
  "Balance insuficiente para realizar la transferencia. Tienes " +:+ held
  +:+ " " +:+ symbol +:+ " y estás intentando enviar " +:+ requested
  +:+ " " +:+ symbol +:+ ".".

Definition msg_processing (requested symbol from to : string) : string :=
  "Procesando transferencia de " +:+ requested +:+ " " +:+ symbol
  +:+ " desde tu wallet personal (" +:+ from +:+ ") hacia " +:+ to +:+ "...".

(** [receipt.status === "success" ? "Exitoso" : "Pendiente"] *)
Definition status_text (r : Receipt) : string :=
  if String.eqb (receipt_status r) "success" then "Exitoso" else "Pendiente".

Definition msg_mnt_transferred (amountStr from to txHash : string) (r : Receipt) : string :=
  join_lines
    [ "✅ Transferencia completada con éxito:";
      EmptyString;
      "Cantidad: " +:+ amountStr +:+ " MNT";
      "De: " +:+ from +:+ " (tu wallet)";
      "Para: " +:+ to;
      "Hash de Transacción: " +:+ txHash;
      "Estado: " +:+ status_text r;
      EmptyString;
      "Ver en el explorador: https://sepolia.mantlescan.xyz/tx/" +:+ txHash ].

Section TransferMNT.
Variable h : host.

Definition transferMNT_handler (memory : Memory) : M bool :=
  try_catch
    (match resolve_userId memory with
     | None => reply msg_no_account ;; ret false
     | Some userId =>
         let* hasWallet := userHasWallet h userId in
         if negb hasWallet then
           reply "Necesitas crear una wallet antes de poder realizar transferencias. Puedes decirme 'crear wallet' para configurar una." ;;
           ret false
         else
           let* userWalletProvider := initUserWalletProvider h userId in
           match userWalletProvider with
           | None => reply msg_no_access ;; ret false
           | Some provider =>
               (* [text.match] on an undefined text throws *)
               let* to :=
                 match content_text memory with
                 | Some text => ret (extractEthereumWalletAddress text)
                 | None => throw (Error (type_error_message h))
                 end in
               match to with
               | None => reply msg_no_address ;; ret false
               | Some to =>
                   match nonempty (extractAmount (text_or_empty memory)) with
                   | None =>
                       reply "No se pudo identificar la cantidad de MNT a transferir. Por favor, especifica una cantidad (por ejemplo, '0.1 MNT')." ;;
                       ret false
                   | Some amountStr =>
                       let* value := lift (parseEther h amountStr) in
                       let fromAddress := wp_address provider in
                       let* currentBalance := getBalance h fromAddress in
                       if (currentBalance <? value)%Z then
                         reply (msg_insufficient (formatEther h currentBalance)
                                  amountStr "MNT") ;;
                         ret false
                       else
                         reply (msg_processing amountStr "MNT" fromAddress to) ;;
                         let* txHash :=
                           broadcast h (SendTransaction fromAddress to value) in
                         let* receipt := waitForTransactionReceipt h txHash in
                         let successText :=
                           msg_mnt_transferred amountStr fromAddress to txHash receipt in
                         let* id := newId h in
                         createMemory h
                           {| rec_id := id;
                              rec_userId := memory_userId memory;
                              rec_agentId := memory_agentId memory;
                              rec_roomId := memory_roomId memory;
                              rec_text := successText;
                              rec_action := "TRANSFER_MNT";
                              rec_payload :=
                                Transaction
                                  {| tx_hash := txHash; tx_from := fromAddress;
                                     tx_to := to; tx_token := None;
                                     tx_amount := amountStr;
                                     tx_blockNumber := receipt_blockNumber receipt;
                                     tx_status := receipt_status receipt |} |} ;;
                         reply successText ;;
                         ret true
                   end
               end
           end
     end)
    (fun error =>
       reply ("Error al transferir MNT: " +:+ error_message error) ;; ret false).
End TransferMNT.

(** ** Token transfer flow ([transferERC20Action.handler]) *)

Definition msg_erc20_transferred (t : TokenConfig) (amountStr from to txHash : string)
    (r : Receipt) : string :=
  join_lines
    [ "✅ Transferencia de token ERC20 completada con éxito:";
      EmptyString;
      "Token: " +:+ token_symbol t +:+ " (" +:+ token_name t +:+ ")";
      "Cantidad: " +:+ amountStr +:+ " " +:+ token_symbol t;
      "De: " +:+ from +:+ " (tu wallet)";
      "Para: " +:+ to;
      "Hash de Transacción: " +:+ txHash;
      "Estado: " +:+ status_text r;
      EmptyString;
      "Ver en el explorador: https://sepolia.mantlescan.xyz/tx/" +:+ txHash ].

Section TransferERC20.
Variable h : host.

(** The balance check of the token flow: [true] when the handler returns
    there.  A failure of the read is caught and logged, and the flow goes
    on. *)
Definition erc20_preflight (t : TokenConfig) (tokenAddress fromAddress : string)
    (requested : string) (amountInSmallestUnit : Z) : M bool :=
  try_catch
    (let* tokenBalance := readContract h tokenAddress "balanceOf" [fromAddress] in
     if (tokenBalance <? amountInSmallestUnit)%Z then
       reply (msg_insufficient (formatUnits h tokenBalance (token_decimals t))
                requested (token_symbol t)) ;;
       ret true
     else ret false)
    (fun _ => ret false).

Definition transferERC20_handler (memory : Memory) : M bool :=
  try_catch
    (match resolve_userId memory with
     | None => reply msg_no_account ;; ret false
     | Some userId =>
         let* hasWallet := userHasWallet h userId in
         if negb hasWallet then
           reply "Necesitas crear una wallet antes de poder realizar transferencias de tokens. Puedes decirme 'crear wallet' para configurar una." ;;
           ret false
         else
           let* userWalletProvider := initUserWalletProvider h userId in
           match userWalletProvider with
           | None => reply msg_no_access ;; ret false
           | Some provider =>
               match extractEthereumWalletAddress (text_or_empty memory) with
               | None => reply msg_no_address ;; ret false
               | Some toAddress =>
                   match extractTokenTransferInfo (text_or_empty memory) with
                   | None =>
                       reply "No se pudo identificar la cantidad y el tipo de token a transferir. Por favor, especifica una cantidad y el token (por ejemplo, '100 AISHOP')." ;;
                       ret false
                   | Some tokenInfo =>
                       match assoc (symbol tokenInfo) TOKENS with
                       | Some (ERC20Token _ _ decimals tokenAddress as token) =>
                           let* amountInSmallestUnit :=
                             lift (parseUnits h (amount tokenInfo) decimals) in
                           let fromAddress := wp_address provider in
                           let* stop :=
                             erc20_preflight token tokenAddress fromAddress
                               (amount tokenInfo) amountInSmallestUnit in
                           if stop then ret false
                           else
                             reply (msg_processing (amount tokenInfo)
                                      (token_symbol token) fromAddress toAddress) ;;
                             let* txHash :=
                               broadcast h (WriteContract fromAddress tokenAddress
                                              toAddress amountInSmallestUnit) in
                             let* receipt := waitForTransactionReceipt h txHash in
                             let successText :=
                               msg_erc20_transferred token (amount tokenInfo)
                                 fromAddress toAddress txHash receipt in
                             let* id := newId h in
                             createMemory h
                               {| rec_id := id;
                                  rec_userId := memory_userId memory;
                                  rec_agentId := memory_agentId memory;
                                  rec_roomId := memory_roomId memory;
                                  rec_text := successText;
                                  rec_action := "TRANSFER_ERC20";
                                  rec_payload :=
                                    Transaction
                                      {| tx_hash := txHash; tx_from := fromAddress;
                                         tx_to := toAddress;
                                         tx_token := Some (token_symbol token, tokenAddress);
                                         tx_amount := amount tokenInfo;
                                         tx_blockNumber := receipt_blockNumber receipt;
                                         tx_status := receipt_status receipt |} |} ;;
                             reply successText ;;
                             ret true
                       | _ =>
                           reply ("No se encontró configuración para el token "
                                  +:+ symbol tokenInfo +:+ " o no es un token ERC20.") ;;
                           ret false
                       end
                   end
               end
           end
     end)
    (fun error =>
       reply ("Error al transferir token ERC20: " +:+ error_message error) ;;
       ret false).
End TransferERC20.

(** ** Balance query flow (the [checkBalanceAction.handler]) *)

Definition msg_token_error : string := "Error al obtener balance".

(** [`${balances.SYMBOL}`]; a property never set reads [undefined]. *)
Definition balance_of (balances : list (string * string)) (symbol : string) : string :=
  match assoc symbol balances with
  | Some v => v
  | None => "undefined"
  end.

(** The balance lines of the action's report. *)
Definition action_balance_line (symbol value : string) : string :=
  symbol +:+ ": " +:+ value.

Definition msg_balances_of (address : string) (balances : list (string * string)) : string :=
  join_lines
    [ "Balances en Mantle Sepolia Testnet para " +:+ address +:+ ":";
      action_balance_line "MNT" (balance_of balances "MNT");
      action_balance_line "AISHOP" (balance_of balances "AISHOP");
      EmptyString;
      "Ver en Explorer: https://sepolia.mantlescan.xyz/address/" +:+ address ].

Definition msg_own_balances (address : string) (balances : list (string * string)) : string :=
  join_lines
    [ "📊 Tus Balances en Mantle Sepolia Testnet:";
      EmptyString;
      "Dirección: " +:+ address;
      action_balance_line "MNT" (balance_of balances "MNT");
      action_balance_line "AISHOP" (balance_of balances "AISHOP");
      EmptyString;
      "Ver en Explorer: https://sepolia.mantlescan.xyz/address/" +:+ address ].

Definition msg_no_wallet_yet : string :=
  join_lines
    [ "No tienes una wallet creada todavía. Para crear tu wallet personal, simplemente escribe:";
      EmptyString;
      dquote +:+ "Crear wallet" +:+ dquote;
      EmptyString;
      "Una vez creada, podrás consultar tus balances y realizar transacciones." ].

Section CheckBalance.
Variable h : host.

(** The [AISHOP] entry of [balances]: [fetch], given the address and the
    decimals of the token, reads and formats the balance; its failure leaves
    the marker in the entry.  Reading [type] of
    a missing token throws. *)
Definition aishop_entry (fetch : string -> Z -> M string) : M (list (string * string)) :=
  match assoc "AISHOP" TOKENS with
  | Some (ERC20Token _ _ decimals tokenAddress) =>
      let* v := try_catch (fetch tokenAddress decimals) (fun _ => ret msg_token_error) in
      ret [("AISHOP", v)]
  | Some (NativeToken _ _ _) => ret []
  | None => throw (Error (type_error_message h))
  end.

Definition checkBalance_handler (memory : Memory) : M bool :=
  try_catch
    (match resolve_userId memory with
     | None => reply msg_no_account ;; ret false
     | Some userId =>
         match extractEthereumWalletAddress (text_or_empty memory) with
         | Some addressFromMessage =>
             match initWalletProvider h with
             | None =>
                 reply "No se pudo inicializar el cliente para consultar balances. Contacta a soporte." ;;
                 ret false
             | Some _ =>
                 let* nativeBalance := getBalance h addressFromMessage in
                 let* token_entry :=
                   aishop_entry
                     (fun tokenAddress decimals =>
                        let* tokenBalance :=
                          readContract h tokenAddress "balanceOf" [addressFromMessage] in
                        ret (formatUnits h tokenBalance decimals)) in
                 let balances := ("MNT", formatEther h nativeBalance) :: token_entry in
                 let balanceText := msg_balances_of addressFromMessage balances in
                 let* id := newId h in
                 createMemory h
                   {| rec_id := id;
                      rec_userId := memory_userId memory;
                      rec_agentId := memory_agentId memory;
                      rec_roomId := memory_roomId memory;
                      rec_text := balanceText;
                      rec_action := "CHECK_BALANCE";
                      rec_payload := Balances balances addressFromMessage |} ;;
                 reply balanceText ;;
                 ret true
             end
         | None =>
             let* hasWallet := userHasWallet h userId in
             if negb hasWallet then reply msg_no_wallet_yet ;; ret false
             else
               let* userWalletProvider := initUserWalletProvider h userId in
               match userWalletProvider with
               | None =>
                   reply "Hubo un problema al acceder a tu wallet. Por favor intenta crear una nueva wallet o contacta a soporte." ;;
                   ret false
               | Some provider =>
                   let userAddress := wp_address provider in
                   let* nativeBalance := wp_getBalance h provider in
                   let* token_entry :=
                     aishop_entry (fun tokenAddress _ =>
                                     wp_getTokenBalance h provider tokenAddress) in
                   let balances := ("MNT", nativeBalance) :: token_entry in
                   let balanceText := msg_own_balances userAddress balances in
                   let* id := newId h in
                   createMemory h
                     {| rec_id := id;
                        rec_userId := memory_userId memory;
                        rec_agentId := memory_agentId memory;
                        rec_roomId := memory_roomId memory;
                        rec_text := balanceText;
                        rec_action := "CHECK_BALANCE";
                        rec_payload := Balances balances userAddress |} ;;
                   reply balanceText ;;
                   ret true
               end
         end
     end)
    (fun error =>
       reply ("Error al verificar balances: " +:+ error_message error) ;; ret false).
End CheckBalance.

(** ** Wallet provider ([walletProvider.get]) *)

(** [/0x[a-fA-F0-9]{40}/i] at the head of [s]: under [i] the [x] is matched
    in either case. *)
Definition eth_address_i_at (s : string) : option string :=
  match s with
  | String "0" (String c s') =>
      if eq_ignore_case "x" c then
        match hex_run 40 s' with
        | Some (m, _) => Some (String "0" (String c m))
        | None => None
        end
      else None
  | _ => None
  end.

(** [text.match(re)] without [g]: the leftmost match. *)
Fixpoint match_eth_address_i (s : string) : option string :=
  match eth_address_i_at s with
  | Some m => Some m
  | None =>
      match s with
      | String _ s' => match_eth_address_i s'
      | EmptyString => None
      end
  end.

(** [memory.content?.text?.match(re)]: nothing when the text is missing. *)
Definition provider_address (m : Memory) : option string :=
  match content_text m with
  | Some text => match_eth_address_i text
  | None => None
  end.

(** The balance lines of the provider's report. *)
Definition provider_balance_line (symbol value : string) : string :=
  "Balance " +:+ symbol +:+ ": " +:+ value +:+ " " +:+ symbol.

Definition info_address (address native aishop : string) : string :=
  join_lines
    [ "Información de Dirección en Mantle Sepolia:";
      "Dirección: " +:+ address;
      provider_balance_line "MNT" native;
      provider_balance_line "AISHOP" aishop;
      EmptyString;
      "Ver en Explorador: https://sepolia.mantlescan.xyz/address/" +:+ address ].

Definition info_own_wallet (address native aishop : string) : string :=
  join_lines
    [ "Información de Tu Wallet en Mantle Sepolia:";
      "Dirección: " +:+ address;
      provider_balance_line "MNT" native;
      provider_balance_line "AISHOP" aishop;
      EmptyString;
      "Tu wallet está correctamente configurada y lista para transacciones.";
      "Ver en Explorador: https://sepolia.mantlescan.xyz/address/" +:+ address ].

Definition info_no_wallet : string :=
  join_lines
    [ "No tienes una wallet creada. Para crear tu wallet personal, simplemente dime:";
      EmptyString;
      dquote +:+ "Crear wallet" +:+ dquote;
      EmptyString;
      "Una vez creada tu wallet, podrás consultar tu balance y realizar transacciones." ].

Definition info_no_access : string :=
  join_lines
    [ "Parece que hay un problema al acceder a tu wallet. Por favor, intenta las siguientes soluciones:";
      EmptyString;
      "1. Escribe 'crear wallet' para intentar restablecer tu wallet.";
      "2. Contacta a soporte si el problema persiste." ].

Section Provider.
Variable h : host.

(** [aishopBalance]: [No disponible] unless the token is contract-backed;
    [fetch] reads and formats the balance, and its failure leaves the
    marker. *)
Definition provider_aishop (fetch : string -> M string) : M string :=
  match assoc "AISHOP" TOKENS with
  | Some (ERC20Token _ _ _ tokenAddress) =>
      try_catch (fetch tokenAddress) (fun _ => ret "Error al consultar")
  | Some (NativeToken _ _ _) => ret "No disponible"
  | None => throw (Error (type_error_message h))
  end.

Definition walletProvider_get (memory : Memory) : M string :=
  try_catch
    (match resolve_userId memory with
     | None => ret msg_no_account
     | Some userId =>
         match provider_address memory with
         | Some addressMatch =>
             let address := toLowerCase addressMatch in
             try_catch
               (let* nativeBalance := getBalance h address in
                let* aishopBalance :=
                  provider_aishop
                    (fun tokenAddress =>
                       let* tokenDecimals :=
                         readContract h tokenAddress "decimals" [] in
                       let* tokenBalance :=
                         readContract h tokenAddress "balanceOf" [address] in
                       ret (formatUnits h tokenBalance tokenDecimals)) in
                ret (info_address address (formatEther h nativeBalance) aishopBalance))
               (fun error =>
                  ret ("Error al obtener el balance de " +:+ address +:+ ": "
                       +:+ error_message error))
         | None =>
             let* hasWallet := userHasWallet h userId in
             if negb hasWallet then ret info_no_wallet
             else
               let* provider := initUserWalletProvider h userId in
               match provider with
               | None => ret info_no_access
               | Some provider =>
                   try_catch
                     (let address := wp_address provider in
                      let* mntBalance := wp_getBalance h provider in
                      let* aishopBalance :=
                        provider_aishop (wp_getTokenBalance h provider) in
                      ret (info_own_wallet address mntBalance aishopBalance))
                     (fun error =>
                        ret ("Error al acceder a la información de la wallet: "
                             +:+ error_message error))
               end
         end
     end)
    (fun _ =>
       ret "Error al acceder a la información de la wallet. Por favor, asegúrate de que tu configuración es correcta.").
End Provider.

(** ** A reference host

    A concrete host on which the flows run: a JSON codec for records of
    strings and integers, decimal units, fixed keys and a node that answers
    from a table.  The properties below hold for every host; this one shows
    their hypotheses can be met and carries the concrete runs. *)
Module Reference.

Definition backslash : string := String (ascii_of_N 92) EmptyString.

Definition hex_char (n : N) : ascii :=
  if (n <? 10)%N then ascii_of_N (48 + n) else ascii_of_N (87 + n).

(** One character inside a JSON string: the quote, the backslash and the
    controls are escaped. *)
Definition escape_char (c : ascii) : string :=
  let n := N_of_ascii c in
  if (n =? 34)%N then backslash +:+ dquote
  else if (n =? 92)%N then backslash +:+ backslash
  else if (n =? 8)%N then backslash +:+ "b"
  else if (n =? 12)%N then backslash +:+ "f"
  else if (n =? 10)%N then backslash +:+ "n"
  else if (n =? 13)%N then backslash +:+ "r"
  else if (n =? 9)%N then backslash +:+ "t"
  else if (n <? 32)%N then
    backslash +:+ "u00"
    +:+ String (hex_char (n / 16)) (String (hex_char (n mod 16)) EmptyString)
  else String c EmptyString.

Fixpoint escape (s : string) : string :=
  match s with
  | EmptyString => EmptyString
  | String c s' => escape_char c +:+ escape s'
  end.

Definition quote (s : string) : string := dquote +:+ escape s +:+ dquote.

(** [JSON.stringify] of a value; a member whose value is [undefined] is
    left out. *)
Fixpoint stringify (v : jsval) : string :=
  match v with
  | JUndefined | JNull => "null"
  | JBool true => "true"
  | JBool false => "false"
  | JNum n => toString10 n
  | JStr s => quote s
  | JObj fields =>
      "{" +:+
      (fix members (first : bool) (l : list (string * jsval)) : string :=
         match l with
         | [] => EmptyString
         | (_, JUndefined) :: l' => members first l'
         | (k, x) :: l' =>
             (if first then EmptyString else ",")
             +:+ quote k +:+ ":" +:+ stringify x +:+ members false l'
         end) true fields
      +:+ "}"
  end.

Definition hex_value (c : ascii) : option N :=
  let n := N_of_ascii c in
  if ((48 <=? n) && (n <=? 57))%N then Some (n - 48)%N
  else if ((97 <=? n) && (n <=? 102))%N then Some (n - 87)%N
  else if ((65 <=? n) && (n <=? 70))%N then Some (n - 55)%N
  else None.

Definition cons_char (c : ascii) (o : option (string * string)) : option (string * string) :=
  match o with
  | Some (b, r) => Some (String c b, r)
  | None => None
  end.

(** The four digits of a [\u] escape; the codec reads the ASCII ones. *)
Definition unicode_escape (a b c d : ascii) : option ascii :=
  match hex_value a, hex_value b, hex_value c, hex_value d with
  | Some 0%N, Some 0%N, Some x, Some y =>
      if (x <? 8)%N then Some (ascii_of_N (16 * x + y)) else None
  | _, _, _, _ => None
  end.

(** A JSON string after its opening quote: its characters and what follows
    the closing quote. *)
Fixpoint parse_string_body (s : string) : option (string * string) :=
  match s with
  | EmptyString => None
  | String c s1 =>
      let n := N_of_ascii c in
      if (n =? 34)%N then Some (EmptyString, s1)
      else if (n =? 92)%N then
        match s1 with
        | String e s2 =>
            let m := N_of_ascii e in
            if (m =? 34)%N then cons_char e (parse_string_body s2)
            else if (m =? 92)%N then cons_char e (parse_string_body s2)
            else if (m =? 47)%N then cons_char e (parse_string_body s2)
            else if (m =? 98)%N then cons_char (ascii_of_N 8) (parse_string_body s2)
            else if (m =? 102)%N then cons_char (ascii_of_N 12) (parse_string_body s2)
            else if (m =? 110)%N then cons_char (ascii_of_N 10) (parse_string_body s2)
            else if (m =? 114)%N then cons_char (ascii_of_N 13) (parse_string_body s2)
            else if (m =? 116)%N then cons_char (ascii_of_N 9) (parse_string_body s2)
            else if (m =? 117)%N then
              match s2 with
              | String h1 (String h2 (String h3 (String h4 s3))) =>
                  match unicode_escape h1 h2 h3 h4 with
                  | Some u => cons_char u (parse_string_body s3)
                  | None => None
                  end
              | _ => None
              end
            else None
        | EmptyString => None
        end
      else if (n <? 32)%N then None
      else cons_char c (parse_string_body s1)
  end.

(** JSON white space. *)
Fixpoint skip_ws (s : string) : string :=
  match s with
  | String c s' =>
      let n := N_of_ascii c in
      if ((n =? 32) || (n =? 9) || (n =? 10) || (n =? 13))%N then skip_ws s' else s
  | EmptyString => s
  end.

(** The characters of an integer literal, a sign and digits, and what
    follows them. *)
Definition number_lexeme (s : string) : string * string :=
  let '(sign, s1) :=
    match s with
    | String "-" s' => ("-", s')
    | _ => (EmptyString, s)
    end in
  let '(ds, r) := digits_run s1 in
  (sign +:+ ds, r).

(** An integer literal: accepted when it is the decimal writing of its
    value. *)
Definition parse_number (s : string) : option (jsval * string) :=
  let '(lexeme, r) := number_lexeme s in
  match DecimalString.NilZero.int_of_string lexeme with
  | Some d =>
      let n := Z.of_int d in
      if String.eqb (toString10 n) lexeme then
        match r with
        | String "." _ | String "e" _ | String "E" _ => None
        | _ => Some (JNum n, r)
        end
      else None
  | None => None
  end.

(** A member set again takes the place of the first. *)
Fixpoint set_field (k : string) (v : jsval) (l : list (string * jsval)) : list (string * jsval) :=
  match l with
  | [] => [(k, v)]
  | (k', v') :: l' =>
      if String.eqb k k' then (k, v) :: l' else (k', v') :: set_field k v l'
  end.

(** The members of an object after its opening brace; [pv] reads a value. *)
Fixpoint parse_members (pv : string -> option (jsval * string)) (fuel : nat)
    (s : string) (acc : list (string * jsval)) : option (jsval * string) :=
  match fuel with
  | O => None
  | S fuel' =>
      match skip_ws s with
      | String q r =>
          if (N_of_ascii q =? 34)%N then
            match parse_string_body r with
            | Some (k, r1) =>
                match skip_ws r1 with
                | String ":" r2 =>
                    match pv r2 with
                    | Some (v, r3) =>
                        match skip_ws r3 with
                        | String "," r4 => parse_members pv fuel' r4 (set_field k v acc)
                        | String "}" r4 => Some (JObj (set_field k v acc), r4)
                        | _ => None
                        end
                    | None => None
                    end
                | _ => None
                end
            | None => None
            end
          else None
      | EmptyString => None
      end
  end.

Definition literal (word : string) (v : jsval) (s : string) : option (jsval * string) :=
  if startsWith word s then Some (v, drop_string (String.length word) s) else None.

Fixpoint parse_value (fuel : nat) (s : string) : option (jsval * string) :=
  match fuel with
  | O => None
  | S fuel' =>
      match skip_ws s with
      | String c r =>
          let n := N_of_ascii c in
          if (n =? 34)%N then
            match parse_string_body r with
            | Some (b, r') => Some (JStr b, r')
            | None => None
            end
          else if (n =? 123)%N then
            match skip_ws r with
            | String "}" r' => Some (JObj [], r')
            | _ => parse_members (parse_value fuel') fuel' r []
            end
          else if (n =? 116)%N then literal "true" (JBool true) (String c r)
          else if (n =? 102)%N then literal "false" (JBool false) (String c r)
          else if (n =? 110)%N then literal "null" JNull (String c r)
          else parse_number (String c r)
      | EmptyString => None
      end
  end.

(** [JSON.parse]: one value, white space around it, nothing else. *)
Definition parse (s : string) : outcome jsval :=
  match parse_value (S (String.length s)) s with
  | Some (v, r) =>
      match skip_ws r with
      | EmptyString => Ok v
      | String _ _ => Throw (Error "Unexpected non-whitespace character after JSON")
      end
  | None => Throw (Error "Unexpected token in JSON")
  end.

(** *** Decimal units *)

Fixpoint zeros (n : nat) : string :=
  match n with
  | O => EmptyString
  | S n' => String "0" (zeros n')
  end.

Fixpoint strip_trailing_zeros (s : string) : string :=
  match s with
  | EmptyString => EmptyString
  | String c s' =>
      match strip_trailing_zeros s' with
      | EmptyString => if Ascii.eqb c "0" then EmptyString else String c EmptyString
      | t => String c t
      end
  end.

(** The value in units of [10 ^ decimals], written as a decimal number. *)
Definition format_units (value decimals : Z) : string :=
  let a := Z.abs value in
  let i := a / 10 ^ decimals in
  let f := toString10 (a mod 10 ^ decimals) in
  let frac := strip_trailing_zeros (zeros (Z.to_nat decimals - String.length f) +:+ f) in
  (if (value <? 0)%Z then "-" else EmptyString)
  +:+ toString10 i
  +:+ match frac with EmptyString => EmptyString | _ => "." +:+ frac end.

(** The digits of [s] as a number; no digit is zero. *)
Definition digits_value (s : string) : option Z :=
  match s with
  | EmptyString => Some 0
  | String _ _ =>
      match DecimalString.NilZero.uint_of_string s with
      | Some d => Some (Z.of_uint d)
      | None => None
      end
  end.

(** [Math.round(Number(`${unit}.${right}`))] is [unit + 1]: the double
    nearest to the decimal (ties to the even mantissa) is at least
    [unit + 0.5], which is the case from half a step of the doubles below
    [unit + 0.5] on; [Math.round] takes a half upwards. *)
Definition rounds_up (unit : Z) (right : string) : bool :=
  let e := if (unit =? 0)%Z then 55
           else if (unit =? 1)%Z then 53
           else if (unit <? 4)%Z then 52
           else if (unit <? 8)%Z then 51
           else 50 in
  match digits_value right with
  | Some r =>
      (10 ^ Z.of_nat (String.length right) * (2 ^ (e - 1) - 1) <=? r * 2 ^ e)%Z
  | None => false
  end.

(** [parseUnits(s, decimals)] of the chain client: a decimal number, with
    or without sign, integer part and fraction, in units of
    [10 ^ -decimals]; a fraction longer than [decimals] is rounded to the
    nearest unit on its digit number [decimals] and those after it. *)
Definition parse_units (s : string) (decimals : Z) : outcome Z :=
  let '(negative, s1) :=
    match s with
    | String "-" t => (true, t)
    | _ => (false, s)
    end in
  let '(int, r) := digits_run s1 in
  let '(frac, r') :=
    match r with
    | String "." r1 => digits_run r1
    | _ => (EmptyString, r)
    end in
  let d := Z.to_nat decimals in
  let kept := substring 0 d frac in
  let right := drop_string d frac in
  match r', digits_value int, digits_value kept with
  | EmptyString, Some i, Some f =>
      let unit := if (String.length kept <? d)%nat then 0 else f mod 10 in
      let magnitude :=
        i * 10 ^ decimals
        + f * 10 ^ (decimals - Z.of_nat (String.length kept))
        + (if rounds_up unit right then 1 else 0) in
      Ok (if negative then - magnitude else magnitude)
  | _, _, _ => Throw (Error "invalid decimal number")
  end.

(** *** The host *)

Definition key : string :=
  "0x4c0883a69102937d6231471b5dbb6204fe5129617082792ae468d01a3f362318".

Definition account : string := "0x5aAeb6053F3E94C9b9A09f33669435E7Ef1BeAed".

Definition tx_hash_1 : string :=
  "0x88df016429689c079f3b2f6ad39fa052532c56795b733da78a91ebe6a713944b".

(** A host without faults: the node reports [native] for every account and
    [token] for every [balanceOf], accepts every transaction and confirms
    it. *)
Definition make (native token : outcome Z) (settings : string -> option string) : host :=
  {| cache_get_fault := fun _ => None;
     cache_set_fault := fun _ => None;
     createMemory_fault := fun _ => None;
     getSetting := settings;
     rpc_getBalance := fun _ _ => native;
     rpc_readContract :=
       fun _ _ functionName _ =>
         if String.eqb functionName "decimals" then Ok 18 else token;
     rpc_sendTransaction := fun _ _ => Ok tx_hash_1;
     rpc_waitForTransactionReceipt :=
       fun _ _ => Ok {| receipt_status := "success"; receipt_blockNumber := 1 |};
     generatePrivateKey := fun _ => key;
     privateKeyToAccount :=
       fun k => if String.eqb k key then Ok account
                else Throw (Error "invalid private key");
     parseEther := fun s => parse_units s 18;
     formatEther := fun v => format_units v 18;
     parseUnits := parse_units;
     formatUnits := format_units;
     JSON_stringify := stringify;
     JSON_parse := parse;
     Date_now := fun t => 1700000000000 + Z.of_nat t;
     Math_random := fun k => Z.of_nat (k mod 16) # 16;
     type_error_message := "Cannot read properties of undefined" |}.

Definition no_settings : string -> option string := fun _ => None.

Definition start : world :=
  {| cache := ∅; documents := []; replies := []; broadcasts := []; clock := 0 |}.

Definition message (text : string) : Memory :=
  {| memory_userId := Some "user-1"; state_userId := None;
     content_text := Some text; memory_agentId := "agent-1";
     memory_roomId := "room-1" |}.

(** The world of a user whose wallet is stored as a record. *)
Definition with_wallet : world :=
  with_cache
    (<[ user_wallet_key "user-1" :=
          wallet_object {| wd_address := account; wd_privateKey := key;
                           wd_createdAt := 1700000000000 |} ]> ∅)
    start.

(** The reference host with a cache whose first read fails. *)
Definition first_read_fails (h : host) : host :=
  {| cache_get_fault :=
       fun t => match t with O => Some (Error "cache down") | S _ => None end;
     cache_set_fault := cache_set_fault h;
     createMemory_fault := createMemory_fault h;
     getSetting := getSetting h;
     rpc_getBalance := rpc_getBalance h;
     rpc_readContract := rpc_readContract h;
     rpc_sendTransaction := rpc_sendTransaction h;
     rpc_waitForTransactionReceipt := rpc_waitForTransactionReceipt h;
     generatePrivateKey := generatePrivateKey h;
     privateKeyToAccount := privateKeyToAccount h;
     parseEther := parseEther h;
     formatEther := formatEther h;
     parseUnits := parseUnits h;
     formatUnits := formatUnits h;
     JSON_stringify := JSON_stringify h;
     JSON_parse := JSON_parse h;
     Date_now := Date_now h;
     Math_random := Math_random h;
     type_error_message := type_error_message h |}.
End Reference.

(** ** Laws assumed of the host *)

(** [JSON.parse] reads back what [JSON.stringify] writes for a wallet
    record, and that text is not empty. *)
Definition json_round_trip (h : host) : Prop :=
  forall d : WalletData,
    JSON_parse h (JSON_stringify h (wallet_object d)) = Ok (wallet_object d)
    /\ JSON_stringify h (wallet_object d) <> EmptyString.

(** The world in which the cache holds [v] for the wallet of [userId]. *)
Definition stored (userId : string) (v : jsval) (w : world) : world :=
  with_cache (<[ user_wallet_key userId := v ]> (cache w)) w.

(** What [getUserWallet] makes of the value read from the cache. *)
Definition decode_wallet (h : host) (walletData : jsval) : option wallet :=
  if negb (truthy walletData) then None
  else
    match
      match walletData with
      | JStr s => JSON_parse h s
      | _ => Ok walletData
      end
    with
    | Ok parsedData =>
        match get_prop h parsedData "address", get_prop h parsedData "privateKey" with
        | Ok a, Ok k => Some {| wallet_address := a; wallet_privateKey := k |}
        | _, _ => None
        end
    | Throw _ => None
    end.

(** ** The shape of a balance report *)

(** The balance lines in the order of the claim: the native currency, then
    the contract-backed tokens in the order of the registry, one value
    each. *)
Definition balance_lines (line : string -> string -> string) (native : string)
    (token_values : list string) : list string :=
  line "MNT" native
  :: zip_with line (map token_symbol getERC20Tokens) token_values.

Definition explorer_line (label address : string) : string :=
  label +:+ "https://sepolia.mantlescan.xyz/address/" +:+ address.

(** The two reports of the action. *)
Definition action_report (s : string) : Prop :=
  exists (address native : string) (token_values : list string),
    length token_values = length getERC20Tokens
    /\ (s = join_lines
              (["Balances en Mantle Sepolia Testnet para " +:+ address +:+ ":"]
               ++ balance_lines action_balance_line native token_values
               ++ [EmptyString; explorer_line "Ver en Explorer: " address])%list
        \/ s = join_lines
                 (["📊 Tus Balances en Mantle Sepolia Testnet:"; EmptyString;
                   "Dirección: " +:+ address]
                  ++ balance_lines action_balance_line native token_values
                  ++ [EmptyString; explorer_line "Ver en Explorer: " address])%list).

(** The two reports of the provider. *)
Definition provider_report (s : string) : Prop :=
  exists (address native : string) (token_values : list string),
    length token_values = length getERC20Tokens
    /\ (s = join_lines
              (["Información de Dirección en Mantle Sepolia:";
                "Dirección: " +:+ address]
               ++ balance_lines provider_balance_line native token_values
               ++ [EmptyString; explorer_line "Ver en Explorador: " address])%list
        \/ s = join_lines
                 (["Información de Tu Wallet en Mantle Sepolia:";
                   "Dirección: " +:+ address]
                  ++ balance_lines provider_balance_line native token_values
                  ++ [EmptyString;
                      "Tu wallet está correctamente configurada y lista para transacciones.";
                      explorer_line "Ver en Explorador: " address])%list).

(** What the provider returns when it produces no report. *)
Definition provider_failure (s : string) : Prop :=
  s = msg_no_account
  \/ s = info_no_wallet
  \/ s = info_no_access
  \/ (exists address e,
        s = "Error al obtener el balance de " +:+ address +:+ ": " +:+ error_message e)
  \/ (exists e,
        s = "Error al acceder a la información de la wallet: " +:+ error_message e)
  \/ s = "Error al acceder a la información de la wallet. Por favor, asegúrate de que tu configuración es correcta.".

(** A message that names two addresses, and one with an address followed
    by one more hexadecimal character. *)
Definition two_addresses_message : string :=
  "enviar 0.5 MNT a 0x1111111111111111111111111111111111111111 o 0x2222222222222222222222222222222222222222".

Definition long_hex_message : string :=
  "enviar 0.5 MNT a 0x11111111111111111111111111111111111111112".

(** ** Intent predicates (the [validate] of each action)

    [text.toLowerCase()] is [toLowerCase], the lower-casing of the ASCII
    letters: the patterns searched below are ASCII, and the characters
    Unicode lower-casing touches besides stay outside ASCII, or give an [i]
    followed by a combining mark (U+0130) or a [k] (U+212A), which none of
    the patterns can use. *)

(** [s.includes(p)] *)
Fixpoint includes (p s : string) : bool :=
  startsWith p s
  || match s with
     | String _ s' => includes p s'
     | EmptyString => false
     end.

Definition createWallet_validate (memory : Memory) : bool :=
  let text := toLowerCase (text_or_empty memory) in
  includes "crear wallet" text
  || includes "nueva wallet" text
  || includes "generar wallet" text
  || includes "create wallet" text
  || includes "setup wallet" text.

(** [x !== null] on the result of an extraction. *)
Definition not_null {A : Type} (o : option A) : bool :=
  match o with Some _ => true | None => false end.

Definition has_transfer_intent (text : string) : bool :=
  includes "transfer" text
  || includes "send" text
  || includes "enviar" text
  || includes "transferir" text.

Definition transferMNT_validate (memory : Memory) : bool :=
  let text := toLowerCase (text_or_empty memory) in
  let hasTransferIntent := has_transfer_intent text in
  let hasAddress := not_null (extractEthereumWalletAddress (text_or_empty memory)) in
  let hasAmount := not_null (extractAmount (text_or_empty memory)) in
  hasTransferIntent && hasAddress && hasAmount.

Definition transferERC20_validate (memory : Memory) : bool :=
  let text := toLowerCase (text_or_empty memory) in
  let hasTransferIntent := has_transfer_intent text in
  let mentionsAishop := includes "aishop" text in
  let hasAddress := not_null (extractEthereumWalletAddress (text_or_empty memory)) in
  let hasTokenInfo := not_null (extractTokenTransferInfo (text_or_empty memory)) in
  hasTransferIntent && mentionsAishop && hasAddress && hasTokenInfo.

Definition checkBalance_validate (memory : Memory) : bool :=
  let text := toLowerCase (text_or_empty memory) in
  includes "balance" text
  || includes "wallet" text
  || includes "saldo" text
  || includes "fondos" text
  || not_null (extractEthereumWalletAddress text).

(** ** Helpers of the token registry ([config/token.ts]) *)

(** [TOKENS[symbol]] on the keys the registry defines; a symbol it lacks
    gives [undefined] (the names every object inherits, [constructor] and
    the like, are no symbols of a token and are left out). *)
Definition getTokenBySymbol (symbol : string) : option TokenConfig :=
  assoc symbol TOKENS.

(** [Object.values(TOKENS).find(...)], then the check of the type. *)
Definition getTokenByAddress (address : string) : option TokenConfig :=
  let normalizedAddress := toLowerCase address in
  match
    find (fun token =>
            match token with
            | ERC20Token _ _ _ a => String.eqb (toLowerCase a) normalizedAddress
            | NativeToken _ _ _ => false
            end)
         (map snd TOKENS)
  with
  | Some (ERC20Token _ _ _ _ as token) => Some token
  | _ => None
  end.

(** The loop that fills [TOKEN_ADDRESSES] and [TOKEN_DECIMALS], over the
    entries of a registry. *)
Definition derive_token_maps (entries : list (string * TokenConfig))
    : gmap string string * gmap string Z :=
  fold_left
    (fun maps entry =>
       let '(symbol, token) := entry in
       (match token with
        | ERC20Token _ _ _ a => <[ symbol := a ]> (fst maps)
        | NativeToken _ _ _ => fst maps
        end,
        <[ symbol := token_decimals token ]> (snd maps)))
    entries (∅, ∅).

Definition TOKEN_ADDRESSES : gmap string string := fst (derive_token_maps TOKENS).
Definition TOKEN_DECIMALS : gmap string Z := snd (derive_token_maps TOKENS).

(** ** What counts as a decimal amount *)

Fixpoint all_digits (s : string) : bool :=
  match s with
  | EmptyString => true
  | String c s' => is_digit c && all_digits s'
  end.

(** Digits, or digits, a dot and digits: [\d+(\.\d+)?] and nothing else. *)
Definition is_decimal_amount (s : string) : bool :=
  let '(int, r) := digits_run s in
  match int, r with
  | String _ _, EmptyString => true
  | String _ _, String "." frac =>
      match frac with
      | EmptyString => false
      | String _ _ => all_digits frac
      end
  | _, _ => false
  end.

(** ** A cache that refuses one write *)

(** The host [h] with a cache whose write number [n] (counted with the
    other calls of the host) fails. *)
Definition set_fails_at (n : nat) (h : host) : host :=
  {| cache_get_fault := cache_get_fault h;
     cache_set_fault :=
       fun t => if Nat.eqb t n then Some (Error "cache down") else cache_set_fault h t;
     createMemory_fault := createMemory_fault h;
     getSetting := getSetting h;
     rpc_getBalance := rpc_getBalance h;
     rpc_readContract := rpc_readContract h;
     rpc_sendTransaction := rpc_sendTransaction h;
     rpc_waitForTransactionReceipt := rpc_waitForTransactionReceipt h;
     generatePrivateKey := generatePrivateKey h;
     privateKeyToAccount := privateKeyToAccount h;
     parseEther := parseEther h;
     formatEther := formatEther h;
     parseUnits := parseUnits h;
     formatUnits := formatUnits h;
     JSON_stringify := JSON_stringify h;
     JSON_parse := JSON_parse h;
     Date_now := Date_now h;
     Math_random := Math_random h;
     type_error_message := type_error_message h |}.

(** What [initUserWalletProvider] makes of the value read from the cache:
    the session of the stored key, or [null]. *)
Definition session_of (h : host) (walletData : jsval) : option WalletProvider :=
  match decode_wallet h walletData with
  | Some uw =>
      match wallet_privateKey uw with
      | JStr key =>
          match privateKeyToAccount h (normalize_key key) with
          | Ok a => Some {| wp_privateKey := normalize_key key; wp_address := a |}
          | Throw _ => None
          end
      | _ => None
      end
  | None => None
  end.


(** ** The amount a message asks for *)



(** ** A cache that refuses one read, a client that draws a second key *)





(** The settings of an agent whose own key is configured. *)
Definition agent_key_settings (name : string) : option string :=
  if String.eqb name "EVM_PRIVATE_KEY" then Some Reference.key else None.


(* ================================================================== *)
(** * Part II: properties                                              *)
(* ================================================================== *)

Example extract_address_example :
  extractEthereumWalletAddress example_message
  = Some "0x1111111111111111111111111111111111111111".
Proof. reflexivity. Qed.

Example extract_amount_example : extractAmount example_message = Some "0.5".
Proof. reflexivity. Qed.

(** ** The address pattern *)

Lemma hex_run_split n s m r :
  hex_run n s = Some (m, r) -> s = m +:+ r /\ String.length m = n.
Proof.
  revert s m r. induction n as [|n IH]; intros s m r H; simpl in H.
  - injection H as <- <-. split; reflexivity.
  - destruct s as [|c s']; [discriminate|].
    destruct (is_hex_digit c); [|discriminate].
    destruct (hex_run n s') as [[m' r']|] eqn:E; [|discriminate].
    injection H as <- <-. destruct (IH _ _ _ E) as [-> <-].
    split; reflexivity.
Qed.

Lemma hex_run_exact n m r :
  hex_run n (m +:+ r) = Some (m, r) -> hex_run n m = Some (m, EmptyString).
Proof.
  revert m. induction n as [|n IH]; intros m H.
  - destruct (hex_run_split _ _ _ _ H) as [_ Hl].
    destruct m; [reflexivity | discriminate].
  - destruct m as [|c m'].
    + destruct (hex_run_split _ _ _ _ H) as [_ Hl]. discriminate.
    + simpl in *. destruct (is_hex_digit c); [|discriminate].
      destruct (hex_run n (m' +:+ r)) as [[m1 r1]|] eqn:E; [|discriminate].
      injection H as -> ->. rewrite (IH _ E). reflexivity.
Qed.

Lemma eth_address_at_split s a r :
  eth_address_at s = Some (a, r) ->
  s = a +:+ r /\ String.length a = 42%nat /\ eth_address_shape a = true.
Proof.
  unfold eth_address_at. intros H.
  destruct s as [|c0 s]; [discriminate|].
  destruct c0 as [[] [] [] [] [] [] [] []]; try discriminate.
  destruct s as [|c1 s]; [discriminate|].
  destruct c1 as [[] [] [] [] [] [] [] []]; try discriminate.
  destruct (hex_run 40 s) as [[m r']|] eqn:E; [|discriminate].
  injection H as <- <-.
  destruct (hex_run_split _ _ _ _ E) as [-> Hl].
  split; [reflexivity|]. split; [simpl; rewrite Hl; reflexivity|].
  unfold eth_address_shape, eth_address_at.
  rewrite (hex_run_exact _ _ _ E). reflexivity.
Qed.

Lemma drop_string_substring i s a r :
  drop_string i s = a +:+ r -> substring i (String.length a) s = a.
Proof.
  revert s. induction i as [|i IH]; intros s H.
  - simpl in H. subst s. clear. induction a as [|c a IHa]; simpl.
    + destruct r; reflexivity.
    + rewrite IHa. reflexivity.
  - destruct s as [|c s']; simpl in *.
    + destruct a; [reflexivity | discriminate].
    + apply IH, H.
Qed.

Lemma matches_at_substring text i a r :
  eth_address_at (drop_string i text) = Some (a, r) ->
  a = substring i 42 text.
Proof.
  intros H. destruct (eth_address_at_split _ _ _ H) as (Hs & Hl & _).
  rewrite <- Hl. symmetry. eapply drop_string_substring, Hs.
Qed.

(** Nothing matches before position [i] and the pattern matches there:
    the first element of the result is that match. *)
Lemma match_eth_address_first text i a r :
  (forall j, (j < i)%nat -> matches_at text j = false) ->
  eth_address_at (drop_string i text) = Some (a, r) ->
  exists l, match_eth_address 0 text = a :: l.
Proof.
  revert text. induction i as [|i IH]; intros text Hlt H.
  - simpl in H. destruct text as [|c s'].
    + discriminate.
    + cbn [match_eth_address]. rewrite H. eauto.
  - destruct text as [|c s']; [simpl in H; discriminate|].
    assert (H0 : eth_address_at (String c s') = None).
    { specialize (Hlt O ltac:(lia)). unfold matches_at in Hlt. cbn [drop_string] in Hlt.
      destruct (eth_address_at (String c s')); [discriminate | reflexivity]. }
    cbn [match_eth_address]. rewrite H0. apply IH.
    + intros j Hj. apply (Hlt (S j)). lia.
    + exact H.
Qed.

Lemma match_eth_address_none text :
  (forall j, matches_at text j = false) -> match_eth_address 0 text = [].
Proof.
  induction text as [|c s' IH]; intros H; [reflexivity|].
  assert (H0 : eth_address_at (String c s') = None).
  { specialize (H O). unfold matches_at in H. cbn [drop_string] in H.
    destruct (eth_address_at (String c s')); [discriminate | reflexivity]. }
  cbn [match_eth_address]. rewrite H0. apply IH.
  intros j. apply (H (S j)).
Qed.

(** The first element of the result is a match at some position, and
    nothing matches before it. *)
Lemma match_eth_address_head text a l :
  match_eth_address 0 text = a :: l ->
  exists i r, eth_address_at (drop_string i text) = Some (a, r)
              /\ forall j, (j < i)%nat -> matches_at text j = false.
Proof.
  induction text as [|c s' IH]; intros H; [discriminate|].
  cbn [match_eth_address] in H.
  destruct (eth_address_at (String c s')) as [[m r]|] eqn:E.
  - injection H as -> _. exists O, r. split; [exact E|]. intros j Hj. lia.
  - destruct (IH H) as (i & r & Hi & Hlt). exists (S i), r. split; [exact Hi|].
    intros [|j] Hj.
    + unfold matches_at. cbn [drop_string]. rewrite E. reflexivity.
    + apply (Hlt j). lia.
Qed.

Lemma extract_leftmost text i :
  matches_at text i = true ->
  (forall j, (j < i)%nat -> matches_at text j = false) ->
  extractEthereumWalletAddress text = Some (substring i 42 text).
Proof.
  intros Hi Hlt. unfold matches_at in Hi.
  destruct (eth_address_at (drop_string i text)) as [[a r]|] eqn:E; [|discriminate].
  destruct (match_eth_address_first _ _ _ _ Hlt E) as [l Hl].
  unfold extractEthereumWalletAddress. rewrite Hl.
  rewrite (matches_at_substring _ _ _ _ E). reflexivity.
Qed.

Lemma extract_some_inv text a :
  extractEthereumWalletAddress text = Some a ->
  exists i, matches_at text i = true
            /\ (forall j, (j < i)%nat -> matches_at text j = false)
            /\ a = substring i 42 text
            /\ eth_address_shape a = true.
Proof.
  unfold extractEthereumWalletAddress.
  destruct (match_eth_address 0 text) as [|m l] eqn:E; [discriminate|].
  intros [= ->]. destruct (match_eth_address_head _ _ _ E) as (i & r & Hi & Hlt).
  exists i. split; [unfold matches_at; rewrite Hi; reflexivity|].
  split; [exact Hlt|]. split; [eapply matches_at_substring, Hi|].
  apply (eth_address_at_split _ _ _ Hi).
Qed.

Lemma match_eth_address_nil_inv text :
  match_eth_address 0 text = [] -> forall i, matches_at text i = false.
Proof.
  induction text as [|c s' IH]; intros H i.
  - unfold matches_at. destruct i; reflexivity.
  - cbn [match_eth_address] in H.
    destruct (eth_address_at (String c s')) as [[m r]|] eqn:E; [discriminate|].
    destruct i as [|i].
    + unfold matches_at. cbn [drop_string]. rewrite E. reflexivity.
    + apply (IH H i).
Qed.

Lemma extract_none_iff text :
  extractEthereumWalletAddress text = None <-> forall i, matches_at text i = false.
Proof.
  unfold extractEthereumWalletAddress. split.
  - destruct (match_eth_address 0 text) eqn:E; [|discriminate].
    intros _. apply match_eth_address_nil_inv, E.
  - intros H. rewrite (match_eth_address_none _ H). reflexivity.
Qed.

(** A text in which the pattern matches somewhere has a leftmost match,
    and that is the one returned. *)
Lemma extract_of_match text i :
  matches_at text i = true ->
  exists k, (k <= i)%nat /\ matches_at text k = true
            /\ (forall j, (j < k)%nat -> matches_at text j = false)
            /\ extractEthereumWalletAddress text = Some (substring k 42 text).
Proof.
  intros Hi.
  destruct (extractEthereumWalletAddress text) as [a|] eqn:E.
  - destruct (extract_some_inv _ _ E) as (k & Hk & Hlt & -> & _).
    exists k. repeat split; try assumption.
    destruct (Nat.le_gt_cases k i) as [Hle|Hgt]; [exact Hle|].
    rewrite (Hlt i Hgt) in Hi. discriminate.
  - rewrite (proj1 (extract_none_iff text) E i) in Hi. discriminate.
Qed.

(** ** The identifier generator *)

Lemma to_int32_random (x : Q) :
  (0 <= x < 1)%Q -> 0 <= to_int32 (x * 16) < 16.
Proof.
  destruct x as [n d]. unfold Qle, Qlt, to_int32. simpl. intros [H0 H1].
  assert (Hq : 0 <= Z.quot (n * 16) (Z.pos (d * 1)) < 16).
  { rewrite Z.quot_div_nonneg by lia. split.
    - apply Z.div_pos; lia.
    - apply Z.div_lt_upper_bound; lia. }
  rewrite Z.mod_small by lia.
  destruct (Z.ltb_spec (Z.quot (n * 16) (Z.pos (d * 1))) (2 ^ 31)); lia.
Qed.

Lemma nibble_cases (r : Z) :
  0 <= r < 16 ->
  r = 0 \/ r = 1 \/ r = 2 \/ r = 3 \/ r = 4 \/ r = 5 \/ r = 6 \/ r = 7 \/
  r = 8 \/ r = 9 \/ r = 10 \/ r = 11 \/ r = 12 \/ r = 13 \/ r = 14 \/ r = 15.
Proof. lia. Qed.

(** An [x] of the template becomes one hexadecimal digit. *)
Lemma replace_char_x (x : Q) :
  (0 <= x < 1)%Q ->
  exists d, replace_char "x" x = String d EmptyString /\ is_hex_digit d = true.
Proof.
  intros H. unfold replace_char. cbn [Ascii.eqb Bool.eqb].
  pose proof (to_int32_random x H) as Hr.
  destruct (nibble_cases _ Hr) as
    [->|[->|[->|[->|[->|[->|[->|[->|[->|[->|[->|[->|[->|[->|[->| ->]]]]]]]]]]]]]]];
    eexists; split; reflexivity.
Qed.

(** The [y] of the template becomes 8, 9, a or b. *)
Lemma replace_char_y (x : Q) :
  (0 <= x < 1)%Q ->
  exists d, replace_char "y" x = String d EmptyString
            /\ is_hex_digit d = true /\ is_variant_nibble d = true.
Proof.
  intros H. unfold replace_char. cbn [Ascii.eqb Bool.eqb].
  pose proof (to_int32_random x H) as Hr.
  destruct (nibble_cases _ Hr) as
    [->|[->|[->|[->|[->|[->|[->|[->|[->|[->|[->|[->|[->|[->|[->| ->]]]]]]]]]]]]]]];
    eexists; repeat split; reflexivity.
Qed.

Ltac draw_nibbles Hrandom :=
  repeat match goal with
    | |- context [replace_char "x" ?q] =>
        let d := fresh "d" in let Hd := fresh "Hd" in let E := fresh "E" in
        destruct (replace_char_x q (Hrandom _)) as (d & E & Hd); rewrite E; clear E
    | |- context [replace_char "y" ?q] =>
        let d := fresh "d" in let Hd := fresh "Hd" in let Hv := fresh "Hv" in
        let E := fresh "E" in
        destruct (replace_char_y q (Hrandom _)) as (d & E & Hd & Hv); rewrite E; clear E
    end.

(** C9. Whatever [Math.random()] returns (a number from 0 inclusive to 1
    exclusive at each call), [generateId] returns 36 characters in the shape
    8-4-4-4-12 of hexadecimal groups separated by hyphens, with the
    character 4 at index 14 and one of 8, 9, a, b at index 19. *)
Theorem generateId_uuid_like (random : nat -> Q) :
  (forall k, (0 <= random k < 1)%Q) ->
  uuid_like (generateId random) = true.
Proof.
  intros Hrandom. unfold generateId, uuid_template.
  cbn [replace_xy Ascii.eqb Bool.eqb orb].
  draw_nibbles Hrandom.
  cbv [String.append].
  unfold uuid_like.
  cbn [String.length String.get uuid_groups Nat.eqb orb andb Ascii.eqb Bool.eqb].
  repeat match goal with H : is_hex_digit _ = true |- _ => rewrite H; clear H end.
  repeat match goal with H : is_variant_nibble _ = true |- _ => rewrite H; clear H end.
  reflexivity.
Qed.

Lemma generateId_uuid_like_witness :
  uuid_like (generateId (fun _ => 1 # 2)) = true.
Proof.
  apply (generateId_uuid_like (fun _ => 1 # 2)).
  intros k. split; [unfold Qle | unfold Qlt]; simpl; lia.
Defined.

(** ** Computations *)

Lemma bind_ok {A B : Type} (m : M A) (f : A -> M B) w a w' :
  m w = (Ok a, w') -> bind m f w = f a w'.
Proof. unfold bind. intros ->. reflexivity. Qed.

Lemma bind_throw {A B : Type} (m : M A) (f : A -> M B) w e w' :
  m w = (Throw e, w') -> bind m f w = (Throw e, w').
Proof. unfold bind. intros ->. reflexivity. Qed.

Lemma try_catch_ok {A : Type} (m : M A) (hd : exn -> M A) w a w' :
  m w = (Ok a, w') -> try_catch m hd w = (Ok a, w').
Proof. unfold try_catch. intros ->. reflexivity. Qed.

Lemma try_catch_throw {A : Type} (m : M A) (hd : exn -> M A) w e w' :
  m w = (Throw e, w') -> try_catch m hd w = hd e w'.
Proof. unfold try_catch. intros ->. reflexivity. Qed.

(** ** The cache *)

Lemma cache_get_ok h key w :
  cache_get_fault h (clock w) = None ->
  cache_get h key w
  = (Ok (default JUndefined (cache w !! key)), with_clock (S (clock w)) w).
Proof. intros H. unfold cache_get, bind, tick. rewrite H. reflexivity. Qed.

Lemma cache_get_fail h key w e :
  cache_get_fault h (clock w) = Some e ->
  cache_get h key w = (Throw e, with_clock (S (clock w)) w).
Proof. intros H. unfold cache_get, bind, tick, throw. rewrite H. reflexivity. Qed.

Lemma cache_set_ok h key v w :
  cache_set_fault h (clock w) = None ->
  cache_set h key v w
  = (Ok tt, with_cache (<[key := v]> (cache w)) (with_clock (S (clock w)) w)).
Proof. intros H. unfold cache_set, bind, tick. rewrite H. reflexivity. Qed.

Lemma cache_set_fail h key v w e :
  cache_set_fault h (clock w) = Some e ->
  cache_set h key v w = (Throw e, with_clock (S (clock w)) w).
Proof. intros H. unfold cache_set, bind, tick, throw. rewrite H. reflexivity. Qed.

(** Keys of the two families are never equal, and a key determines the
    name it was built from. *)
Lemma user_wallet_key_ne u a : user_wallet_key u <> address_to_user_key a.
Proof. unfold user_wallet_key, address_to_user_key. discriminate. Qed.

Lemma address_to_user_key_inj a b :
  address_to_user_key a = address_to_user_key b -> a = b.
Proof. unfold address_to_user_key. intros H. injection H. auto. Qed.

(** ** The wallet store *)

(** [userHasWallet] and [getUserWallet] read the cache once and change
    nothing else. *)
Lemma userHasWallet_run h u w :
  userHasWallet h u w
  = (Ok (match cache_get_fault h (clock w) with
         | Some _ => false
         | None => truthy (default JUndefined (cache w !! user_wallet_key u))
         end),
     with_clock (S (clock w)) w).
Proof.
  unfold userHasWallet.
  destruct (cache_get_fault h (clock w)) as [e|] eqn:E.
  - erewrite try_catch_throw; [reflexivity|].
    erewrite bind_throw; [reflexivity|]. apply cache_get_fail, E.
  - erewrite try_catch_ok; [reflexivity|].
    erewrite bind_ok; [reflexivity|]. apply cache_get_ok, E.
Qed.

Lemma getUserWallet_run h u w :
  getUserWallet h u w
  = (Ok (match cache_get_fault h (clock w) with
         | Some _ => None
         | None => decode_wallet h (default JUndefined (cache w !! user_wallet_key u))
         end),
     with_clock (S (clock w)) w).
Proof.
  unfold getUserWallet, try_catch, bind at 1.
  destruct (cache_get_fault h (clock w)) as [e|] eqn:E.
  - rewrite (cache_get_fail _ _ _ _ E). reflexivity.
  - rewrite (cache_get_ok _ _ _ E). unfold decode_wallet.
    destruct (default JUndefined (cache w !! user_wallet_key u)) as [| |b|n|s|fs] eqn:Ev;
      cbn [truthy negb]; try reflexivity.
    + destruct b; reflexivity.
    + destruct (n =? 0)%Z; reflexivity.
    + destruct (String.eqb s EmptyString); cbn [negb]; [reflexivity|].
      unfold bind, lift, ret.
      destruct (JSON_parse h s) as [p|e]; [|reflexivity].
      destruct (get_prop h p "address"); [|reflexivity].
      destruct (get_prop h p "privateKey"); reflexivity.
Qed.

Lemma saveUserWallet_run h u d w :
  saveUserWallet h u d w
  = match cache_set_fault h (clock w) with
    | Some _ => (Ok false, with_clock (S (clock w)) w)
    | None =>
        let c1 := <[ user_wallet_key u := JStr (JSON_stringify h (wallet_object d)) ]>
                    (cache w) in
        match cache_set_fault h (S (clock w)) with
        | Some _ => (Ok false, with_cache c1 (with_clock (S (S (clock w))) w))
        | None =>
            (Ok true,
             with_cache (<[ address_to_user_key (wd_address d) := JStr u ]> c1)
               (with_clock (S (S (clock w))) w))
        end
    end.
Proof.
  unfold saveUserWallet, try_catch, bind at 1.
  destruct (cache_set_fault h (clock w)) as [e|] eqn:E1.
  - rewrite (cache_set_fail _ _ _ _ _ E1). reflexivity.
  - rewrite (cache_set_ok _ _ _ _ E1). unfold bind at 1.
    destruct (cache_set_fault h (S (clock w))) as [e|] eqn:E2.
    + rewrite (cache_set_fail _ _ _ _ e) by exact E2. reflexivity.
    + rewrite cache_set_ok by exact E2. reflexivity.
Qed.

Lemma getUserIdByAddress_run h a w :
  getUserIdByAddress h a w
  = (Ok (match cache_get_fault h (clock w) with
         | Some _ => None
         | None =>
             match default JUndefined (cache w !! address_to_user_key a) with
             | JStr s => Some s
             | _ => None
             end
         end),
     with_clock (S (clock w)) w).
Proof.
  unfold getUserIdByAddress, try_catch, bind.
  destruct (cache_get_fault h (clock w)) as [e|] eqn:E.
  - rewrite (cache_get_fail _ _ _ _ E). reflexivity.
  - rewrite (cache_get_ok _ _ _ E). reflexivity.
Qed.

(** C8. [getUserWallet] returns a record or [null] and never throws.  When
    the cache holds a text that [JSON.parse] reads as the record [d], the
    result is the one obtained when the cache holds [d] itself: the address
    and the private key of [d] (or [null] for both when the cache cannot be
    read).  When the cache holds nothing for the user the result is
    [null]. *)
Theorem getUserWallet_decodes_both h u d s w :
  JSON_parse h s = Ok (wallet_object d) ->
  s <> EmptyString ->
  fst (getUserWallet h u (stored u (JStr s) w))
  = fst (getUserWallet h u (stored u (wallet_object d) w))
  /\ (cache_get_fault h (clock w) = None ->
      fst (getUserWallet h u (stored u (wallet_object d) w))
      = Ok (Some {| wallet_address := JStr (wd_address d);
                    wallet_privateKey := JStr (wd_privateKey d) |}))
  /\ (cache w !! user_wallet_key u = None -> fst (getUserWallet h u w) = Ok None)
  /\ (exists o, fst (getUserWallet h u w) = Ok o).
Proof.
  intros Hparse Hs.
  assert (Hne : String.eqb s EmptyString = false).
  { destruct s; [congruence | reflexivity]. }
  rewrite !getUserWallet_run. cbn [fst stored with_cache clock cache].
  rewrite !lookup_insert_eq. cbn [default from_option id].
  repeat split.
  - destruct (cache_get_fault h (clock w)); [reflexivity|].
    unfold decode_wallet. cbn [truthy]. rewrite Hne, Hparse. reflexivity.
  - intros ->. reflexivity.
  - intros ->. destruct (cache_get_fault h (clock w)); reflexivity.
  - eauto.
Qed.

Lemma getUserWallet_decodes_both_witness :
  let h := Reference.make (Ok 0) (Ok 0) Reference.no_settings in
  let d := {| wd_address := Reference.account; wd_privateKey := Reference.key;
              wd_createdAt := 1700000000000 |} in
  fst (getUserWallet h "user-1"
         (stored "user-1" (JStr (Reference.stringify (wallet_object d))) Reference.start))
  = Ok (Some {| wallet_address := JStr Reference.account;
                wallet_privateKey := JStr Reference.key |}).
Proof.
  intros h d.
  destruct (getUserWallet_decodes_both h "user-1" d
              (Reference.stringify (wallet_object d)) Reference.start)
    as (Hsame & Hrecord & _).
  - vm_compute. reflexivity.
  - vm_compute. discriminate.
  - rewrite Hsame. apply Hrecord. reflexivity.
Defined.

(** C3, as the code has it.  [getUserIdByAddress] looks the address up as
    it is written, without normalizing its case.  Once [saveUserWallet] has
    returned [true] for the user [u] and the address [a], the lookup of [a]
    returns [u]; the entry of any other writing of the address is as it was
    before the save, and its lookup returns what the cache held for that
    writing: the text stored there, [null] when it held nothing or no
    text. *)
Theorem getUserIdByAddress_after_save h u d w w1 :
  saveUserWallet h u d w = (Ok true, w1) ->
  cache_get_fault h (clock w1) = None ->
  fst (getUserIdByAddress h (wd_address d) w1) = Ok (Some u)
  /\ forall a', a' <> wd_address d ->
       cache w1 !! address_to_user_key a' = cache w !! address_to_user_key a'
       /\ fst (getUserIdByAddress h a' w1)
          = Ok (match default JUndefined (cache w !! address_to_user_key a') with
                | JStr s => Some s
                | _ => None
                end).
Proof.
  intros Hsave Hget. rewrite saveUserWallet_run in Hsave.
  destruct (cache_set_fault h (clock w)); [discriminate|].
  cbn zeta in Hsave.
  destruct (cache_set_fault h (S (clock w))); [discriminate|].
  injection Hsave as <-. cbn [with_cache with_clock clock] in Hget.
  split.
  - rewrite getUserIdByAddress_run. cbn [fst with_cache with_clock clock cache].
    rewrite Hget, lookup_insert_eq. reflexivity.
  - intros a' Ha'.
    assert (Hkept :
      (<[ address_to_user_key (wd_address d) := JStr u ]>
         (<[ user_wallet_key u := JStr (JSON_stringify h (wallet_object d)) ]>
            (cache w))) !! address_to_user_key a'
      = cache w !! address_to_user_key a').
    { rewrite lookup_insert_ne.
      - apply lookup_insert_ne, user_wallet_key_ne.
      - intros Heq. apply Ha'. symmetry. apply address_to_user_key_inj, Heq. }
    split.
    + cbn [with_cache with_clock cache]. exact Hkept.
    + rewrite getUserIdByAddress_run. cbn [fst with_cache with_clock clock cache].
      rewrite Hget, Hkept. reflexivity.
Qed.

Lemma getUserIdByAddress_after_save_witness :
  let h := Reference.make (Ok 0) (Ok 0) Reference.no_settings in
  let d := {| wd_address := Reference.account; wd_privateKey := Reference.key;
              wd_createdAt := 1700000000000 |} in
  fst (getUserIdByAddress h Reference.account
         (snd (saveUserWallet h "user-1" d Reference.start)))
  = Ok (Some "user-1")
  /\ fst (getUserIdByAddress h (toLowerCase Reference.account)
            (snd (saveUserWallet h "user-1" d Reference.start)))
     = Ok None.
Proof.
  intros h d.
  destruct (getUserIdByAddress_after_save h "user-1" d Reference.start
              (snd (saveUserWallet h "user-1" d Reference.start)))
    as [Hsame Hother].
  - vm_compute. reflexivity.
  - reflexivity.
  - split; [exact Hsame|].
    destruct (Hother (toLowerCase Reference.account)) as [_ Hlower].
    + vm_compute. discriminate.
    + rewrite Hlower. reflexivity.
Defined.

(** C3 does not hold as stated: after the provisioning flow has stored the
    wallet of [user-1] under the address the chain client derived, the
    lookup of the same address in lower case finds nothing. *)
Lemma getUserIdByAddress_lowercase_counterexample :
  let h := Reference.make (Ok 0) (Ok 0) Reference.no_settings in
  let run := createWallet_handler h (Reference.message "crear wallet") Reference.start in
  fst run = Ok true
  /\ fst (getUserIdByAddress h Reference.account (snd run)) = Ok (Some "user-1")
  /\ fst (getUserIdByAddress h (toLowerCase Reference.account) (snd run)) = Ok None.
Proof. vm_compute. repeat split; reflexivity. Qed.

(** ** Case analysis of a flow *)

Ltac break_match_in H :=
  match type of H with
  | context [match ?x with _ => _ end] =>
      lazymatch x with
      | context [match _ with _ => _ end] => fail
      | negb ?y => destruct y eqn:?
      | _ => destruct x eqn:?
      end
  end.

Ltac world_simpl :=
  cbn [clock cache documents replies broadcasts fst snd negb] in *.

Ltac unfold_flow_in H :=
  cbv [try_catch bind ret throw lift reply tick
       cache_get cache_set createMemory newId getBalance
       readContract broadcast waitForTransactionReceipt
       wp_getBalance wp_getTokenBalance
       with_clock with_cache add_reply add_document add_broadcast] in H;
  world_simpl.

(** One step of the run recorded in [H]: a call of the store is replaced
    by its result, or the run splits on an answer of the host. *)
Ltac rewrite_known_in H :=
  match goal with
  | E : ?x = _ |- _ =>
      match type of H with
      | context [match x with _ => _ end] => rewrite E in H
      end
  end.

Ltac flow_step H :=
  first [ rewrite userHasWallet_run in H
        | rewrite getUserWallet_run in H
        | rewrite saveUserWallet_run in H
        | rewrite_known_in H
        | break_match_in H; try discriminate; try congruence ];
  unfold_flow_in H.

Ltac flow H := unfold_flow_in H; repeat flow_step H.

(** ** Wallet provisioning *)



(** ** The reference codec reads back what it writes *)

Lemma append_assoc (a b c : string) : (a +:+ b) +:+ c = a +:+ (b +:+ c).
Proof.
  induction a as [|x a IH]; [reflexivity|].
  change (String x ((a +:+ b) +:+ c) = String x (a +:+ (b +:+ c))).
  rewrite IH. reflexivity.
Qed.

Lemma append_cons (x : ascii) (a b : string) : String x a +:+ b = String x (a +:+ b).
Proof. reflexivity. Qed.

Lemma append_nil_l (a : string) : EmptyString +:+ a = a.
Proof. reflexivity. Qed.

Lemma append_nil_r (a : string) : a +:+ EmptyString = a.
Proof.
  induction a as [|x a IH]; [reflexivity|]. rewrite append_cons, IH. reflexivity.
Qed.

Lemma parse_escaped_char (c : ascii) (s : string) :
  Reference.parse_string_body (Reference.escape_char c +:+ s)
  = Reference.cons_char c (Reference.parse_string_body s).
Proof. destruct c as [[] [] [] [] [] [] [] []]; reflexivity. Qed.

Lemma parse_escaped (s r : string) :
  Reference.parse_string_body (Reference.escape s +:+ String (ascii_of_N 34) r)
  = Some (s, r).
Proof.
  induction s as [|c s IH]; [reflexivity|].
  change (Reference.escape (String c s))
    with (Reference.escape_char c +:+ Reference.escape s).
  rewrite append_assoc, parse_escaped_char, IH. reflexivity.
Qed.

Lemma digits_run_uint (u : Decimal.uint) (r : string) :
  digits_run (NilEmpty.string_of_uint u +:+ String "}" r)
  = (NilEmpty.string_of_uint u, String "}" r).
Proof.
  induction u as [|u IH|u IH|u IH|u IH|u IH|u IH|u IH|u IH|u IH|u IH];
    [reflexivity|..];
    cbn [NilEmpty.string_of_uint]; rewrite append_cons;
    cbn [digits_run]; rewrite IH; reflexivity.
Qed.

Lemma string_of_uint_head (u : Decimal.uint) :
  u <> Decimal.Nil ->
  exists c s, NilEmpty.string_of_uint u = String c s /\ is_digit c = true.
Proof.
  destruct u; [congruence|..]; intros _; eexists _, _; split; reflexivity.
Qed.

Lemma number_lexeme_int (t : Z) (r : string) :
  Reference.number_lexeme (toString10 t +:+ String "}" r)
  = (toString10 t, String "}" r).
Proof.
  unfold Reference.number_lexeme, toString10.
  destruct t as [|p|p]; [reflexivity|..]; cbn [Z.to_int NilZero.string_of_int].
  - pose proof (Unsigned.to_uint_nonnil p) as Hu.
    replace (NilZero.string_of_uint (Pos.to_uint p))
      with (NilEmpty.string_of_uint (Pos.to_uint p))
      by (destruct (Pos.to_uint p); [congruence|..]; reflexivity).
    destruct (string_of_uint_head _ Hu) as (c & s & Hcs & Hc).
    replace (match NilEmpty.string_of_uint (Pos.to_uint p) +:+ String "}" r with
             | String "-" s' => ("-", s')
             | _ => (EmptyString,
                     NilEmpty.string_of_uint (Pos.to_uint p) +:+ String "}" r)
             end)
      with (EmptyString, NilEmpty.string_of_uint (Pos.to_uint p) +:+ String "}" r).
    + rewrite digits_run_uint. reflexivity.
    + rewrite Hcs, append_cons.
      destruct c as [[] [] [] [] [] [] [] []]; try discriminate; reflexivity.
  - pose proof (Unsigned.to_uint_nonnil p) as Hu.
    replace (NilZero.string_of_uint (Pos.to_uint p))
      with (NilEmpty.string_of_uint (Pos.to_uint p))
      by (destruct (Pos.to_uint p); [congruence|..]; reflexivity).
    rewrite append_cons. cbv iota beta.
    rewrite digits_run_uint. reflexivity.
Qed.

Lemma parse_number_int (t : Z) (r : string) :
  Reference.parse_number (toString10 t +:+ String "}" r)
  = Some (JNum t, String "}" r).
Proof.
  unfold Reference.parse_number. rewrite number_lexeme_int.
  unfold toString10 at 1.
  rewrite NilZero.isi.
  - rewrite DecimalZ.of_to, String.eqb_refl. reflexivity.
  - destruct t; cbn [Z.to_int]; try discriminate.
    intros [= H]. apply (Unsigned.to_uint_nonnil _ H).
  - destruct t; cbn [Z.to_int]; try discriminate.
    intros [= H]. apply (Unsigned.to_uint_nonnil _ H).
Qed.

Lemma toString10_head (t : Z) :
  exists c s, toString10 t = String c s /\ (is_digit c = true \/ c = "-"%char).
Proof.
  unfold toString10. destruct t as [|p|p]; cbn [Z.to_int NilZero.string_of_int].
  - eexists _, _. split; [reflexivity | left; reflexivity].
  - pose proof (Unsigned.to_uint_nonnil p) as Hu.
    destruct (string_of_uint_head _ Hu) as (c & s & Hcs & Hc).
    exists c, s. split; [|left; exact Hc].
    destruct (Pos.to_uint p); [congruence|..]; exact Hcs.
  - eexists _, _. split; [reflexivity | right; reflexivity].
Qed.

Lemma parse_value_string (fuel : nat) (s r : string) :
  Reference.parse_value (S fuel)
    (String (ascii_of_N 34) (Reference.escape s +:+ String (ascii_of_N 34) r))
  = Some (JStr s, r).
Proof.
  cbn [Reference.parse_value Reference.skip_ws].
  change (N_of_ascii (ascii_of_N 34)) with 34%N. cbv iota beta.
  cbn [N.eqb Pos.eqb orb]. rewrite parse_escaped. reflexivity.
Qed.

Lemma parse_value_int (fuel : nat) (t : Z) (r : string) :
  Reference.parse_value (S fuel) (toString10 t +:+ String "}" r)
  = Some (JNum t, String "}" r).
Proof.
  destruct (toString10_head t) as (c & s & Hcs & Hc).
  rewrite <- parse_number_int. rewrite Hcs, append_cons.
  destruct c as [[] [] [] [] [] [] [] []];
    destruct Hc as [Hc|Hc]; try discriminate; reflexivity.
Qed.

(** One member of an object: a key, a colon and a value read by [pv]. *)
Lemma parse_members_step pv (fuel : nat) (k r : string) acc :
  Reference.parse_members pv (S fuel)
    (String (ascii_of_N 34)
       (Reference.escape k +:+ String (ascii_of_N 34) (String ":" r))) acc
  = match pv r with
    | Some (v, r3) =>
        match Reference.skip_ws r3 with
        | String "," r4 =>
            Reference.parse_members pv fuel r4 (Reference.set_field k v acc)
        | String "}" r4 => Some (JObj (Reference.set_field k v acc), r4)
        | _ => None
        end
    | None => None
    end.
Proof.
  cbn [Reference.parse_members Reference.skip_ws].
  change (N_of_ascii (ascii_of_N 34)) with 34%N. cbv iota beta.
  cbn [N.eqb Pos.eqb orb]. rewrite parse_escaped. reflexivity.
Qed.

Lemma parse_members_next pv (fuel : nat) (k r : string) acc v r4 :
  pv r = Some (v, String "," r4) ->
  Reference.parse_members pv (S fuel)
    (String (ascii_of_N 34)
       (Reference.escape k +:+ String (ascii_of_N 34) (String ":" r))) acc
  = Reference.parse_members pv fuel r4 (Reference.set_field k v acc).
Proof. intros H. rewrite parse_members_step, H. reflexivity. Qed.

Lemma parse_members_last pv (fuel : nat) (k r : string) acc v r4 :
  pv r = Some (v, String "}" r4) ->
  Reference.parse_members pv (S fuel)
    (String (ascii_of_N 34)
       (Reference.escape k +:+ String (ascii_of_N 34) (String ":" r))) acc
  = Some (JObj (Reference.set_field k v acc), r4).
Proof. intros H. rewrite parse_members_step, H. reflexivity. Qed.

Ltac normalize_append :=
  repeat first [ rewrite append_assoc | rewrite append_cons | rewrite append_nil_l ].

Lemma parse_value_wallet (fuel : nat) (d : WalletData) :
  Reference.parse_value (S (S (S (S (S fuel))))) (Reference.stringify (wallet_object d))
  = Some (wallet_object d, EmptyString).
Proof.
  cbn [Reference.stringify wallet_object].
  unfold Reference.quote, dquote. normalize_append.
  change (Reference.parse_value (S (S (S (S (S fuel))))) (String "{" ?r))
    with (Reference.parse_members (Reference.parse_value (S (S (S (S fuel)))))
            (S (S (S (S fuel)))) r []).
  erewrite parse_members_next by apply parse_value_string.
  erewrite parse_members_next by apply parse_value_string.
  erewrite parse_members_last by apply parse_value_int.
  reflexivity.
Qed.

Lemma stringify_wallet_length (d : WalletData) :
  exists n, String.length (Reference.stringify (wallet_object d)) = S (S (S (S n))).
Proof.
  cbn [Reference.stringify wallet_object].
  unfold Reference.quote, dquote. normalize_append.
  cbn [String.length]. eauto.
Qed.

(** The codec of the reference host obeys the law. *)
Lemma reference_round_trip native token settings :
  json_round_trip (Reference.make native token settings).
Proof.
  intros d. cbn [JSON_parse JSON_stringify Reference.make]. split.
  - unfold Reference.parse.
    destruct (stringify_wallet_length d) as [n ->].
    rewrite parse_value_wallet. reflexivity.
  - destruct (stringify_wallet_length d) as [n Hn].
    destruct (Reference.stringify (wallet_object d)); [discriminate | congruence].
Qed.



(** The same on a wallet stored as a record: after a failed read the flow
    stores a new wallet over the one that was there. *)
Example provisioning_after_failed_read :
  let h := Reference.first_read_fails
             (Reference.make (Ok 0) (Ok 0) Reference.no_settings) in
  let run := createWallet_handler h (Reference.message "crear wallet")
               Reference.with_wallet in
  fst run = Ok true
  /\ replies (snd run) = [msg_creating; msg_wallet_created Reference.account]
  /\ cache (snd run) !! user_wallet_key "user-1"
     = Some (JStr (Reference.stringify
                     (wallet_object {| wd_address := Reference.account;
                                       wd_privateKey := Reference.key;
                                       wd_createdAt := 1700000000002 |}))).
Proof. vm_compute. repeat split; reflexivity. Qed.


(** ** The amount pattern *)

Lemma amount_at_nonempty sym s g1 g3 :
  amount_at sym s = Some (g1, g3) -> g1 <> EmptyString.
Proof.
  unfold amount_at. destruct (digits_run s) as [int r1].
  destruct int as [|c int]; [discriminate|].
  intros H Hg. subst g1.
  destruct r1 as [|x r]; [|destruct (Ascii.eqb x ".") eqn:Ex].
  - destruct (symbol_at sym (skip_space EmptyString)); discriminate.
  - apply Ascii.eqb_eq in Ex. subst x.
    destruct (digits_run r) as [frac r'].
    destruct frac;
      match type of H with
      | context [symbol_at ?a ?b] => destruct (symbol_at a b)
      end; discriminate.
  - assert (Hx : x <> "."%char) by (intros ->; discriminate).
    destruct x as [[] [] [] [] [] [] [] []];
      try (exfalso; apply Hx; reflexivity);
      match type of H with
      | context [symbol_at ?a ?b] => destruct (symbol_at a b)
      end; discriminate.
Qed.

Lemma match_amount_inv sym s g :
  match_amount sym s = Some g -> exists s', amount_at sym s' = Some g.
Proof.
  induction s as [|c s IH]; cbn [match_amount].
  - destruct (amount_at sym EmptyString) eqn:E; [|discriminate].
    intros [= <-]. eauto.
  - destruct (amount_at sym (String c s)) eqn:E.
    + intros [= <-]. eauto.
    + exact IH.
Qed.

Lemma extractAmount_nonempty text amountStr :
  extractAmount text = Some amountStr -> nonempty (Some amountStr) = Some amountStr.
Proof.
  unfold extractAmount.
  destruct (match_amount "mnt" text) as [[g1 g3]|] eqn:E; [|discriminate].
  intros [= <-]. destruct (match_amount_inv _ _ _ E) as [s' Hs'].
  pose proof (amount_at_nonempty _ _ _ _ Hs') as Hne.
  destruct g1; [congruence | reflexivity].
Qed.

Lemma eq_ignore_case_upper l c :
  In l (list_ascii_of_string "aishop") ->
  eq_ignore_case l c = true -> upper_ascii c = upper_ascii l.
Proof.
  intros Hl.
  repeat (destruct Hl as [<-|Hl];
          [destruct c as [[] [] [] [] [] [] [] []]; intros H;
           try discriminate H; reflexivity|]).
  destruct Hl.
Qed.

Lemma symbol_at_upper sym s g :
  (forall l, In l (list_ascii_of_string sym) -> In l (list_ascii_of_string "aishop")) ->
  symbol_at sym s = Some g -> toUpperCase g = toUpperCase sym.
Proof.
  revert s g. induction sym as [|l sym IH]; intros s g Hsym; cbn [symbol_at].
  - intros [= <-]. reflexivity.
  - destruct s as [|c s]; [discriminate|].
    destruct (eq_ignore_case l c) eqn:El; [|discriminate].
    destruct (symbol_at sym s) as [g'|] eqn:Eg; [|discriminate].
    intros [= <-]. cbn [toUpperCase map_string].
    rewrite (eq_ignore_case_upper l c) by (try apply Hsym; try exact El; left; reflexivity).
    f_equal. apply (IH s g'); [|exact Eg].
    intros l' Hl'. apply Hsym. right. exact Hl'.
Qed.

Lemma amount_at_symbol sym s g1 g3 :
  amount_at sym s = Some (g1, g3) -> exists r, symbol_at sym r = Some g3.
Proof.
  unfold amount_at. destruct (digits_run s) as [int r1].
  destruct int as [|c int]; [discriminate|].
  assert (Hgen : forall g r2,
             match symbol_at sym (skip_space r2) with
             | Some g3' => Some (g, g3')
             | None => None
             end = Some (g1, g3) -> exists r, symbol_at sym r = Some g3).
  { intros g r2 H. destruct (symbol_at sym (skip_space r2)) eqn:E; [|discriminate].
    injection H as _ <-. eauto. }
  destruct r1 as [|x r]; [apply Hgen|].
  destruct x as [[] [] [] [] [] [] [] []]; try apply Hgen.
  destruct (digits_run r) as [frac r']. destruct frac; apply Hgen.
Qed.

(** The token of a transfer is always [AISHOP]. *)
Lemma extractTokenTransferInfo_symbol text info :
  extractTokenTransferInfo text = Some info -> symbol info = "AISHOP".
Proof.
  unfold extractTokenTransferInfo.
  destruct (match_amount "aishop" text) as [[g1 g3]|] eqn:E; [|discriminate].
  intros [= <-]. cbn [symbol].
  destruct (match_amount_inv _ _ _ E) as [s' Hs'].
  destruct (amount_at_symbol _ _ _ _ Hs') as [r Hr].
  apply (symbol_at_upper _ _ _ (fun l H => H) Hr).
Qed.

(** ** Transfers *)

Ltac unfold_session_in H :=
  cbv [initUserWalletProvider new_WalletProvider erc20_preflight] in H.

(** The run recorded in [H], split on every answer of the host. *)
Ltac flow_all H :=
  unfold_session_in H; unfold_flow_in H;
  repeat (flow_step H; unfold_session_in H; unfold_flow_in H).


Lemma aishop_token info text :
  extractTokenTransferInfo text = Some info ->
  assoc (symbol info) TOKENS
  = Some (ERC20Token "AISHOP" "AI Shop Agent" 18 AISHOP_address).
Proof.
  intros H. rewrite (extractTokenTransferInfo_symbol _ _ H). reflexivity.
Qed.





(** The native flow when the balance cannot be read: the failure reaches
    the handler's [catch]. *)
Lemma transferMNT_fetch_fails h m u w w1 w2 w3 p text to amountStr value e :
  resolve_userId m = Some u ->
  userHasWallet h u w = (Ok true, w1) ->
  initUserWalletProvider h u w1 = (Ok (Some p), w2) ->
  content_text m = Some text ->
  extractEthereumWalletAddress text = Some to ->
  extractAmount text = Some amountStr ->
  parseEther h amountStr = Ok value ->
  getBalance h (wp_address p) w2 = (Throw e, w3) ->
  transferMNT_handler h m w
  = (Ok false, add_reply ("Error al transferir MNT: " +:+ error_message e) w3)
  /\ broadcasts w3 = broadcasts w
  /\ documents w3 = documents w
  /\ replies w3 = replies w.
Proof.
  intros Hu Hhas Hinit Htext Hto Hamount Hvalue Hbal.
  assert (Hne : nonempty (extractAmount text) = Some amountStr)
    by (rewrite Hamount; apply (extractAmount_nonempty text), Hamount).
  clear Hamount.
  flow_all Hhas. flow_all Hinit. flow_all Hbal.
  all: simplify_eq.
  all: destruct (transferMNT_handler h m w) as [r w'] eqn:Hrun.
  all: unfold transferMNT_handler, text_or_empty in Hrun; rewrite Hu, Htext in Hrun.
  all: flow_all Hrun.
  all: simplify_eq.
  all: repeat split; reflexivity.
Qed.

(** The token flow when the balance cannot be read: the failure is caught
    where it happens and the transfer is handed to the wallet client,
    whatever the node answers afterwards. *)
Lemma transferERC20_fetch_fails h m u w w1 w2 w3 p to info value e :
  resolve_userId m = Some u ->
  userHasWallet h u w = (Ok true, w1) ->
  initUserWalletProvider h u w1 = (Ok (Some p), w2) ->
  extractEthereumWalletAddress (text_or_empty m) = Some to ->
  extractTokenTransferInfo (text_or_empty m) = Some info ->
  parseUnits h (amount info) 18 = Ok value ->
  readContract h AISHOP_address "balanceOf" [wp_address p] w2 = (Throw e, w3) ->
  exists r w',
    transferERC20_handler h m w = (r, w')
    /\ broadcasts w'
       = (broadcasts w ++ [WriteContract (wp_address p) AISHOP_address to value])%list.
Proof.
  intros Hu Hhas Hinit Hto Hinfo Hvalue Hbal.
  pose proof (aishop_token _ _ Hinfo) as Htoken.
  flow_all Hhas. flow_all Hinit. flow_all Hbal.
  all: simplify_eq.
  all: destruct (transferERC20_handler h m w) as [r w'] eqn:Hrun.
  all: unfold transferERC20_handler in Hrun; rewrite Hu in Hrun.
  all: flow_all Hrun.
  all: simplify_eq.
  all: eexists _, _; split; reflexivity.
Qed.

(** C2, as the code has it.  In the native flow a failure of the balance
    read ends the invocation: the handler returns [false] after the error
    reply, no transaction is handed to the wallet client and no record is
    created.  In the token flow the failure of the balance read is caught
    and the flow goes on: the transfer is handed to the wallet client. *)
Theorem preflight_fetch_failure h m u w w1 w2 p :
  resolve_userId m = Some u ->
  userHasWallet h u w = (Ok true, w1) ->
  initUserWalletProvider h u w1 = (Ok (Some p), w2) ->
  (forall text to amountStr value e w3,
     content_text m = Some text ->
     extractEthereumWalletAddress text = Some to ->
     extractAmount text = Some amountStr ->
     parseEther h amountStr = Ok value ->
     getBalance h (wp_address p) w2 = (Throw e, w3) ->
     exists w',
       transferMNT_handler h m w = (Ok false, w')
       /\ replies w'
          = (replies w ++ ["Error al transferir MNT: " +:+ error_message e])%list
       /\ broadcasts w' = broadcasts w
       /\ documents w' = documents w)
  /\
  (forall to info value e w3,
     extractEthereumWalletAddress (text_or_empty m) = Some to ->
     extractTokenTransferInfo (text_or_empty m) = Some info ->
     parseUnits h (amount info) 18 = Ok value ->
     readContract h AISHOP_address "balanceOf" [wp_address p] w2 = (Throw e, w3) ->
     exists r w',
       transferERC20_handler h m w = (r, w')
       /\ broadcasts w'
          = (broadcasts w
             ++ [WriteContract (wp_address p) AISHOP_address to value])%list).
Proof.
  intros Hu Hhas Hinit. split.
  - intros text to amountStr value e w3 Htext Hto Hamount Hvalue Hbal.
    destruct (transferMNT_fetch_fails h m u w w1 w2 w3 p text to amountStr value e)
      as (Hrun & Hb & Hd & Hr); try assumption.
    eexists. split; [exact Hrun|].
    cbn [add_reply replies broadcasts documents]. rewrite Hb, Hd, Hr. auto.
  - intros to info value e w3 Hto Hinfo Hvalue Hbal.
    apply (transferERC20_fetch_fails h m u w w1 w2 w3 p to info value e);
      assumption.
Qed.

Lemma preflight_fetch_failure_witness :
  let h := Reference.make (Throw (Error "rpc down")) (Throw (Error "rpc down"))
             Reference.no_settings in
  let m := Reference.message
             "enviar 0.5 MNT y 5 AISHOP a 0x1111111111111111111111111111111111111111" in
  let w := Reference.with_wallet in
  (fst (transferMNT_handler h m w) = Ok false
   /\ replies (snd (transferMNT_handler h m w)) = ["Error al transferir MNT: rpc down"]
   /\ broadcasts (snd (transferMNT_handler h m w)) = [])
  /\ broadcasts (snd (transferERC20_handler h m w))
     = [WriteContract Reference.account AISHOP_address
          "0x1111111111111111111111111111111111111111" (5 * 10 ^ 18)].
Proof.
  intros h m w.
  destruct (preflight_fetch_failure h m "user-1" w
              (snd (userHasWallet h "user-1" w))
              (snd (initUserWalletProvider h "user-1" (snd (userHasWallet h "user-1" w))))
              {| wp_privateKey := Reference.key; wp_address := Reference.account |})
    as [Hmnt Herc]; [reflexivity | vm_compute; reflexivity | vm_compute; reflexivity |].
  split.
  - destruct (Hmnt "enviar 0.5 MNT y 5 AISHOP a 0x1111111111111111111111111111111111111111"
                "0x1111111111111111111111111111111111111111" "0.5"
                (5 * 10 ^ 17) (Error "rpc down")
                (snd (getBalance h Reference.account
                        (snd (initUserWalletProvider h "user-1"
                                (snd (userHasWallet h "user-1" w)))))))
      as (w' & Hrun & Hr & Hb & _);
      [reflexivity | vm_compute; reflexivity | vm_compute; reflexivity
      | vm_compute; reflexivity | vm_compute; reflexivity |].
    rewrite Hrun. cbn [fst snd]. rewrite Hr, Hb. split; [reflexivity|].
    split; vm_compute; reflexivity.
  - destruct (Herc "0x1111111111111111111111111111111111111111"
                {| amount := "5"; symbol := "AISHOP" |}
                (5 * 10 ^ 18) (Error "rpc down")
                (snd (readContract h AISHOP_address "balanceOf" [Reference.account]
                        (snd (initUserWalletProvider h "user-1"
                                (snd (userHasWallet h "user-1" w)))))))
      as (r & w' & Hrun & Hb);
      [vm_compute; reflexivity | vm_compute; reflexivity | vm_compute; reflexivity
      | vm_compute; reflexivity |].
    rewrite Hrun. cbn [snd]. rewrite Hb. vm_compute. reflexivity.
Defined.

(** C2 does not hold as stated: in the token flow, with a node that fails
    the balance read, the invocation goes on, the transfer is handed to the
    wallet client, a transaction hash comes back and the handler returns
    [true] with a record of the transaction. *)
Lemma transferERC20_fetch_failure_counterexample :
  let h := Reference.make (Ok 0) (Throw (Error "rpc down")) Reference.no_settings in
  let m := Reference.message
             "enviar 5 AISHOP a 0x1111111111111111111111111111111111111111" in
  let run := transferERC20_handler h m Reference.with_wallet in
  fst (readContract h AISHOP_address "balanceOf" [Reference.account]
         (snd (initUserWalletProvider h "user-1"
                 (snd (userHasWallet h "user-1" Reference.with_wallet)))))
  = Throw (Error "rpc down")
  /\ fst run = Ok true
  /\ broadcasts (snd run)
     = [WriteContract Reference.account AISHOP_address
          "0x1111111111111111111111111111111111111111" (5 * 10 ^ 18)]
  /\ map has_transaction_payload (documents (snd run)) = [true].
Proof. vm_compute. repeat split; reflexivity. Qed.

(** ** Balance query *)

Ltac unfold_balance_in H :=
  cbv [aishop_entry provider_aishop] in H;
  cbn [assoc TOKENS String.eqb Ascii.eqb Bool.eqb] in H.

Ltac balance_flow H :=
  unfold_balance_in H; unfold_session_in H; unfold_flow_in H;
  repeat (flow_step H; unfold_balance_in H; unfold_session_in H; unfold_flow_in H).

(** The action on the caller's own wallet. *)
Lemma checkBalance_own_token_fails h m u w w1 w2 w3 w4 p native e :
  resolve_userId m = Some u ->
  extractEthereumWalletAddress (text_or_empty m) = None ->
  userHasWallet h u w = (Ok true, w1) ->
  initUserWalletProvider h u w1 = (Ok (Some p), w2) ->
  wp_getBalance h p w2 = (Ok native, w3) ->
  wp_getTokenBalance h p AISHOP_address w3 = (Throw e, w4) ->
  createMemory_fault h (clock w4 + generateId_draws) = None ->
  exists w',
    checkBalance_handler h m w = (Ok true, w')
    /\ replies w'
       = (replies w
          ++ [msg_own_balances (wp_address p)
                [("MNT", native); ("AISHOP", msg_token_error)]])%list.
Proof.
  intros Hu Hto Hhas Hinit Hnat Htok Hmem.
  flow_all Hhas. flow_all Hinit. flow_all Hnat. flow_all Htok.
  all: simplify_eq.
  all: destruct (checkBalance_handler h m w) as [r w'] eqn:Hrun.
  all: unfold checkBalance_handler in Hrun; rewrite Hu in Hrun.
  all: world_simpl; balance_flow Hrun.
  all: simplify_eq.
  all: eexists; split; reflexivity.
Qed.

Lemma checkBalance_own_native_fails h m u w w1 w2 w3 p e :
  resolve_userId m = Some u ->
  extractEthereumWalletAddress (text_or_empty m) = None ->
  userHasWallet h u w = (Ok true, w1) ->
  initUserWalletProvider h u w1 = (Ok (Some p), w2) ->
  wp_getBalance h p w2 = (Throw e, w3) ->
  checkBalance_handler h m w
  = (Ok false, add_reply ("Error al verificar balances: " +:+ error_message e) w3)
  /\ replies w3 = replies w /\ documents w3 = documents w.
Proof.
  intros Hu Hto Hhas Hinit Hnat.
  flow_all Hhas. flow_all Hinit. flow_all Hnat.
  all: simplify_eq.
  all: destruct (checkBalance_handler h m w) as [r w'] eqn:Hrun.
  all: unfold checkBalance_handler in Hrun; rewrite Hu in Hrun.
  all: world_simpl; balance_flow Hrun.
  all: simplify_eq.
  all: repeat split; reflexivity.
Qed.

(** The action on an address of the message. *)
Lemma checkBalance_address_token_fails h m u w w3 w4 a p0 bal e :
  resolve_userId m = Some u ->
  extractEthereumWalletAddress (text_or_empty m) = Some a ->
  initWalletProvider h = Some p0 ->
  getBalance h a w = (Ok bal, w3) ->
  readContract h AISHOP_address "balanceOf" [a] w3 = (Throw e, w4) ->
  createMemory_fault h (clock w4 + generateId_draws) = None ->
  exists w',
    checkBalance_handler h m w = (Ok true, w')
    /\ replies w'
       = (replies w
          ++ [msg_balances_of a
                [("MNT", formatEther h bal); ("AISHOP", msg_token_error)]])%list.
Proof.
  intros Hu Hto Hinit Hnat Htok Hmem.
  flow_all Hnat. flow_all Htok.
  all: simplify_eq.
  all: destruct (checkBalance_handler h m w) as [r w'] eqn:Hrun.
  all: unfold checkBalance_handler in Hrun; rewrite Hu in Hrun.
  all: world_simpl; balance_flow Hrun.
  all: simplify_eq.
  all: eexists; split; reflexivity.
Qed.

Lemma checkBalance_address_native_fails h m u w w3 a p0 e :
  resolve_userId m = Some u ->
  extractEthereumWalletAddress (text_or_empty m) = Some a ->
  initWalletProvider h = Some p0 ->
  getBalance h a w = (Throw e, w3) ->
  checkBalance_handler h m w
  = (Ok false, add_reply ("Error al verificar balances: " +:+ error_message e) w3)
  /\ replies w3 = replies w /\ documents w3 = documents w.
Proof.
  intros Hu Hto Hinit Hnat.
  flow_all Hnat.
  all: simplify_eq.
  all: destruct (checkBalance_handler h m w) as [r w'] eqn:Hrun.
  all: unfold checkBalance_handler in Hrun; rewrite Hu in Hrun.
  all: world_simpl; balance_flow Hrun.
  all: simplify_eq.
  all: repeat split; reflexivity.
Qed.

(** The provider on the caller's own wallet. *)
Lemma walletProvider_own_token_fails h m u w w1 w2 w3 w4 p native e :
  resolve_userId m = Some u ->
  provider_address m = None ->
  userHasWallet h u w = (Ok true, w1) ->
  initUserWalletProvider h u w1 = (Ok (Some p), w2) ->
  wp_getBalance h p w2 = (Ok native, w3) ->
  wp_getTokenBalance h p AISHOP_address w3 = (Throw e, w4) ->
  walletProvider_get h m w
  = (Ok (info_own_wallet (wp_address p) native "Error al consultar"), w4).
Proof.
  intros Hu Hto Hhas Hinit Hnat Htok.
  flow_all Hhas. flow_all Hinit. flow_all Hnat. flow_all Htok.
  all: simplify_eq.
  all: destruct (walletProvider_get h m w) as [r w'] eqn:Hrun.
  all: unfold walletProvider_get in Hrun; rewrite Hu in Hrun.
  all: world_simpl; balance_flow Hrun.
  all: simplify_eq.
  all: reflexivity.
Qed.

Lemma walletProvider_own_native_fails h m u w w1 w2 w3 p e :
  resolve_userId m = Some u ->
  provider_address m = None ->
  userHasWallet h u w = (Ok true, w1) ->
  initUserWalletProvider h u w1 = (Ok (Some p), w2) ->
  wp_getBalance h p w2 = (Throw e, w3) ->
  walletProvider_get h m w
  = (Ok ("Error al acceder a la información de la wallet: " +:+ error_message e), w3).
Proof.
  intros Hu Hto Hhas Hinit Hnat.
  flow_all Hhas. flow_all Hinit. flow_all Hnat.
  all: simplify_eq.
  all: destruct (walletProvider_get h m w) as [r w'] eqn:Hrun.
  all: unfold walletProvider_get in Hrun; rewrite Hu in Hrun.
  all: world_simpl; balance_flow Hrun.
  all: simplify_eq.
  all: reflexivity.
Qed.

(** The provider on an address of the message. *)
Lemma walletProvider_address_token_fails h m u w w3 w4 am bal e :
  resolve_userId m = Some u ->
  provider_address m = Some am ->
  getBalance h (toLowerCase am) w = (Ok bal, w3) ->
  (let* tokenDecimals := readContract h AISHOP_address "decimals" [] in
   let* tokenBalance :=
     readContract h AISHOP_address "balanceOf" [toLowerCase am] in
   ret (formatUnits h tokenBalance tokenDecimals)) w3 = (Throw e, w4) ->
  walletProvider_get h m w
  = (Ok (info_address (toLowerCase am) (formatEther h bal) "Error al consultar"), w4).
Proof.
  intros Hu Hto Hnat Htok.
  flow_all Hnat. flow_all Htok.
  all: simplify_eq.
  all: destruct (walletProvider_get h m w) as [r w'] eqn:Hrun.
  all: unfold walletProvider_get in Hrun; rewrite Hu in Hrun.
  all: world_simpl; balance_flow Hrun.
  all: simplify_eq.
  all: reflexivity.
Qed.

Lemma walletProvider_address_native_fails h m u w w3 am e :
  resolve_userId m = Some u ->
  provider_address m = Some am ->
  getBalance h (toLowerCase am) w = (Throw e, w3) ->
  walletProvider_get h m w
  = (Ok ("Error al obtener el balance de " +:+ toLowerCase am +:+ ": "
         +:+ error_message e), w3).
Proof.
  intros Hu Hto Hnat.
  flow_all Hnat.
  all: simplify_eq.
  all: destruct (walletProvider_get h m w) as [r w'] eqn:Hrun.
  all: unfold walletProvider_get in Hrun; rewrite Hu in Hrun.
  all: world_simpl; balance_flow Hrun.
  all: simplify_eq.
  all: reflexivity.
Qed.

(** C6. In the balance query a failure of the token read leaves the marker
    in the AISHOP line of a report that is still produced (the handler
    returns [true], the provider returns the report), while a failure of the
    native read ends the flow with a failure reply and no report.  This holds
    for the action and for the provider, on the caller's wallet and on an
    address of the message. *)
Theorem balance_failure_asymmetry h m u w :
  resolve_userId m = Some u ->
  (* the action, own wallet *)
  (forall w1 w2 p,
     extractEthereumWalletAddress (text_or_empty m) = None ->
     userHasWallet h u w = (Ok true, w1) ->
     initUserWalletProvider h u w1 = (Ok (Some p), w2) ->
     (forall native w3 e w4,
        wp_getBalance h p w2 = (Ok native, w3) ->
        wp_getTokenBalance h p AISHOP_address w3 = (Throw e, w4) ->
        createMemory_fault h (clock w4 + generateId_draws) = None ->
        exists w',
          checkBalance_handler h m w = (Ok true, w')
          /\ replies w'
             = (replies w
                ++ [msg_own_balances (wp_address p)
                      [("MNT", native); ("AISHOP", msg_token_error)]])%list)
     /\ (forall e w3,
           wp_getBalance h p w2 = (Throw e, w3) ->
           exists w',
             checkBalance_handler h m w = (Ok false, w')
             /\ replies w'
                = (replies w
                   ++ ["Error al verificar balances: " +:+ error_message e])%list
             /\ documents w' = documents w))
  /\
  (* the action, address of the message *)
  (forall a p0,
     extractEthereumWalletAddress (text_or_empty m) = Some a ->
     initWalletProvider h = Some p0 ->
     (forall bal w3 e w4,
        getBalance h a w = (Ok bal, w3) ->
        readContract h AISHOP_address "balanceOf" [a] w3 = (Throw e, w4) ->
        createMemory_fault h (clock w4 + generateId_draws) = None ->
        exists w',
          checkBalance_handler h m w = (Ok true, w')
          /\ replies w'
             = (replies w
                ++ [msg_balances_of a
                      [("MNT", formatEther h bal); ("AISHOP", msg_token_error)]])%list)
     /\ (forall e w3,
           getBalance h a w = (Throw e, w3) ->
           exists w',
             checkBalance_handler h m w = (Ok false, w')
             /\ replies w'
                = (replies w
                   ++ ["Error al verificar balances: " +:+ error_message e])%list
             /\ documents w' = documents w))
  /\
  (* the provider, own wallet *)
  (forall w1 w2 p,
     provider_address m = None ->
     userHasWallet h u w = (Ok true, w1) ->
     initUserWalletProvider h u w1 = (Ok (Some p), w2) ->
     (forall native w3 e w4,
        wp_getBalance h p w2 = (Ok native, w3) ->
        wp_getTokenBalance h p AISHOP_address w3 = (Throw e, w4) ->
        fst (walletProvider_get h m w)
        = Ok (info_own_wallet (wp_address p) native "Error al consultar"))
     /\ (forall e w3,
           wp_getBalance h p w2 = (Throw e, w3) ->
           fst (walletProvider_get h m w)
           = Ok ("Error al acceder a la información de la wallet: "
                 +:+ error_message e)))
  /\
  (* the provider, address of the message *)
  (forall am,
     provider_address m = Some am ->
     (forall bal w3 e w4,
        getBalance h (toLowerCase am) w = (Ok bal, w3) ->
        (let* tokenDecimals := readContract h AISHOP_address "decimals" [] in
         let* tokenBalance :=
           readContract h AISHOP_address "balanceOf" [toLowerCase am] in
         ret (formatUnits h tokenBalance tokenDecimals)) w3 = (Throw e, w4) ->
        fst (walletProvider_get h m w)
        = Ok (info_address (toLowerCase am) (formatEther h bal) "Error al consultar"))
     /\ (forall e w3,
           getBalance h (toLowerCase am) w = (Throw e, w3) ->
           fst (walletProvider_get h m w)
           = Ok ("Error al obtener el balance de " +:+ toLowerCase am +:+ ": "
                 +:+ error_message e))).
Proof.
  intros Hu. repeat split.
  - intros native w3 e w4 Hnat Htok Hmem.
    eapply checkBalance_own_token_fails; eassumption.
  - intros e w3 Hnat.
    destruct (checkBalance_own_native_fails h m u w w1 w2 w3 p e)
      as (Hrun & Hr & Hd); try assumption.
    eexists. split; [exact Hrun|].
    cbn [add_reply replies documents]. rewrite Hr, Hd. auto.
  - intros bal w3 e w4 Hnat Htok Hmem.
    eapply checkBalance_address_token_fails; eassumption.
  - intros e w3 Hnat.
    destruct (checkBalance_address_native_fails h m u w w3 a p0 e)
      as (Hrun & Hr & Hd); try assumption.
    eexists. split; [exact Hrun|].
    cbn [add_reply replies documents]. rewrite Hr, Hd. auto.
  - intros native w3 e w4 Hnat Htok.
    erewrite walletProvider_own_token_fails by eassumption. reflexivity.
  - intros e w3 Hnat.
    erewrite walletProvider_own_native_fails by eassumption. reflexivity.
  - intros bal w3 e w4 Hnat Htok.
    erewrite walletProvider_address_token_fails by eassumption. reflexivity.
  - intros e w3 Hnat.
    erewrite walletProvider_address_native_fails by eassumption. reflexivity.
Qed.

Lemma balance_failure_asymmetry_witness :
  let token_down := Reference.make (Ok (10 ^ 18)) (Throw (Error "rpc down"))
                      Reference.no_settings in
  let native_down := Reference.make (Throw (Error "rpc down")) (Ok 0)
                       Reference.no_settings in
  let m := Reference.message "ver mi balance" in
  let w := Reference.with_wallet in
  replies (snd (checkBalance_handler token_down m w))
  = [msg_own_balances Reference.account [("MNT", "1"); ("AISHOP", msg_token_error)]]
  /\ fst (checkBalance_handler token_down m w) = Ok true
  /\ replies (snd (checkBalance_handler native_down m w))
     = ["Error al verificar balances: rpc down"]
  /\ fst (checkBalance_handler native_down m w) = Ok false.
Proof.
  intros token_down native_down m w.
  pose (p := {| wp_privateKey := Reference.key; wp_address := Reference.account |}).
  destruct (balance_failure_asymmetry token_down m "user-1" w eq_refl)
    as [Hown _].
  destruct (Hown (snd (userHasWallet token_down "user-1" w))
              (snd (initUserWalletProvider token_down "user-1"
                      (snd (userHasWallet token_down "user-1" w)))) p)
    as [Htoken _]; [vm_compute; reflexivity | vm_compute; reflexivity
                   | vm_compute; reflexivity |].
  destruct (Htoken "1"
              (snd (wp_getBalance token_down p
                      (snd (initUserWalletProvider token_down "user-1"
                              (snd (userHasWallet token_down "user-1" w))))))
              (Error "rpc down")
              (snd (wp_getTokenBalance token_down p AISHOP_address
                      (snd (wp_getBalance token_down p
                              (snd (initUserWalletProvider token_down "user-1"
                                      (snd (userHasWallet token_down "user-1" w)))))))))
    as (w1 & Hrun1 & Hr1); [vm_compute; reflexivity | vm_compute; reflexivity
                           | reflexivity |].
  destruct (balance_failure_asymmetry native_down m "user-1" w eq_refl)
    as [Hown' _].
  destruct (Hown' (snd (userHasWallet native_down "user-1" w))
              (snd (initUserWalletProvider native_down "user-1"
                      (snd (userHasWallet native_down "user-1" w)))) p)
    as [_ Hnative]; [vm_compute; reflexivity | vm_compute; reflexivity
                    | vm_compute; reflexivity |].
  destruct (Hnative (Error "rpc down")
              (snd (wp_getBalance native_down p
                      (snd (initUserWalletProvider native_down "user-1"
                              (snd (userHasWallet native_down "user-1" w)))))))
    as (w2 & Hrun2 & Hr2 & _); [vm_compute; reflexivity|].
  rewrite Hrun1, Hrun2. cbn [fst snd]. rewrite Hr1, Hr2.
  repeat split; vm_compute; reflexivity.
Defined.


Lemma action_report_address a n v :
  action_report (msg_balances_of a [("MNT", n); ("AISHOP", v)]).
Proof. exists a, n, [v]. split; [reflexivity | left; reflexivity]. Qed.

Lemma action_report_own a n v :
  action_report (msg_own_balances a [("MNT", n); ("AISHOP", v)]).
Proof. exists a, n, [v]. split; [reflexivity | right; reflexivity]. Qed.

Lemma provider_report_address a n v : provider_report (info_address a n v).
Proof. exists a, n, [v]. split; [reflexivity | left; reflexivity]. Qed.

Lemma provider_report_own a n v : provider_report (info_own_wallet a n v).
Proof. exists a, n, [v]. split; [reflexivity | right; reflexivity]. Qed.

(** C7. Every run of the action that returns [true] ends with a report in
    which the MNT line comes first among the balance lines and is followed
    by one line for each contract-backed token, in the order of the
    registry; whatever the provider returns is such a report or one of its
    failure texts.  The lines and their order do not depend on the host or
    on the state. *)
Theorem balance_report_order h m w :
  (forall w',
     checkBalance_handler h m w = (Ok true, w') ->
     exists rs report,
       replies w' = (rs ++ [report])%list /\ action_report report)
  /\ (forall s w',
        walletProvider_get h m w = (Ok s, w') ->
        provider_report s \/ provider_failure s).
Proof.
  split.
  - intros w' Hrun. unfold checkBalance_handler in Hrun.
    destruct (resolve_userId m) as [u|]; world_simpl; balance_flow Hrun.
    all: simplify_eq.
    all: eexists _, _; split; [reflexivity|].
    all: first [apply action_report_address | apply action_report_own].
  - intros s w' Hrun. unfold walletProvider_get in Hrun.
    destruct (resolve_userId m) as [u|]; world_simpl; balance_flow Hrun.
    all: simplify_eq.
    all: first [ left; apply provider_report_address
               | left; apply provider_report_own
               | right; unfold provider_failure; eauto 10 ].
Qed.

Lemma balance_report_order_witness :
  let h := Reference.make (Ok (10 ^ 18)) (Ok (25 * 10 ^ 17)) Reference.no_settings in
  let m := Reference.message "ver mi balance" in
  exists rs report,
    replies (snd (checkBalance_handler h m Reference.with_wallet))
    = (rs ++ [report])%list
    /\ action_report report.
Proof.
  intros h m.
  apply (proj1 (balance_report_order h m Reference.with_wallet)).
  vm_compute. reflexivity.
Defined.

(** ** Which address a flow takes *)

Lemma session_of_inv h v p :
  session_of h v = Some p ->
  truthy v = true
  /\ exists uw key,
       decode_wallet h v = Some uw
       /\ wallet_privateKey uw = JStr key
       /\ privateKeyToAccount h (normalize_key key) = Ok (wp_address p)
       /\ p = {| wp_privateKey := normalize_key key; wp_address := wp_address p |}.
Proof.
  unfold session_of. destruct (decode_wallet h v) as [uw|] eqn:Ed; [|discriminate].
  destruct (wallet_privateKey uw) as [| | | |key|] eqn:Ek; try discriminate.
  destruct (privateKeyToAccount h (normalize_key key)) as [a|] eqn:Ea; [|discriminate].
  intros [= <-]. split.
  - unfold decode_wallet in Ed. destruct (truthy v); [reflexivity | discriminate].
  - exists uw, key. repeat split; assumption.
Qed.

(** The match at the least position is the address extracted. *)
Lemma least_match_extract text k :
  matches_at text k = true ->
  (forall l, matches_at text l = true -> (k <= l)%nat) ->
  extractEthereumWalletAddress text = Some (substring k 42 text).
Proof.
  intros Hk Hleast. apply extract_leftmost; [exact Hk|].
  intros j Hj. destruct (matches_at text j) eqn:E; [|reflexivity].
  apply Hleast in E. lia.
Qed.

(** The native flow on its way to the wallet client. *)
Lemma transferMNT_sends h m w u p text to amountStr value bal :
  resolve_userId m = Some u ->
  content_text m = Some text ->
  extractEthereumWalletAddress text = Some to ->
  extractAmount text = Some amountStr ->
  cache_get_fault h (clock w) = None ->
  cache_get_fault h (S (clock w)) = None ->
  session_of h (default JUndefined (cache w !! user_wallet_key u)) = Some p ->
  parseEther h amountStr = Ok value ->
  rpc_getBalance h (S (S (clock w))) (wp_address p) = Ok bal ->
  value <= bal ->
  broadcasts (snd (transferMNT_handler h m w))
  = (broadcasts w ++ [SendTransaction (wp_address p) to value])%list
  /\ exists reply rs,
       replies (snd (transferMNT_handler h m w))
       = (replies w ++ msg_processing amountStr "MNT" (wp_address p) to :: reply :: rs)%list.
Proof.
  intros Hu Htext Hto Hamount Hg1 Hg2 Hs Hvalue Hbal Hle.
  assert (Hne : nonempty (extractAmount (text_or_empty m)) = Some amountStr).
  { unfold text_or_empty. rewrite Htext, Hamount.
    apply (extractAmount_nonempty text), Hamount. }
  destruct (session_of_inv _ _ _ Hs) as (Htruthy & uw & key & Hd & Hk & Ha & Hp).
  apply Z.ltb_ge in Hle. rewrite Hp in Hbal. cbn [wp_address] in Hbal.
  destruct (transferMNT_handler h m w) as [r w'] eqn:Hrun. cbn [snd].
  unfold transferMNT_handler in Hrun. rewrite Hu, Htext, Hne, Hto in Hrun.
  flow_all Hrun.
  all: simplify_eq; world_simpl.
  all: split; [reflexivity|].
  all: eexists _, _; rewrite <- ?app_assoc; reflexivity.
Qed.

(** The token flow on its way to the wallet client: a balance that covers
    the amount and a balance that cannot be read lead there alike. *)
Lemma transferERC20_sends h m w u p to info value :
  resolve_userId m = Some u ->
  extractEthereumWalletAddress (text_or_empty m) = Some to ->
  extractTokenTransferInfo (text_or_empty m) = Some info ->
  cache_get_fault h (clock w) = None ->
  cache_get_fault h (S (clock w)) = None ->
  session_of h (default JUndefined (cache w !! user_wallet_key u)) = Some p ->
  parseUnits h (amount info) 18 = Ok value ->
  (forall bal,
     rpc_readContract h (S (S (clock w))) AISHOP_address "balanceOf"
       [wp_address p] = Ok bal -> value <= bal) ->
  broadcasts (snd (transferERC20_handler h m w))
  = (broadcasts w ++ [WriteContract (wp_address p) AISHOP_address to value])%list.
Proof.
  intros Hu Hto Hinfo Hg1 Hg2 Hs Hvalue Hcover.
  pose proof (aishop_token _ _ Hinfo) as Htoken.
  destruct (session_of_inv _ _ _ Hs) as (Htruthy & uw & key & Hd & Hk & Ha & Hp).
  rewrite Hp in Hcover. cbn [wp_address] in Hcover.
  destruct (transferERC20_handler h m w) as [r w'] eqn:Hrun. cbn [snd].
  unfold transferERC20_handler in Hrun. rewrite Hu, Hto, Hinfo, Htoken in Hrun.
  flow_all Hrun.
  all: simplify_eq; world_simpl.
  all: try reflexivity.
  all: match goal with
       | H : rpc_readContract _ _ _ _ _ = Ok ?bal, L : (?bal <? _)%Z = true |- _ =>
           apply Z.ltb_lt in L; specialize (Hcover _ H); lia
       end.
Qed.

(** The balance query on an address of the message: the node is asked for
    the balance of that address, and its answer decides the outcome. *)
Lemma checkBalance_address_run h m w u p0 a :
  resolve_userId m = Some u ->
  extractEthereumWalletAddress (text_or_empty m) = Some a ->
  initWalletProvider h = Some p0 ->
  (forall bal,
     rpc_getBalance h (clock w) a = Ok bal ->
     createMemory_fault h (S (S (clock w)) + generateId_draws) = None ->
     exists token_value r w',
       checkBalance_handler h m w = (Ok true, w')
       /\ (token_value = msg_token_error
           \/ exists tokenBalance,
                rpc_readContract h (S (clock w)) AISHOP_address "balanceOf" [a]
                = Ok tokenBalance
                /\ token_value = formatUnits h tokenBalance 18)
       /\ replies w'
          = (replies w
             ++ [msg_balances_of a
                   [("MNT", formatEther h bal); ("AISHOP", token_value)]])%list
       /\ documents w' = (documents w ++ [r])%list
       /\ rec_payload r
          = Balances [("MNT", formatEther h bal); ("AISHOP", token_value)] a)
  /\ (forall e,
        rpc_getBalance h (clock w) a = Throw e ->
        checkBalance_handler h m w
        = (Ok false,
           add_reply ("Error al verificar balances: " +:+ error_message e)
             (with_clock (S (clock w)) w))).
Proof.
  intros Hu Ha Hkey. split.
  - intros bal Hbal Hmem.
    destruct (checkBalance_handler h m w) as [res w'] eqn:Hrun.
    unfold checkBalance_handler in Hrun. rewrite Hu, Ha, Hkey in Hrun.
    balance_flow Hrun.
    all: simplify_eq; world_simpl.
    all: eexists _, _, _; split; [reflexivity|].
    all: split; [|repeat split; reflexivity].
    all: try solve [ left; reflexivity ].
    all: right; eexists; split; reflexivity.
  - intros e Hbal.
    destruct (checkBalance_handler h m w) as [res w'] eqn:Hrun.
    unfold checkBalance_handler in Hrun. rewrite Hu, Ha, Hkey in Hrun.
    balance_flow Hrun.
    all: simplify_eq; reflexivity.
Qed.

(** C10. When the pattern matches at several places of the text, the
    address returned is the match at the least position.  A transfer is
    directed to that address: the transfer flows hand over at most one
    transaction, always to that address, and whenever the user has a
    session, the amount is read and the balance allows it, they do hand it
    over, from the address of the session to the first address of the
    text.  The balance query targets that address: it asks the node for the
    balance of the first address of the text, reports it under that address
    and records it, and fails with the error of that read when the read
    fails. *)
Theorem leftmost_address_is_used :
  (forall text i j,
     i <> j -> matches_at text i = true -> matches_at text j = true ->
     exists k,
       matches_at text k = true
       /\ (forall l, matches_at text l = true -> (k <= l)%nat)
       /\ extractEthereumWalletAddress text = Some (substring k 42 text))
  /\ (forall h m w r w',
        transferMNT_handler h m w = (r, w') ->
        broadcasts w' = broadcasts w
        \/ exists text to from value,
             content_text m = Some text
             /\ extractEthereumWalletAddress text = Some to
             /\ broadcasts w'
                = (broadcasts w ++ [SendTransaction from to value])%list)
  /\ (forall h m w r w',
        transferERC20_handler h m w = (r, w') ->
        broadcasts w' = broadcasts w
        \/ exists to from value,
             extractEthereumWalletAddress (text_or_empty m) = Some to
             /\ broadcasts w'
                = (broadcasts w
                   ++ [WriteContract from AISHOP_address to value])%list)
  /\ (forall h m w w' a,
        checkBalance_handler h m w = (Ok true, w') ->
        extractEthereumWalletAddress (text_or_empty m) = Some a ->
        exists bal token_value,
          rpc_getBalance h (clock w) a = Ok bal
          /\ replies w'
             = (replies w
                ++ [msg_balances_of a
                      [("MNT", formatEther h bal); ("AISHOP", token_value)]])%list)
  /\ (forall h m w u p text k amountStr value bal,
        content_text m = Some text ->
        matches_at text k = true ->
        (forall l, matches_at text l = true -> (k <= l)%nat) ->
        resolve_userId m = Some u ->
        cache_get_fault h (clock w) = None ->
        cache_get_fault h (S (clock w)) = None ->
        session_of h (default JUndefined (cache w !! user_wallet_key u)) = Some p ->
        extractAmount text = Some amountStr ->
        parseEther h amountStr = Ok value ->
        rpc_getBalance h (S (S (clock w))) (wp_address p) = Ok bal ->
        value <= bal ->
        broadcasts (snd (transferMNT_handler h m w))
        = (broadcasts w
           ++ [SendTransaction (wp_address p) (substring k 42 text) value])%list
        /\ exists reply rs,
             replies (snd (transferMNT_handler h m w))
             = (replies w
                ++ msg_processing amountStr "MNT" (wp_address p) (substring k 42 text)
                   :: reply :: rs)%list)
  /\ (forall h m w u p k info value,
        matches_at (text_or_empty m) k = true ->
        (forall l, matches_at (text_or_empty m) l = true -> (k <= l)%nat) ->
        resolve_userId m = Some u ->
        cache_get_fault h (clock w) = None ->
        cache_get_fault h (S (clock w)) = None ->
        session_of h (default JUndefined (cache w !! user_wallet_key u)) = Some p ->
        extractTokenTransferInfo (text_or_empty m) = Some info ->
        parseUnits h (amount info) 18 = Ok value ->
        (forall bal,
           rpc_readContract h (S (S (clock w))) AISHOP_address "balanceOf"
             [wp_address p] = Ok bal -> value <= bal) ->
        broadcasts (snd (transferERC20_handler h m w))
        = (broadcasts w
           ++ [WriteContract (wp_address p) AISHOP_address
                 (substring k 42 (text_or_empty m)) value])%list)
  /\ (forall h m w u p0 k,
        matches_at (text_or_empty m) k = true ->
        (forall l, matches_at (text_or_empty m) l = true -> (k <= l)%nat) ->
        resolve_userId m = Some u ->
        initWalletProvider h = Some p0 ->
        let a := substring k 42 (text_or_empty m) in
        (forall bal,
           rpc_getBalance h (clock w) a = Ok bal ->
           createMemory_fault h (S (S (clock w)) + generateId_draws) = None ->
           exists token_value r w',
             checkBalance_handler h m w = (Ok true, w')
             /\ (token_value = msg_token_error
                 \/ exists tokenBalance,
                      rpc_readContract h (S (clock w)) AISHOP_address "balanceOf" [a]
                      = Ok tokenBalance
                      /\ token_value = formatUnits h tokenBalance 18)
             /\ replies w'
                = (replies w
                   ++ [msg_balances_of a
                         [("MNT", formatEther h bal); ("AISHOP", token_value)]])%list
             /\ documents w' = (documents w ++ [r])%list
             /\ rec_payload r
                = Balances [("MNT", formatEther h bal); ("AISHOP", token_value)] a)
        /\ (forall e,
              rpc_getBalance h (clock w) a = Throw e ->
              checkBalance_handler h m w
              = (Ok false,
                 add_reply ("Error al verificar balances: " +:+ error_message e)
                   (with_clock (S (clock w)) w)))).
Proof.
  split; [|split; [|split; [|split; [|split; [|split]]]]].
  - intros text i j _ Hi _.
    destruct (extract_of_match text i Hi) as (k & _ & Hk & Hlt & Hex).
    exists k. repeat split; try assumption.
    intros l Hl. destruct (Nat.le_gt_cases k l) as [Hle|Hgt]; [exact Hle|].
    rewrite (Hlt l Hgt) in Hl. discriminate.
  - intros h m w r w' Hrun. unfold transferMNT_handler, text_or_empty in Hrun.
    destruct (resolve_userId m) as [u|]; destruct (content_text m) as [text|];
      world_simpl; flow_all Hrun.
    all: simplify_eq; world_simpl.
    all: try (left; reflexivity).
    all: try (right; eexists _, _, _, _;
                 split; [reflexivity|]; split; [eassumption | reflexivity]).
  - intros h m w r w' Hrun. unfold transferERC20_handler in Hrun.
    destruct (resolve_userId m) as [u|];
      destruct (extractTokenTransferInfo (text_or_empty m)) as [info|] eqn:Hinfo;
      try pose proof (aishop_token _ _ Hinfo) as Htoken;
      world_simpl; flow_all Hrun.
    all: simplify_eq; world_simpl.
    all: try (left; reflexivity).
    all: try (right; eexists _, _, _; split; reflexivity).
  - intros h m w w' a Hrun Ha. unfold checkBalance_handler in Hrun.
    destruct (resolve_userId m) as [u|]; world_simpl; balance_flow Hrun.
    all: simplify_eq; world_simpl.
    all: eexists _, _; split; reflexivity.
  - intros h m w u p text k amountStr value bal
      Htext Hk Hleast Hu Hg1 Hg2 Hs Hamount Hvalue Hbal Hle.
    apply (transferMNT_sends h m w u p text _ amountStr value bal); try assumption.
    apply least_match_extract; assumption.
  - intros h m w u p k info value Hk Hleast Hu Hg1 Hg2 Hs Hinfo Hvalue Hcover.
    apply (transferERC20_sends h m w u p _ info value); try assumption.
    apply least_match_extract; assumption.
  - intros h m w u p0 k Hk Hleast Hu Hkey a.
    apply (checkBalance_address_run h m w u p0 a Hu); [|exact Hkey].
    apply least_match_extract; assumption.
Qed.

Lemma two_addresses_least :
  matches_at two_addresses_message 17 = true
  /\ forall l, matches_at two_addresses_message l = true -> (17 <= l)%nat.
Proof.
  split; [reflexivity|]. intros l Hl.
  do 17 (destruct l as [|l]; [discriminate Hl|]). lia.
Defined.

Lemma leftmost_address_is_used_witness :
  let h := Reference.make (Ok (10 ^ 18)) (Ok 0) agent_key_settings in
  let m := Reference.message two_addresses_message in
  broadcasts (snd (transferMNT_handler h m Reference.with_wallet))
  = [SendTransaction Reference.account
       "0x1111111111111111111111111111111111111111" (5 * 10 ^ 17)]
  /\ exists token_value,
       replies (snd (checkBalance_handler h m Reference.start))
       = [msg_balances_of "0x1111111111111111111111111111111111111111"
            [("MNT", "1"); ("AISHOP", token_value)]].
Proof.
  intros h m.
  destruct leftmost_address_is_used as (_ & _ & _ & _ & Hmnt & _ & Hquery).
  destruct two_addresses_least as [Hk Hleast].
  split.
  - destruct (Hmnt h m Reference.with_wallet "user-1"
                {| wp_privateKey := Reference.key; wp_address := Reference.account |}
                two_addresses_message 17%nat "0.5" (5 * 10 ^ 17) (10 ^ 18))
      as [Hsent _].
    + reflexivity.
    + exact Hk.
    + exact Hleast.
    + reflexivity.
    + reflexivity.
    + reflexivity.
    + vm_compute. reflexivity.
    + vm_compute. reflexivity.
    + vm_compute. reflexivity.
    + reflexivity.
    + vm_compute. discriminate.
    + exact Hsent.
  - destruct (Hquery h m Reference.start "user-1"
                {| wp_privateKey := Reference.key; wp_address := Reference.account |}
                17%nat Hk Hleast eq_refl)
      as [Hok _].
    + vm_compute. reflexivity.
    + destruct (Hok (10 ^ 18)) as (token_value & r & w' & Hrun & _ & Hreplies & _).
      * reflexivity.
      * reflexivity.
      * exists token_value. rewrite Hrun. cbn [snd]. rewrite Hreplies. reflexivity.
Defined.

Example two_addresses_first :
  extractEthereumWalletAddress two_addresses_message
  = Some "0x1111111111111111111111111111111111111111".
Proof. reflexivity. Qed.

Example two_addresses_transfer :
  broadcasts
    (snd (transferMNT_handler
            (Reference.make (Ok (10 ^ 18)) (Ok 0) Reference.no_settings)
            (Reference.message two_addresses_message) Reference.with_wallet))
  = [SendTransaction Reference.account
       "0x1111111111111111111111111111111111111111" (5 * 10 ^ 17)].
Proof. vm_compute. reflexivity. Qed.

(** ** Intent parsing *)

(** C4, as the code has it.  On the message of the example the address
    extracted is the 40-digit address and the amount is 0.5.  A text in
    which the pattern (0x and 40 hexadecimal characters) matches nowhere
    gives no address.  An address returned is always 0x and 40 hexadecimal
    characters taken from the text, the leftmost match; nothing is asked of
    the character that follows it. *)
Theorem intent_parsing :
  extractEthereumWalletAddress example_message
  = Some "0x1111111111111111111111111111111111111111"
  /\ extractAmount example_message = Some "0.5"
  /\ (forall text,
        (forall i, matches_at text i = false) ->
        extractEthereumWalletAddress text = None)
  /\ (forall text a,
        extractEthereumWalletAddress text = Some a ->
        eth_address_shape a = true
        /\ exists i, a = substring i 42 text
                     /\ matches_at text i = true
                     /\ forall j, (j < i)%nat -> matches_at text j = false).
Proof.
  split; [reflexivity|]. split; [reflexivity|]. split.
  - intros text H. apply extract_none_iff, H.
  - intros text a H.
    destruct (extract_some_inv _ _ H) as (i & Hi & Hlt & Ha & Hshape).
    split; [exact Hshape|]. exists i. auto.
Qed.

Lemma intent_parsing_witness :
  extractEthereumWalletAddress "ver mi balance 0x1234" = None.
Proof.
  apply (proj1 (proj2 (proj2 intent_parsing))).
  intros i. do 22 (destruct i as [|i]; [reflexivity|]). reflexivity.
Defined.

(** C4 does not hold as stated: a text whose only run of hexadecimal
    characters after 0x has 41 of them contains no address of exactly 40,
    and the extraction returns the first 40 of the run. *)
Lemma partial_match_counterexample :
  (forall i, exact_address_at long_hex_message i = false)
  /\ extractEthereumWalletAddress long_hex_message
     = Some "0x1111111111111111111111111111111111111111".
Proof.
  split; [|reflexivity].
  intros i. do 61 (destruct i as [|i]; [reflexivity|]). reflexivity.
Qed.

(* ================================================================== *)
(** * Part III: further properties of the code                         *)
(* ================================================================== *)

(** ** Errors stop at the boundary of a flow *)

Lemma try_catch_returns {A : Type} (m : M A) (hd : exn -> M A) w :
  (forall e w0, exists a w1, hd e w0 = (Ok a, w1)) ->
  exists a w', try_catch m hd w = (Ok a, w').
Proof.
  intros Hhd. unfold try_catch. destruct (m w) as [[a|e] w0]; eauto.
Qed.

(** X1. No handler and no call of the provider lets an exception out:
    whatever the host answers or throws, each returns a value. *)
Theorem flows_never_throw h m w :
  (exists b w', createWallet_handler h m w = (Ok b, w'))
  /\ (exists b w', transferMNT_handler h m w = (Ok b, w'))
  /\ (exists b w', transferERC20_handler h m w = (Ok b, w'))
  /\ (exists b w', checkBalance_handler h m w = (Ok b, w'))
  /\ (exists s w', walletProvider_get h m w = (Ok s, w')).
Proof.
  repeat split; apply try_catch_returns; intros e w0; eexists _, _; reflexivity.
Qed.

(** ** What a transfer hands to the wallet client *)

Lemma nonempty_some o s : nonempty o = Some s -> o = Some s.
Proof. destruct o as [[|c t]|]; cbn; congruence. Qed.

(** X2. The native flow hands over at most one transaction, and only after
    all of this: the caller is identified, a wallet is read from the cache
    under the caller's key, the sender is the account of the key stored
    there, the destination and the amount are the ones parsed from the text,
    and the balance read for the sender is not below the value sent. *)
Theorem transferMNT_broadcast_guarded h m w :
  broadcasts (snd (transferMNT_handler h m w)) = broadcasts w
  \/ exists u wl key from text to amountStr value bal,
       resolve_userId m = Some u
       /\ cache_get_fault h (clock w) = None
       /\ decode_wallet h (default JUndefined (cache w !! user_wallet_key u)) = Some wl
       /\ wallet_privateKey wl = JStr key
       /\ privateKeyToAccount h (normalize_key key) = Ok from
       /\ content_text m = Some text
       /\ extractEthereumWalletAddress text = Some to
       /\ extractAmount text = Some amountStr
       /\ parseEther h amountStr = Ok value
       /\ rpc_getBalance h (S (S (clock w))) from = Ok bal
       /\ value <= bal
       /\ broadcasts (snd (transferMNT_handler h m w))
          = (broadcasts w ++ [SendTransaction from to value])%list.
Proof.
  destruct (transferMNT_handler h m w) as [r w'] eqn:Hrun. cbn [snd].
  unfold transferMNT_handler, text_or_empty in Hrun.
  destruct (resolve_userId m) as [u|]; destruct (content_text m) as [text|];
    world_simpl; flow_all Hrun.
  all: simplify_eq; world_simpl.
  all: try (left; reflexivity).
  all: right; eexists _, _, _, _, _, _, _, _, _.
  all: repeat match goal with
         | H : nonempty _ = Some _ |- _ => apply nonempty_some in H
         | H : (_ <? _)%Z = false |- _ => apply Z.ltb_ge in H
         end.
  all: repeat split; try eassumption; try reflexivity.
Qed.

(** X3. The token flow hands over at most one transaction, and only after
    the same checks, except for the balance: the read of the token balance
    has either failed or returned at least the amount sent. *)
Theorem transferERC20_broadcast_guarded h m w :
  broadcasts (snd (transferERC20_handler h m w)) = broadcasts w
  \/ exists u wl key from to info value,
       resolve_userId m = Some u
       /\ cache_get_fault h (clock w) = None
       /\ decode_wallet h (default JUndefined (cache w !! user_wallet_key u)) = Some wl
       /\ wallet_privateKey wl = JStr key
       /\ privateKeyToAccount h (normalize_key key) = Ok from
       /\ extractEthereumWalletAddress (text_or_empty m) = Some to
       /\ extractTokenTransferInfo (text_or_empty m) = Some info
       /\ parseUnits h (amount info) 18 = Ok value
       /\ ((exists e,
              rpc_readContract h (S (S (clock w))) AISHOP_address "balanceOf" [from]
              = Throw e)
           \/ exists bal,
                rpc_readContract h (S (S (clock w))) AISHOP_address "balanceOf" [from]
                = Ok bal
                /\ value <= bal)
       /\ broadcasts (snd (transferERC20_handler h m w))
          = (broadcasts w ++ [WriteContract from AISHOP_address to value])%list.
Proof.
  destruct (transferERC20_handler h m w) as [r w'] eqn:Hrun. cbn [snd].
  unfold transferERC20_handler in Hrun.
  destruct (resolve_userId m) as [u|];
    destruct (extractTokenTransferInfo (text_or_empty m)) as [info|] eqn:Hinfo;
    try pose proof (aishop_token _ _ Hinfo) as Htoken;
    world_simpl; flow_all Hrun.
  all: simplify_eq; world_simpl.
  all: try (left; reflexivity).
  all: right; eexists _, _, _, _, _, _, _.
  all: repeat match goal with
         | H : (_ <? _)%Z = false |- _ => apply Z.ltb_ge in H
         end.
  all: repeat split; try eassumption; try reflexivity.
  all: first [ left; eexists; eassumption
             | right; eexists; split; eassumption ].
Qed.


(** ** What the result of a transfer says *)

(** X4. A native transfer that returns [true] has handed over exactly one
    transaction, has its hash and a receipt from the node (of whatever
    status), has created exactly one record, which carries that hash, the
    sender, the destination and the amount, and has replied with the text
    of that record.  A native transfer that returns [false] has created no
    record; when it has handed a transaction over all the same, its last
    reply is the error text of the handler. *)
Theorem transferMNT_outcome h m w w' :
  (transferMNT_handler h m w = (Ok true, w') ->
   exists from to value amountStr txHash receipt id,
     rpc_sendTransaction h (S (S (S (clock w)))) (SendTransaction from to value)
     = Ok txHash
     /\ rpc_waitForTransactionReceipt h (S (S (S (S (clock w))))) txHash = Ok receipt
     /\ broadcasts w' = (broadcasts w ++ [SendTransaction from to value])%list
     /\ documents w'
        = (documents w
           ++ [{| rec_id := id;
                  rec_userId := memory_userId m;
                  rec_agentId := memory_agentId m;
                  rec_roomId := memory_roomId m;
                  rec_text := msg_mnt_transferred amountStr from to txHash receipt;
                  rec_action := "TRANSFER_MNT";
                  rec_payload :=
                    Transaction
                      {| tx_hash := txHash; tx_from := from; tx_to := to;
                         tx_token := None; tx_amount := amountStr;
                         tx_blockNumber := receipt_blockNumber receipt;
                         tx_status := receipt_status receipt |} |}])%list
     /\ replies w'
        = (replies w
           ++ [msg_processing amountStr "MNT" from to;
               msg_mnt_transferred amountStr from to txHash receipt])%list)
  /\ (transferMNT_handler h m w = (Ok false, w') ->
      documents w' = documents w
      /\ (broadcasts w' = broadcasts w
          \/ exists from to value amountStr e,
               broadcasts w' = (broadcasts w ++ [SendTransaction from to value])%list
               /\ replies w'
                  = (replies w
                     ++ [msg_processing amountStr "MNT" from to;
                         "Error al transferir MNT: " +:+ error_message e])%list)).
Proof.
  split; intros Hrun; unfold transferMNT_handler, text_or_empty in Hrun.
  - destruct (resolve_userId m) as [u|]; destruct (content_text m) as [text|];
      world_simpl; flow_all Hrun.
    all: simplify_eq; world_simpl.
    all: eexists _, _, _, _, _, _, _.
    all: repeat split; try eassumption; try reflexivity.
    all: rewrite <- app_assoc; reflexivity.
  - destruct (resolve_userId m) as [u|]; destruct (content_text m) as [text|];
      world_simpl; flow_all Hrun.
    all: simplify_eq; world_simpl.
    all: split; [reflexivity|].
    all: try (left; reflexivity).
    all: right; eexists _, _, _, _, _; split; [reflexivity|].
    all: rewrite <- app_assoc; reflexivity.
Qed.

Lemma transferMNT_outcome_witness :
  let h := Reference.make (Ok (10 ^ 18)) (Ok 0) Reference.no_settings in
  let m := Reference.message example_message in
  let run := transferMNT_handler h m Reference.with_wallet in
  fst run = Ok true
  /\ broadcasts (snd run)
     = [SendTransaction Reference.account
          "0x1111111111111111111111111111111111111111" (5 * 10 ^ 17)]
  /\ map has_transaction_payload (documents (snd run)) = [true].
Proof.
  intros h m run.
  assert (Hrun : run = (Ok true, snd run)) by (vm_compute; reflexivity).
  destruct (proj1 (transferMNT_outcome h m Reference.with_wallet (snd run)) Hrun)
    as (from & to & value & amountStr & txHash & receipt & id
        & Hsend & Hwait & Hb & Hd & Hr).
  rewrite Hrun at 1. split; [reflexivity|].
  rewrite Hd. split; [|reflexivity].
  vm_compute. reflexivity.
Defined.

(** X5. The same for the token flow: [true] means one [transfer] handed
    over, its hash and its receipt as the node gave them (of whatever
    status), and one record that carries them; [false] means no record, and
    after a transaction was handed over the last reply is the error text of
    the handler. *)
Theorem transferERC20_outcome h m w w' :
  (transferERC20_handler h m w = (Ok true, w') ->
   exists from to value amountStr txHash receipt id,
     rpc_sendTransaction h (S (S (S (clock w))))
       (WriteContract from AISHOP_address to value) = Ok txHash
     /\ rpc_waitForTransactionReceipt h (S (S (S (S (clock w))))) txHash = Ok receipt
     /\ broadcasts w'
        = (broadcasts w ++ [WriteContract from AISHOP_address to value])%list
     /\ documents w'
        = (documents w
           ++ [{| rec_id := id;
                  rec_userId := memory_userId m;
                  rec_agentId := memory_agentId m;
                  rec_roomId := memory_roomId m;
                  rec_text :=
                    msg_erc20_transferred
                      (ERC20Token "AISHOP" "AI Shop Agent" 18 AISHOP_address)
                      amountStr from to txHash receipt;
                  rec_action := "TRANSFER_ERC20";
                  rec_payload :=
                    Transaction
                      {| tx_hash := txHash; tx_from := from; tx_to := to;
                         tx_token := Some ("AISHOP", AISHOP_address);
                         tx_amount := amountStr;
                         tx_blockNumber := receipt_blockNumber receipt;
                         tx_status := receipt_status receipt |} |}])%list
     /\ replies w'
        = (replies w
           ++ [msg_processing amountStr "AISHOP" from to;
               msg_erc20_transferred
                 (ERC20Token "AISHOP" "AI Shop Agent" 18 AISHOP_address)
                 amountStr from to txHash receipt])%list)
  /\ (transferERC20_handler h m w = (Ok false, w') ->
      documents w' = documents w
      /\ (broadcasts w' = broadcasts w
          \/ exists from to value amountStr e,
               broadcasts w'
               = (broadcasts w ++ [WriteContract from AISHOP_address to value])%list
               /\ replies w'
                  = (replies w
                     ++ [msg_processing amountStr "AISHOP" from to;
                         "Error al transferir token ERC20: " +:+ error_message e])%list)).
Proof.
  split; intros Hrun; unfold transferERC20_handler in Hrun.
  - destruct (resolve_userId m) as [u|];
      destruct (extractTokenTransferInfo (text_or_empty m)) as [info|] eqn:Hinfo;
      try pose proof (aishop_token _ _ Hinfo) as Htoken;
      world_simpl; flow_all Hrun.
    all: simplify_eq; world_simpl.
    all: eexists _, _, _, _, _, _, _.
    all: repeat split; try eassumption; try reflexivity.
    all: rewrite <- app_assoc; reflexivity.
  - destruct (resolve_userId m) as [u|];
      destruct (extractTokenTransferInfo (text_or_empty m)) as [info|] eqn:Hinfo;
      try pose proof (aishop_token _ _ Hinfo) as Htoken;
      world_simpl; flow_all Hrun.
    all: simplify_eq; world_simpl.
    all: split; [reflexivity|].
    all: try (left; reflexivity).
    all: right; eexists _, _, _, _, _; split; [reflexivity|].
    all: rewrite <- app_assoc; reflexivity.
Qed.

Lemma transferERC20_outcome_witness :
  let h := Reference.make (Ok 0) (Ok (10 ^ 19)) Reference.no_settings in
  let m := Reference.message
             "enviar 5 AISHOP a 0x1111111111111111111111111111111111111111" in
  let run := transferERC20_handler h m Reference.with_wallet in
  fst run = Ok true
  /\ map has_transaction_payload (documents (snd run)) = [true].
Proof.
  intros h m run.
  assert (Hrun : run = (Ok true, snd run)) by (vm_compute; reflexivity).
  destruct (proj1 (transferERC20_outcome h m Reference.with_wallet (snd run)) Hrun)
    as (from & to & value & amountStr & txHash & receipt & id
        & Hsend & Hwait & Hb & Hd & Hr).
  rewrite Hrun at 1. split; [reflexivity|].
  rewrite Hd. reflexivity.
Defined.

(** ** What a flow leaves alone *)

(** X6. The balance query and the provider never write the cache and never
    hand a transaction over; the provider changes nothing but the count of
    host calls.  The transfers never write the cache, and provisioning never
    hands a transaction over. *)
Theorem flows_leave_alone h m w :
  (cache (snd (checkBalance_handler h m w)) = cache w
   /\ broadcasts (snd (checkBalance_handler h m w)) = broadcasts w)
  /\ (cache (snd (walletProvider_get h m w)) = cache w
      /\ documents (snd (walletProvider_get h m w)) = documents w
      /\ replies (snd (walletProvider_get h m w)) = replies w
      /\ broadcasts (snd (walletProvider_get h m w)) = broadcasts w)
  /\ cache (snd (transferMNT_handler h m w)) = cache w
  /\ cache (snd (transferERC20_handler h m w)) = cache w
  /\ broadcasts (snd (createWallet_handler h m w)) = broadcasts w.
Proof.
  repeat split.
  1, 2: destruct (checkBalance_handler h m w) as [r w'] eqn:Hrun; cbn [snd];
    unfold checkBalance_handler in Hrun;
    destruct (resolve_userId m) as [u|]; world_simpl; balance_flow Hrun;
    simplify_eq; reflexivity.
  1, 2, 3, 4: destruct (walletProvider_get h m w) as [r w'] eqn:Hrun; cbn [snd];
    unfold walletProvider_get in Hrun;
    destruct (resolve_userId m) as [u|]; world_simpl; balance_flow Hrun;
    simplify_eq; reflexivity.
  - destruct (transferMNT_handler h m w) as [r w'] eqn:Hrun; cbn [snd].
    unfold transferMNT_handler, text_or_empty in Hrun.
    destruct (resolve_userId m) as [u|]; destruct (content_text m) as [text|];
      world_simpl; flow_all Hrun.
    all: simplify_eq; reflexivity.
  - destruct (transferERC20_handler h m w) as [r w'] eqn:Hrun; cbn [snd].
    unfold transferERC20_handler in Hrun.
    destruct (resolve_userId m) as [u|];
      destruct (extractTokenTransferInfo (text_or_empty m)) as [info|] eqn:Hinfo;
      try pose proof (aishop_token _ _ Hinfo) as Htoken;
      world_simpl; flow_all Hrun.
    all: simplify_eq; reflexivity.
  - destruct (createWallet_handler h m w) as [r w'] eqn:Hrun; cbn [snd].
    unfold createWallet_handler in Hrun.
    destruct (resolve_userId m) as [u|]; world_simpl; flow Hrun.
    all: simplify_eq; reflexivity.
Qed.


(** ** The wallet store, write and read *)

(** [initUserWalletProvider] reads the cache once, never throws and changes
    nothing else. *)
Lemma initUserWalletProvider_run h u w :
  initUserWalletProvider h u w
  = (Ok (match cache_get_fault h (clock w) with
         | Some _ => None
         | None => session_of h (default JUndefined (cache w !! user_wallet_key u))
         end),
     with_clock (S (clock w)) w).
Proof.
  unfold initUserWalletProvider, try_catch, bind at 1.
  rewrite getUserWallet_run. unfold session_of.
  destruct (cache_get_fault h (clock w)); [reflexivity|].
  destruct (decode_wallet h _) as [uw|]; [|reflexivity].
  destruct (wallet_privateKey uw); try reflexivity.
  unfold bind, lift, ret, new_WalletProvider.
  destruct (privateKeyToAccount h _); reflexivity.
Qed.

Lemma nonempty_truthy (s : string) : s <> EmptyString -> truthy (JStr s) = true.
Proof. destruct s; [congruence | reflexivity]. Qed.

Lemma decode_stored h d :
  json_round_trip h ->
  decode_wallet h (JStr (JSON_stringify h (wallet_object d)))
  = Some {| wallet_address := JStr (wd_address d);
            wallet_privateKey := JStr (wd_privateKey d) |}.
Proof.
  intros Hjson. destruct (Hjson d) as [Hparse Hne].
  unfold decode_wallet. rewrite (nonempty_truthy _ Hne). cbn [negb].
  rewrite Hparse. reflexivity.
Qed.

(** X7. [saveUserWallet] writes two entries in turn and is not atomic: when
    the first write succeeds and the second fails it returns [false], yet
    the wallet record of the user is stored and the entry of the address is
    as before; from then on [userHasWallet] answers [true] for the user. *)
Theorem saveUserWallet_partial_write h u d w e :
  cache_set_fault h (clock w) = None ->
  cache_set_fault h (S (clock w)) = Some e ->
  fst (saveUserWallet h u d w) = Ok false
  /\ cache (snd (saveUserWallet h u d w)) !! user_wallet_key u
     = Some (JStr (JSON_stringify h (wallet_object d)))
  /\ cache (snd (saveUserWallet h u d w)) !! address_to_user_key (wd_address d)
     = cache w !! address_to_user_key (wd_address d)
  /\ (JSON_stringify h (wallet_object d) <> EmptyString ->
      cache_get_fault h (S (S (clock w))) = None ->
      fst (userHasWallet h u (snd (saveUserWallet h u d w))) = Ok true).
Proof.
  intros H1 H2. rewrite saveUserWallet_run, H1. cbn zeta. rewrite H2.
  cbn [fst snd with_cache with_clock cache clock].
  repeat split.
  - apply lookup_insert_eq.
  - apply lookup_insert_ne, user_wallet_key_ne.
  - intros Hne Hget. rewrite userHasWallet_run.
    cbn [fst with_cache with_clock cache clock].
    rewrite Hget, lookup_insert_eq. cbn [default from_option id].
    rewrite (nonempty_truthy _ Hne). reflexivity.
Qed.

Lemma saveUserWallet_partial_write_witness :
  let h := set_fails_at 1 (Reference.make (Ok 0) (Ok 0) Reference.no_settings) in
  let d := {| wd_address := Reference.account; wd_privateKey := Reference.key;
              wd_createdAt := 1700000000000 |} in
  fst (saveUserWallet h "user-1" d Reference.start) = Ok false
  /\ fst (userHasWallet h "user-1" (snd (saveUserWallet h "user-1" d Reference.start)))
     = Ok true.
Proof.
  intros h d.
  destruct (saveUserWallet_partial_write h "user-1" d Reference.start
              (Error "cache down"))
    as (Hfalse & _ & _ & Hhas).
  - reflexivity.
  - reflexivity.
  - split; [exact Hfalse|]. apply Hhas.
    + vm_compute. discriminate.
    + reflexivity.
Defined.

(** X8. What [saveUserWallet] has stored is what the readers return: once
    it has returned [true], and as long as the cache can be read,
    [userHasWallet] answers [true], [getUserWallet] returns the address and
    the key that were saved, and [initUserWalletProvider] opens the session
    of the saved key, written with its [0x], or returns [null] when the
    chain client refuses that key. *)
Theorem save_then_read h u d w w1 :
  json_round_trip h ->
  saveUserWallet h u d w = (Ok true, w1) ->
  cache_get_fault h (clock w1) = None ->
  fst (userHasWallet h u w1) = Ok true
  /\ fst (getUserWallet h u w1)
     = Ok (Some {| wallet_address := JStr (wd_address d);
                   wallet_privateKey := JStr (wd_privateKey d) |})
  /\ fst (initUserWalletProvider h u w1)
     = Ok (match privateKeyToAccount h (normalize_key (wd_privateKey d)) with
           | Ok a => Some {| wp_privateKey := normalize_key (wd_privateKey d);
                             wp_address := a |}
           | Throw _ => None
           end).
Proof.
  intros Hjson Hsave Hget. rewrite saveUserWallet_run in Hsave.
  destruct (cache_set_fault h (clock w)); [discriminate|].
  cbn zeta in Hsave.
  destruct (cache_set_fault h (S (clock w))); [discriminate|].
  injection Hsave as <-. cbn [with_cache with_clock clock] in Hget.
  rewrite userHasWallet_run, getUserWallet_run, initUserWalletProvider_run.
  cbn [fst with_cache with_clock clock cache]. rewrite Hget.
  rewrite lookup_insert_ne by (apply not_eq_sym, user_wallet_key_ne).
  rewrite lookup_insert_eq. cbn [default from_option id].
  unfold session_of. rewrite (decode_stored _ _ Hjson).
  rewrite (nonempty_truthy _ (proj2 (Hjson d))).
  repeat split.
Qed.

Lemma save_then_read_witness :
  let h := Reference.make (Ok 0) (Ok 0) Reference.no_settings in
  let d := {| wd_address := Reference.account; wd_privateKey := Reference.key;
              wd_createdAt := 1700000000000 |} in
  fst (initUserWalletProvider h "user-1"
         (snd (saveUserWallet h "user-1" d Reference.start)))
  = Ok (Some {| wp_privateKey := Reference.key; wp_address := Reference.account |}).
Proof.
  intros h d.
  destruct (save_then_read h "user-1" d Reference.start
              (snd (saveUserWallet h "user-1" d Reference.start)))
    as (_ & _ & Hsession).
  - apply reference_round_trip.
  - vm_compute. reflexivity.
  - reflexivity.
  - rewrite Hsession. vm_compute. reflexivity.
Defined.

(** X9. [saveUserWallet] touches two entries of the cache and nothing else,
    whatever it returns: every other key holds what it held, and no record,
    reply or transaction is added. *)
Theorem saveUserWallet_frame h u d w :
  (forall k, k <> user_wallet_key u ->
             k <> address_to_user_key (wd_address d) ->
             cache (snd (saveUserWallet h u d w)) !! k = cache w !! k)
  /\ documents (snd (saveUserWallet h u d w)) = documents w
  /\ replies (snd (saveUserWallet h u d w)) = replies w
  /\ broadcasts (snd (saveUserWallet h u d w)) = broadcasts w.
Proof.
  rewrite saveUserWallet_run.
  destruct (cache_set_fault h (clock w)); [|cbn zeta;
    destruct (cache_set_fault h (S (clock w)))];
    cbn [snd with_cache with_clock cache documents replies broadcasts];
    repeat split; intros k Hk1 Hk2.
  - rewrite lookup_insert_ne by congruence. reflexivity.
  - rewrite !lookup_insert_ne by congruence. reflexivity.
Qed.

(** X10. A second wallet saved for the same user replaces the record but
    leaves the entry of the first address behind: the user now holds the
    second wallet, and both addresses are looked up to that user. *)
Theorem second_save_keeps_old_index h u d1 d2 w w1 w2 :
  json_round_trip h ->
  saveUserWallet h u d1 w = (Ok true, w1) ->
  saveUserWallet h u d2 w1 = (Ok true, w2) ->
  cache_get_fault h (clock w2) = None ->
  fst (getUserWallet h u w2)
  = Ok (Some {| wallet_address := JStr (wd_address d2);
                wallet_privateKey := JStr (wd_privateKey d2) |})
  /\ fst (getUserIdByAddress h (wd_address d2) w2) = Ok (Some u)
  /\ fst (getUserIdByAddress h (wd_address d1) w2) = Ok (Some u).
Proof.
  intros Hjson Hs1 Hs2 Hget.
  rewrite saveUserWallet_run in Hs1.
  destruct (cache_set_fault h (clock w)); [discriminate|].
  cbn zeta in Hs1.
  destruct (cache_set_fault h (S (clock w))); [discriminate|].
  injection Hs1 as <-.
  rewrite saveUserWallet_run in Hs2.
  cbn [with_cache with_clock clock cache] in Hs2.
  destruct (cache_set_fault h (S (S (clock w)))); [discriminate|].
  cbn zeta in Hs2.
  destruct (cache_set_fault h (S (S (S (clock w))))); [discriminate|].
  injection Hs2 as <-. cbn [with_cache with_clock clock] in Hget.
  rewrite getUserWallet_run, !getUserIdByAddress_run.
  cbn [fst with_cache with_clock clock cache]. rewrite Hget.
  repeat split.
  - rewrite lookup_insert_ne by (apply not_eq_sym, user_wallet_key_ne).
    rewrite lookup_insert_eq. cbn [default from_option id].
    rewrite (decode_stored _ _ Hjson). reflexivity.
  - rewrite lookup_insert_eq. reflexivity.
  - destruct (String.eqb_spec (wd_address d1) (wd_address d2)) as [->|Hne].
    + rewrite lookup_insert_eq. reflexivity.
    + rewrite lookup_insert_ne
        by (intros Heq; apply Hne; symmetry; apply address_to_user_key_inj, Heq).
      rewrite lookup_insert_ne by apply user_wallet_key_ne.
      rewrite lookup_insert_eq. reflexivity.
Qed.

Lemma second_save_keeps_old_index_witness :
  let h := Reference.make (Ok 0) (Ok 0) Reference.no_settings in
  let d1 := {| wd_address := Reference.account; wd_privateKey := Reference.key;
               wd_createdAt := 1700000000000 |} in
  let d2 := {| wd_address := "0x1111111111111111111111111111111111111111";
               wd_privateKey := Reference.key; wd_createdAt := 1700000000001 |} in
  let w1 := snd (saveUserWallet h "user-1" d1 Reference.start) in
  let w2 := snd (saveUserWallet h "user-1" d2 w1) in
  fst (getUserWallet h "user-1" w2)
  = Ok (Some {| wallet_address := JStr "0x1111111111111111111111111111111111111111";
                wallet_privateKey := JStr Reference.key |})
  /\ fst (getUserIdByAddress h Reference.account w2) = Ok (Some "user-1").
Proof.
  intros h d1 d2 w1 w2.
  destruct (second_save_keeps_old_index h "user-1" d1 d2 Reference.start w1 w2)
    as (Hwallet & _ & Hold).
  - apply reference_round_trip.
  - vm_compute. reflexivity.
  - vm_compute. reflexivity.
  - reflexivity.
  - split; [exact Hwallet | exact Hold].
Defined.

(** ** The key of a session *)

Lemma startsWith_0x_append (k : string) : startsWith "0x" ("0x" +:+ k) = true.
Proof.
  cbn [String.append]. unfold startsWith.
  change ("0x" +:+ k) with (String "0" (String "x" k)).
  cbn. destruct k; reflexivity.
Qed.

(** X11. The key of a session always starts with [0x], and a key stored
    without its [0x] opens the same session as the key stored with it:
    [initUserWalletProvider] returns the same result for the two
    records. *)
Theorem session_key_prefix h u d w :
  startsWith "0x" (normalize_key (wd_privateKey d)) = true
  /\ normalize_key (normalize_key (wd_privateKey d)) = normalize_key (wd_privateKey d)
  /\ fst (initUserWalletProvider h u (stored u (wallet_object d) w))
     = fst (initUserWalletProvider h u
              (stored u
                 (wallet_object
                    {| wd_address := wd_address d;
                       wd_privateKey := normalize_key (wd_privateKey d);
                       wd_createdAt := wd_createdAt d |}) w)).
Proof.
  assert (Hp : startsWith "0x" (normalize_key (wd_privateKey d)) = true).
  { unfold normalize_key.
    destruct (startsWith "0x" (wd_privateKey d)) eqn:E;
      [exact E | apply startsWith_0x_append]. }
  assert (Hi : normalize_key (normalize_key (wd_privateKey d))
               = normalize_key (wd_privateKey d)).
  { unfold normalize_key at 1. rewrite Hp. reflexivity. }
  repeat split; [exact Hp | exact Hi |].
  rewrite !initUserWalletProvider_run.
  cbn [fst stored with_cache clock cache]. rewrite !lookup_insert_eq.
  cbn [default from_option id].
  destruct (cache_get_fault h (clock w)); [reflexivity|].
  unfold session_of, decode_wallet, wallet_object, get_prop.
  cbn [truthy negb assoc String.eqb Ascii.eqb Bool.eqb wd_address wd_privateKey
       wd_createdAt wallet_privateKey].
  rewrite Hi. reflexivity.
Qed.


(** ** What the result of provisioning says *)

(** X12. A provisioning that returns [true] has either found the stored
    wallet, answered with its address and written nothing, or created a
    wallet: the key is the one generated, the address is the one the chain
    client derives from it, the record of the user and the entry of the
    address are both in the cache, one record of the creation is added, and
    the last reply announces that address.  A provisioning that returns
    [false] has added no record. *)
Theorem createWallet_outcome h m w w' :
  (createWallet_handler h m w = (Ok true, w') ->
   exists u,
     resolve_userId m = Some u
     /\ ((exists wl,
            decode_wallet h (default JUndefined (cache w !! user_wallet_key u)) = Some wl
            /\ cache w' = cache w /\ documents w' = documents w
            /\ replies w'
               = (replies w ++ [msg_wallet_exists (to_js_string (wallet_address wl))])%list)
         \/ (exists d id,
               wd_privateKey d = generatePrivateKey h (S (clock w))
               /\ privateKeyToAccount h (wd_privateKey d) = Ok (wd_address d)
               /\ cache w'
                  = <[ address_to_user_key (wd_address d) := JStr u ]>
                      (<[ user_wallet_key u := JStr (JSON_stringify h (wallet_object d)) ]>
                         (cache w))
               /\ documents w'
                  = (documents w
                     ++ [{| rec_id := id;
                            rec_userId := Some u;
                            rec_agentId := memory_agentId m;
                            rec_roomId := memory_roomId m;
                            rec_text :=
                              "Se ha creado una nueva wallet para el usuario: "
                              +:+ wd_address d;
                            rec_action := "CREATE_WALLET";
                            rec_payload := WalletCreated (wd_address d) (wd_createdAt d) |}])%list
               /\ replies w'
                  = (replies w ++ [msg_creating; msg_wallet_created (wd_address d)])%list)))
  /\ (createWallet_handler h m w = (Ok false, w') -> documents w' = documents w).
Proof.
  split; intros Hrun; unfold createWallet_handler in Hrun.
  - destruct (resolve_userId m) as [u|]; world_simpl; flow Hrun.
    all: simplify_eq; world_simpl.
    all: exists u; split; [reflexivity|].
    all: try (left; eexists; repeat split; eassumption).
    all: right;
      match goal with
      | H : privateKeyToAccount _ _ = Ok ?a |- context [Date_now ?hh ?t] =>
          exists {| wd_address := a;
                    wd_privateKey := generatePrivateKey hh (S (clock w));
                    wd_createdAt := Date_now hh t |}
      end.
    all: eexists; cbn [wd_address wd_privateKey wd_createdAt].
    all: repeat split; try eassumption.
    all: rewrite <- app_assoc; reflexivity.
  - destruct (resolve_userId m) as [u|]; world_simpl; flow Hrun.
    all: simplify_eq; reflexivity.
Qed.

Lemma createWallet_outcome_witness :
  let h := Reference.make (Ok 0) (Ok 0) Reference.no_settings in
  let run := createWallet_handler h (Reference.message "crear wallet") Reference.start in
  fst run = Ok true
  /\ length (documents (snd run)) = 1%nat
  /\ cache (snd run) !! address_to_user_key Reference.account = Some (JStr "user-1").
Proof.
  intros h run.
  assert (Hrun : run = (Ok true, snd run)) by (vm_compute; reflexivity).
  destruct (proj1 (createWallet_outcome h (Reference.message "crear wallet")
                     Reference.start (snd run)) Hrun)
    as (u & Hu & [(wl & Hwl & _) | (d & id & Hk & Ha & Hc & Hd & Hr)]).
  - vm_compute in Hwl. discriminate.
  - rewrite Hrun at 1. split; [reflexivity|].
    rewrite Hd. split; [reflexivity|].
    vm_compute. reflexivity.
Defined.




(** X14. The wallet that provisioning announces is the wallet the later
    flows use.  After a provisioning that created a wallet, and with a
    generated key that starts with [0x], [initUserWalletProvider] opens a
    session; its address is the address of the last reply, it is looked up
    to the user, and [userHasWallet] answers [true]. *)
Theorem create_then_session h m u w w1 :
  json_round_trip h ->
  (forall t, startsWith "0x" (generatePrivateKey h t) = true) ->
  resolve_userId m = Some u ->
  fst (userHasWallet h u w) = Ok false ->
  createWallet_handler h m w = (Ok true, w1) ->
  cache_get_fault h (clock w1) = None ->
  exists p,
    fst (initUserWalletProvider h u w1) = Ok (Some p)
    /\ wp_privateKey p = generatePrivateKey h (S (clock w))
    /\ replies w1 = (replies w ++ [msg_creating; msg_wallet_created (wp_address p)])%list
    /\ fst (getUserIdByAddress h (wp_address p) w1) = Ok (Some u)
    /\ fst (userHasWallet h u w1) = Ok true.
Proof.
  intros Hjson Hkey Hu Hhas Hrun Hget.
  rewrite userHasWallet_run in Hhas. cbn [fst] in Hhas.
  unfold createWallet_handler in Hrun. rewrite Hu in Hrun.
  flow Hrun.
  all: simplify_eq; try discriminate; try congruence.
  all: world_simpl.
  all: match goal with
       | H : privateKeyToAccount _ _ = Ok ?a |- _ =>
           exists {| wp_privateKey := generatePrivateKey h (S (clock w)); wp_address := a |};
           rename H into Haccount
       end.
  all: rewrite initUserWalletProvider_run, getUserIdByAddress_run, userHasWallet_run.
  all: cbn [fst clock cache wp_address wp_privateKey wd_address]; rewrite Hget.
  all: rewrite lookup_insert_eq.
  all: rewrite lookup_insert_ne by (apply not_eq_sym, user_wallet_key_ne).
  all: rewrite lookup_insert_eq; cbn [default from_option id].
  all: unfold session_of.
  all: match goal with
       | |- context [JSON_stringify _ (wallet_object ?d)] =>
           rewrite (decode_stored _ d Hjson);
           rewrite (nonempty_truthy _ (proj2 (Hjson d)))
       end.
  all: cbn [wallet_privateKey wd_privateKey wd_address].
  all: unfold normalize_key; rewrite Hkey, Haccount.
  all: repeat split; rewrite <- app_assoc; reflexivity.
Qed.

Lemma create_then_session_witness :
  let h := Reference.make (Ok 0) (Ok 0) Reference.no_settings in
  let run := createWallet_handler h (Reference.message "crear wallet") Reference.start in
  exists p,
    fst (initUserWalletProvider h "user-1" (snd run)) = Ok (Some p)
    /\ wp_privateKey p = Reference.key
    /\ fst (getUserIdByAddress h (wp_address p) (snd run)) = Ok (Some "user-1").
Proof.
  intros h run.
  destruct (create_then_session h (Reference.message "crear wallet") "user-1"
              Reference.start (snd run))
    as (p & Hp & Hk & _ & Hu & _).
  - apply reference_round_trip.
  - intros t. reflexivity.
  - reflexivity.
  - vm_compute. reflexivity.
  - vm_compute. reflexivity.
  - reflexivity.
  - exists p. exact (conj Hp (conj Hk Hu)).
Defined.


(** ** The amount of a transfer *)

Lemma digits_run_digits s d r : digits_run s = (d, r) -> all_digits d = true.
Proof.
  revert d r. induction s as [|c s IH]; intros d r; cbn [digits_run].
  - intros [= <- <-]. reflexivity.
  - destruct (is_digit c) eqn:Ec.
    + destruct (digits_run s) as [d' r']. intros [= <- <-].
      cbn [all_digits]. rewrite Ec, (IH d' r' eq_refl). reflexivity.
    + intros [= <- <-]. reflexivity.
Qed.

Lemma digits_run_of_digits d t :
  all_digits d = true ->
  match t with String c _ => is_digit c = false | EmptyString => True end ->
  digits_run (d +:+ t) = (d, t).
Proof.
  intros Hd Ht. induction d as [|c d IH].
  - rewrite append_nil_l. destruct t as [|x t]; [reflexivity|].
    cbn [digits_run]. rewrite Ht. reflexivity.
  - cbn [all_digits] in Hd. apply andb_prop in Hd as [Hc Hd].
    rewrite append_cons. cbn [digits_run]. rewrite Hc, (IH Hd). reflexivity.
Qed.

Lemma is_decimal_integer int :
  int <> EmptyString -> all_digits int = true -> is_decimal_amount int = true.
Proof.
  intros Hne Hd. unfold is_decimal_amount.
  rewrite <- (append_nil_r int) at 1.
  rewrite (digits_run_of_digits int EmptyString Hd I).
  destruct int; [congruence | reflexivity].
Qed.

Lemma is_decimal_fraction int frac :
  int <> EmptyString -> all_digits int = true ->
  frac <> EmptyString -> all_digits frac = true ->
  is_decimal_amount (int +:+ "." +:+ frac) = true.
Proof.
  intros Hne Hd Hfne Hf. unfold is_decimal_amount.
  change ("." +:+ frac) with (String "." frac).
  rewrite (digits_run_of_digits int (String "." frac) Hd eq_refl).
  destruct int; [congruence|]. destruct frac; [congruence | exact Hf].
Qed.

Lemma amount_at_decimal sym s g1 g3 :
  amount_at sym s = Some (g1, g3) -> is_decimal_amount g1 = true.
Proof.
  unfold amount_at. destruct (digits_run s) as [int r1] eqn:Ei.
  pose proof (digits_run_digits _ _ _ Ei) as Hint.
  destruct int as [|c int]; [discriminate|].
  assert (Hgen : forall g r2,
             is_decimal_amount g = true ->
             match symbol_at sym (skip_space r2) with
             | Some g3' => Some (g, g3')
             | None => None
             end = Some (g1, g3) -> is_decimal_amount g1 = true).
  { intros g r2 Hg H. destruct (symbol_at sym (skip_space r2)); [|discriminate].
    injection H as <- _. exact Hg. }
  assert (Hi : is_decimal_amount (String c int) = true)
    by (apply is_decimal_integer; [discriminate | exact Hint]).
  destruct r1 as [|x r]; [apply Hgen, Hi|].
  destruct x as [[] [] [] [] [] [] [] []]; try apply Hgen, Hi.
  destruct (digits_run r) as [frac r'] eqn:Ef.
  pose proof (digits_run_digits _ _ _ Ef) as Hfrac.
  destruct frac as [|f frac]; [apply Hgen, Hi|].
  apply Hgen. apply is_decimal_fraction; try discriminate; assumption.
Qed.

(** X15. What the transfers take for the amount is always a decimal
    numeral: digits, or digits, a dot and digits, with no sign, no exponent
    and no separator.  The token of a token transfer is always [AISHOP],
    which the registry resolves to the contract-backed entry. *)
Theorem extracted_amount_is_decimal text :
  (forall amountStr,
     extractAmount text = Some amountStr -> is_decimal_amount amountStr = true)
  /\ (forall info,
        extractTokenTransferInfo text = Some info ->
        is_decimal_amount (amount info) = true
        /\ symbol info = "AISHOP"
        /\ getTokenBySymbol (symbol info)
           = Some (ERC20Token "AISHOP" "AI Shop Agent" 18 AISHOP_address)
        /\ option_map isERC20Token (getTokenBySymbol (symbol info)) = Some true).
Proof.
  split.
  - intros amountStr. unfold extractAmount.
    destruct (match_amount "mnt" text) as [[g1 g3]|] eqn:E; [|discriminate].
    intros [= <-]. destruct (match_amount_inv _ _ _ E) as [s' Hs'].
    exact (amount_at_decimal _ _ _ _ Hs').
  - intros info H.
    pose proof (extractTokenTransferInfo_symbol _ _ H) as Hsym.
    unfold extractTokenTransferInfo in H.
    destruct (match_amount "aishop" text) as [[g1 g3]|] eqn:E; [|discriminate].
    injection H as <-. cbn [amount]. cbn [symbol] in Hsym.
    destruct (match_amount_inv _ _ _ E) as [s' Hs'].
    split; [exact (amount_at_decimal _ _ _ _ Hs')|].
    cbn [symbol]. rewrite Hsym. repeat split.
Qed.

(** ** The token registry *)

Lemma toLowerCase_idempotent s : toLowerCase (toLowerCase s) = toLowerCase s.
Proof.
  induction s as [|c s IH]; [reflexivity|].
  cbn [toLowerCase map_string]. f_equal; [|exact IH].
  destruct c as [[] [] [] [] [] [] [] []]; reflexivity.
Qed.

(** X16. [getTokenByAddress] compares addresses without regard to the case
    of their letters: it returns the [AISHOP] entry exactly for the writings
    of its address, and nothing for any other text; it never returns the
    native token. *)
Theorem getTokenByAddress_case_insensitive address :
  getTokenByAddress address
  = (if String.eqb (toLowerCase address) (toLowerCase AISHOP_address)
     then Some (ERC20Token "AISHOP" "AI Shop Agent" 18 AISHOP_address)
     else None)
  /\ getTokenByAddress (toLowerCase address) = getTokenByAddress address
  /\ (forall t, getTokenByAddress address = Some t ->
                isERC20Token t = true /\ In t getERC20Tokens)
  /\ (forall t, In t getERC20Tokens ->
                match t with
                | ERC20Token _ _ _ a =>
                    getTokenByAddress a = Some t
                    /\ getTokenByAddress (toLowerCase a) = Some t
                    /\ getTokenByAddress (toUpperCase a) = Some t
                | NativeToken _ _ _ => False
                end).
Proof.
  assert (H1 : forall a,
    getTokenByAddress a
    = (if String.eqb (toLowerCase a) (toLowerCase AISHOP_address)
       then Some (ERC20Token "AISHOP" "AI Shop Agent" 18 AISHOP_address)
       else None)).
  { intros a. unfold getTokenByAddress, TOKENS. cbn [map snd find].
    rewrite String.eqb_sym.
    destruct (String.eqb (toLowerCase a) (toLowerCase AISHOP_address)); reflexivity. }
  repeat split.
  - apply H1.
  - rewrite !H1, toLowerCase_idempotent. reflexivity.
  - rewrite H1 in H.
    destruct (String.eqb _ _); [|discriminate]. injection H as <-. reflexivity.
  - rewrite H1 in H.
    destruct (String.eqb _ _); [|discriminate]. injection H as <-.
    left. reflexivity.
  - intros t [<-|[]]. repeat split.
Qed.

Lemma fold_token_maps (entries : list (string * TokenConfig))
    (A : gmap string string) (D : gmap string Z) (s : string) :
  NoDup (map fst entries) ->
  let maps :=
    fold_left
      (fun maps entry =>
         let '(symbol, token) := entry in
         (match token with
          | ERC20Token _ _ _ a => <[ symbol := a ]> (fst maps)
          | NativeToken _ _ _ => fst maps
          end,
          <[ symbol := token_decimals token ]> (snd maps)))
      entries (A, D) in
  fst maps !! s
  = match assoc s entries with
    | Some (ERC20Token _ _ _ a) => Some a
    | Some (NativeToken _ _ _) => A !! s
    | None => A !! s
    end
  /\ snd maps !! s
     = match assoc s entries with
       | Some t => Some (token_decimals t)
       | None => D !! s
       end.
Proof.
  revert A D. induction entries as [|[k t] entries IH]; intros A D Hnd.
  - split; reflexivity.
  - cbn [map fst] in Hnd. apply NoDup_cons in Hnd as [Hk Hnd].
    cbn [fold_left]. cbn zeta.
    specialize (IH (match t with
                    | ERC20Token _ _ _ a => <[ k := a ]> A
                    | NativeToken _ _ _ => A
                    end) (<[ k := token_decimals t ]> D) Hnd).
    cbn zeta in IH. cbn [fst snd]. destruct IH as [IH1 IH2].
    rewrite IH1, IH2. clear IH1 IH2.
    assert (Hassoc : assoc k entries = None).
    { clear -Hk. induction entries as [|[k' t'] entries IH]; [reflexivity|].
      cbn [assoc]. cbn [map fst] in Hk.
      apply not_elem_of_cons in Hk as [Hne Hk].
      destruct (String.eqb_spec k k') as [->|_]; [congruence|].
      apply IH, Hk. }
    cbn [assoc]. destruct (String.eqb_spec s k) as [->|Hne].
    + rewrite Hassoc. destruct t; rewrite ?lookup_insert_eq; split; reflexivity.
    + destruct (assoc s entries) as [[]|]; destruct t;
        rewrite ?lookup_insert_ne by congruence; split; reflexivity.
Qed.

(** X17. The derived maps follow the registry, whatever its entries (an
    object has each key once): [TOKEN_ADDRESSES] holds the address of every
    contract-backed token and no entry for a native one, [TOKEN_DECIMALS]
    holds the decimals of every token, and neither holds anything else. *)
Theorem derived_maps_follow_registry entries s :
  NoDup (map fst entries) ->
  fst (derive_token_maps entries) !! s
  = match assoc s entries with
    | Some (ERC20Token _ _ _ a) => Some a
    | _ => None
    end
  /\ snd (derive_token_maps entries) !! s = option_map token_decimals (assoc s entries).
Proof.
  intros Hnd. unfold derive_token_maps.
  destruct (fold_token_maps entries ∅ ∅ s Hnd) as [H1 H2].
  cbn zeta in H1, H2. rewrite H1, H2, !lookup_empty.
  split; destruct (assoc s entries) as [[]|]; reflexivity.
Qed.

Lemma derived_maps_follow_registry_witness :
  TOKEN_ADDRESSES !! "AISHOP" = Some AISHOP_address
  /\ TOKEN_ADDRESSES !! "MNT" = None
  /\ TOKEN_DECIMALS !! "MNT" = Some 18.
Proof.
  assert (Hnd : NoDup (map fst TOKENS)).
  { unfold TOKENS. cbn [map fst]. apply NoDup_cons. split; [|apply NoDup_singleton].
    intros H. apply list_elem_of_singleton in H. discriminate. }
  unfold TOKEN_ADDRESSES, TOKEN_DECIMALS.
  split; [|split].
  - rewrite (proj1 (derived_maps_follow_registry TOKENS "AISHOP" Hnd)). reflexivity.
  - rewrite (proj1 (derived_maps_follow_registry TOKENS "MNT" Hnd)). reflexivity.
  - rewrite (proj2 (derived_maps_follow_registry TOKENS "MNT" Hnd)). reflexivity.
Defined.


(** ** Addresses and the case of letters *)

Lemma extract_cons c s :
  extractEthereumWalletAddress (String c s)
  = match eth_address_at (String c s) with
    | Some (m, _) => Some m
    | None => extractEthereumWalletAddress s
    end.
Proof.
  unfold extractEthereumWalletAddress. cbn [match_eth_address].
  destruct (eth_address_at (String c s)) as [[m r]|]; reflexivity.
Qed.

Lemma eth_address_at_eq a b s :
  eth_address_at (String a (String b s))
  = if Ascii.eqb a "0" && Ascii.eqb b "x" then
      match hex_run 40 s with
      | Some (m, r) => Some (String "0" (String "x" m), r)
      | None => None
      end
    else None.
Proof.
  destruct a as [[] [] [] [] [] [] [] []]; try reflexivity.
  destruct b as [[] [] [] [] [] [] [] []]; reflexivity.
Qed.

Lemma eth_address_at_one a : eth_address_at (String a EmptyString) = None.
Proof. destruct a as [[] [] [] [] [] [] [] []]; reflexivity. Qed.

Lemma eth_address_i_at_eq a b s :
  eth_address_i_at (String a (String b s))
  = if Ascii.eqb a "0" && eq_ignore_case "x" b then
      match hex_run 40 s with
      | Some (m, _) => Some (String "0" (String b m))
      | None => None
      end
    else None.
Proof.
  destruct a as [[] [] [] [] [] [] [] []]; reflexivity.
Qed.

Lemma eth_address_i_at_one a : eth_address_i_at (String a EmptyString) = None.
Proof. destruct a as [[] [] [] [] [] [] [] []]; reflexivity. Qed.

Lemma is_hex_digit_lower c : is_hex_digit (lower_ascii c) = is_hex_digit c.
Proof. destruct c as [[] [] [] [] [] [] [] []]; reflexivity. Qed.

Lemma lower_is_zero c : Ascii.eqb (lower_ascii c) "0" = Ascii.eqb c "0".
Proof. destruct c as [[] [] [] [] [] [] [] []]; reflexivity. Qed.

Lemma lower_is_x c : Ascii.eqb (lower_ascii c) "x" = eq_ignore_case "x" c.
Proof. destruct c as [[] [] [] [] [] [] [] []]; reflexivity. Qed.

Lemma toLowerCase_cons c s : toLowerCase (String c s) = String (lower_ascii c) (toLowerCase s).
Proof. reflexivity. Qed.

Lemma hex_run_lower n s :
  hex_run n (toLowerCase s)
  = match hex_run n s with
    | Some (m, r) => Some (toLowerCase m, toLowerCase r)
    | None => None
    end.
Proof.
  revert s. induction n as [|n IH]; intros s; [reflexivity|].
  destruct s as [|c s]; [reflexivity|].
  rewrite toLowerCase_cons. cbn [hex_run]. rewrite is_hex_digit_lower.
  destruct (is_hex_digit c); [|reflexivity].
  rewrite IH. destruct (hex_run n s) as [[m r]|]; reflexivity.
Qed.

(** The pattern at the head of the text in lower case is the pattern
    under [i] at the head of the text. *)
Lemma eth_address_at_lower s :
  match eth_address_at (toLowerCase s) with
  | Some (m, _) => Some m
  | None => None
  end
  = option_map toLowerCase (eth_address_i_at s).
Proof.
  destruct s as [|a [|b s]].
  - reflexivity.
  - rewrite toLowerCase_cons, eth_address_at_one, eth_address_i_at_one. reflexivity.
  - rewrite !toLowerCase_cons, eth_address_at_eq, eth_address_i_at_eq.
    rewrite lower_is_zero, lower_is_x, hex_run_lower.
    destruct (Ascii.eqb a "0") eqn:Ea; [|reflexivity].
    destruct (eq_ignore_case "x" b) eqn:Eb; [|reflexivity].
    cbn [andb]. destruct (hex_run 40 s) as [[m r]|]; [|reflexivity].
    cbn [option_map]. rewrite !toLowerCase_cons.
    rewrite <- lower_is_x in Eb. apply Ascii.eqb_eq in Eb. rewrite Eb.
    reflexivity.
Qed.

Lemma extract_lower text :
  extractEthereumWalletAddress (toLowerCase text)
  = option_map toLowerCase (match_eth_address_i text).
Proof.
  induction text as [|c s IH]; [reflexivity|].
  change (match_eth_address_i (String c s))
    with (match eth_address_i_at (String c s) with
          | Some m => Some m
          | None => match_eth_address_i s
          end).
  pose proof (eth_address_at_lower (String c s)) as H.
  rewrite toLowerCase_cons in *. rewrite extract_cons.
  destruct (eth_address_at (String (lower_ascii c) (toLowerCase s))) as [[m r]|];
    destruct (eth_address_i_at (String c s)) as [mi|];
    cbn [option_map] in *; try discriminate.
  - exact H.
  - exact IH.
Qed.

Lemma eth_address_at_i s m r :
  eth_address_at s = Some (m, r) -> eth_address_i_at s = Some m.
Proof.
  destruct s as [|a [|b s]]; [discriminate | rewrite eth_address_at_one; discriminate |].
  rewrite eth_address_at_eq, eth_address_i_at_eq.
  destruct (Ascii.eqb a "0"); [|discriminate].
  destruct (Ascii.eqb_spec b "x") as [->|]; [|discriminate].
  cbn [andb]. change (eq_ignore_case "x" "x") with true.
  destruct (hex_run 40 s) as [[m' r']|]; [|discriminate].
  intros [= <- <-]. reflexivity.
Qed.

Lemma extract_then_i text a :
  extractEthereumWalletAddress text = Some a ->
  exists am, match_eth_address_i text = Some am.
Proof.
  induction text as [|c s IH]; [discriminate|].
  rewrite extract_cons.
  change (match_eth_address_i (String c s))
    with (match eth_address_i_at (String c s) with
          | Some m => Some m
          | None => match_eth_address_i s
          end).
  destruct (eth_address_at (String c s)) as [[m r]|] eqn:E.
  - intros _. rewrite (eth_address_at_i _ _ _ E). eauto.
  - intros H. destruct (eth_address_i_at (String c s)); [eauto | exact (IH H)].
Qed.

(** X18. The provider and the balance query agree on the address of a
    message up to the case of its letters.  What the provider queries, the
    match of its pattern in lower case, is what [extractEthereumWalletAddress]
    finds in the text in lower case; it has the shape of an address; and
    the provider finds an address in every message in which the actions
    find one. *)
Theorem provider_address_lowercase m :
  option_map toLowerCase (provider_address m)
  = match content_text m with
    | Some text => extractEthereumWalletAddress (toLowerCase text)
    | None => None
    end
  /\ (forall am, provider_address m = Some am ->
                 eth_address_shape (toLowerCase am) = true)
  /\ (forall a, extractEthereumWalletAddress (text_or_empty m) = Some a ->
                exists am, provider_address m = Some am).
Proof.
  unfold provider_address, text_or_empty.
  destruct (content_text m) as [text|].
  - repeat split.
    + symmetry. apply extract_lower.
    + intros am Ham. pose proof (extract_lower text) as H.
      rewrite Ham in H. cbn [option_map] in H.
      destruct (extract_some_inv _ _ H) as (i & _ & _ & _ & Hshape). exact Hshape.
    + apply extract_then_i.
  - repeat split; intros; discriminate.
Qed.

(** ** What the intent predicates let through *)

Lemma startsWith_includes p t : startsWith p t = true -> includes p t = true.
Proof. intros H. destruct t; cbn [includes]; rewrite H; reflexivity. Qed.

Lemma includes_cons p c t : includes p t = true -> includes p (String c t) = true.
Proof. intros H. cbn [includes]. rewrite H. apply orb_true_r. Qed.

Lemma includes_drop p i t :
  includes p (drop_string i t) = true -> includes p t = true.
Proof.
  revert t. induction i as [|i IH]; intros t H; [exact H|].
  destruct t as [|c t]; [exact H|].
  apply includes_cons, IH, H.
Qed.

Lemma startsWith_app a b t :
  startsWith (a +:+ b) t = true -> startsWith b (drop_string (String.length a) t) = true.
Proof.
  revert t. induction a as [|x a IH]; intros t H; [exact H|].
  rewrite append_cons in H. destruct t as [|c t]; [discriminate|].
  cbn [startsWith] in H. destruct (Ascii.eqb x c); [|discriminate].
  cbn [String.length drop_string]. apply IH, H.
Qed.

Lemma includes_suffix a b t :
  includes (a +:+ b) t = true -> includes b t = true.
Proof.
  induction t as [|c t IH]; cbn [includes]; intros H.
  - rewrite orb_false_r in H.
    apply (includes_drop b (String.length a) EmptyString).
    apply startsWith_includes, startsWith_app, H.
  - apply orb_prop in H as [H|H].
    + apply (includes_drop b (String.length a) (String c t)).
      apply startsWith_includes, startsWith_app, H.
    + apply includes_cons, IH, H.
Qed.

Lemma extract_some_lower text :
  not_null (extractEthereumWalletAddress text) = true ->
  not_null (extractEthereumWalletAddress (toLowerCase text)) = true.
Proof.
  destruct (extractEthereumWalletAddress text) as [a|] eqn:E; [|discriminate].
  intros _. destruct (extract_then_i _ _ E) as [am Ham].
  rewrite extract_lower, Ham. reflexivity.
Qed.

(** X19. The balance query accepts every message that another action
    accepts: a request to create a wallet names a [wallet], and a transfer
    carries an address. *)
Theorem checkBalance_accepts_the_others m :
  createWallet_validate m = true
  \/ transferMNT_validate m = true
  \/ transferERC20_validate m = true ->
  checkBalance_validate m = true.
Proof.
  unfold createWallet_validate, transferMNT_validate, transferERC20_validate,
    checkBalance_validate.
  cbn zeta. set (text := toLowerCase (text_or_empty m)).
  intros [H|[H|H]].
  - assert (Hw : includes "wallet" text = true).
    { repeat (apply orb_prop in H as [H|H]).
      - apply (includes_suffix "crear " "wallet"), H.
      - apply (includes_suffix "nueva " "wallet"), H.
      - apply (includes_suffix "generar " "wallet"), H.
      - apply (includes_suffix "create " "wallet"), H.
      - apply (includes_suffix "setup " "wallet"), H. }
    rewrite Hw. rewrite orb_true_r. reflexivity.
  - apply andb_prop in H as [H _]. apply andb_prop in H as [_ H].
    subst text. rewrite (extract_some_lower _ H). rewrite !orb_true_r. reflexivity.
  - apply andb_prop in H as [H _]. apply andb_prop in H as [_ H].
    subst text. rewrite (extract_some_lower _ H). rewrite !orb_true_r. reflexivity.
Qed.

Lemma checkBalance_accepts_the_others_witness :
  checkBalance_validate (Reference.message example_message) = true
  /\ checkBalance_validate (Reference.message "Crear Wallet") = true.
Proof.
  split.
  - apply checkBalance_accepts_the_others. right. left. vm_compute. reflexivity.
  - apply checkBalance_accepts_the_others. left. vm_compute. reflexivity.
Defined.


(** ** Where the symbol of an amount stands *)

Lemma drop_string_drop i j s :
  drop_string i (drop_string j s) = drop_string (j + i) s.
Proof.
  revert s. induction j as [|j IH]; intros s; [reflexivity|].
  destruct s as [|c s]; [destruct i; reflexivity|].
  cbn [drop_string Nat.add]. apply IH.
Qed.

Lemma drop_string_lower i s :
  drop_string i (toLowerCase s) = toLowerCase (drop_string i s).
Proof.
  revert s. induction i as [|i IH]; intros s; [reflexivity|].
  destruct s as [|c s]; [reflexivity|].
  rewrite toLowerCase_cons. cbn [drop_string]. apply IH.
Qed.

Lemma digits_run_suffix s d r :
  digits_run s = (d, r) -> exists i, r = drop_string i s.
Proof.
  revert d r. induction s as [|c s IH]; intros d r; cbn [digits_run].
  - intros [= <- <-]. exists O. reflexivity.
  - destruct (is_digit c).
    + destruct (digits_run s) as [d' r'] eqn:E. intros [= <- <-].
      destruct (IH _ _ eq_refl) as [i Hi]. exists (S i). exact Hi.
    + intros [= <- <-]. exists O. reflexivity.
Qed.

Lemma skip_space_suffix_le n s :
  (String.length s <= n)%nat -> exists i, skip_space s = drop_string i s.
Proof.
  revert s. induction n as [|n IH]; intros s Hn.
  - destruct s; [|cbn in Hn; lia]. exists O. reflexivity.
  - destruct s as [|a s1]; [exists O; reflexivity|].
    cbn [String.length] in Hn. cbn [skip_space]. cbn zeta.
    destruct (_ || _)%bool.
    { destruct (IH s1 ltac:(lia)) as [i Hi]. exists (S i). exact Hi. }
    destruct s1 as [|b s2]; [exists O; reflexivity|].
    cbn [String.length] in Hn.
    destruct (_ && _)%bool.
    { destruct (IH s2 ltac:(lia)) as [i Hi]. exists (S (S i)). exact Hi. }
    destruct s2 as [|c s3]; [exists O; reflexivity|].
    cbn [String.length] in Hn.
    destruct (space3 _ _ _).
    { destruct (IH s3 ltac:(lia)) as [i Hi]. exists (S (S (S i))). exact Hi. }
    exists O. reflexivity.
Qed.

Lemma skip_space_suffix s : exists i, skip_space s = drop_string i s.
Proof. apply (skip_space_suffix_le (String.length s)). lia. Qed.

Lemma amount_at_symbol_position sym s g1 g3 :
  amount_at sym s = Some (g1, g3) ->
  exists i, symbol_at sym (drop_string i s) = Some g3.
Proof.
  unfold amount_at. destruct (digits_run s) as [int r1] eqn:Ei.
  destruct (digits_run_suffix _ _ _ Ei) as [i1 ->].
  destruct int as [|c int]; [discriminate|].
  assert (Hgen : forall g j,
             match symbol_at sym (skip_space (drop_string j s)) with
             | Some g3' => Some (g, g3')
             | None => None
             end = Some (g1, g3) ->
             exists i, symbol_at sym (drop_string i s) = Some g3).
  { intros g j H. destruct (skip_space_suffix (drop_string j s)) as [k Hk].
    rewrite Hk, drop_string_drop in H.
    destruct (symbol_at sym (drop_string (j + k) s)) eqn:E; [|discriminate].
    injection H as _ <-. eauto. }
  destruct (drop_string i1 s) as [|x r] eqn:Er1.
  { rewrite <- Er1. apply Hgen. }
  destruct x as [[] [] [] [] [] [] [] []]; try (rewrite <- Er1; apply Hgen).
  destruct (digits_run r) as [frac r'] eqn:Ef.
  destruct frac as [|f frac]; [rewrite <- Er1; apply Hgen|].
  destruct (digits_run_suffix _ _ _ Ef) as [i2 ->].
  assert (Hr : r = drop_string (S i1) s).
  { clear -Er1. revert s Er1. induction i1 as [|i1 IH]; intros s Er1.
    - cbn [drop_string] in Er1. subst s. reflexivity.
    - destruct s as [|c s]; [discriminate|]. cbn [drop_string] in *.
      apply IH, Er1. }
  rewrite Hr, drop_string_drop. apply Hgen.
Qed.

Lemma match_amount_position sym s g1 g3 :
  match_amount sym s = Some (g1, g3) ->
  exists i, symbol_at sym (drop_string i s) = Some g3.
Proof.
  induction s as [|c s IH]; cbn [match_amount].
  - destruct (amount_at sym EmptyString) as [[a b]|] eqn:E; [|discriminate].
    intros [= <- <-]. apply (amount_at_symbol_position _ _ _ _ E).
  - destruct (amount_at sym (String c s)) as [[a b]|] eqn:E.
    + intros [= <- <-]. apply (amount_at_symbol_position _ _ _ _ E).
    + intros H. destruct (IH H) as [i Hi]. exists (S i). exact Hi.
Qed.

Lemma eq_ignore_case_lower l c :
  In l (list_ascii_of_string "aishopmnt") ->
  eq_ignore_case l c = true -> lower_ascii c = l.
Proof.
  intros Hl.
  repeat (destruct Hl as [<-|Hl];
          [destruct c as [[] [] [] [] [] [] [] []]; intros H;
           try discriminate H; reflexivity|]).
  destruct Hl.
Qed.

Lemma symbol_at_lower sym s g :
  (forall l, In l (list_ascii_of_string sym) -> In l (list_ascii_of_string "aishopmnt")) ->
  symbol_at sym s = Some g -> startsWith sym (toLowerCase s) = true.
Proof.
  revert s g. induction sym as [|l sym IH]; intros s g Hsym; cbn [symbol_at].
  - intros _. reflexivity.
  - destruct s as [|c s]; [discriminate|].
    destruct (eq_ignore_case l c) eqn:El; [|discriminate].
    destruct (symbol_at sym s) as [g'|] eqn:Eg; [|discriminate].
    intros _. rewrite toLowerCase_cons. cbn [startsWith].
    rewrite (eq_ignore_case_lower l c) by (try apply Hsym; try exact El; left; reflexivity).
    rewrite Ascii.eqb_refl. apply (IH s g'); [|exact Eg].
    intros l' Hl'. apply Hsym. right. exact Hl'.
Qed.

Lemma match_amount_mentions sym s g1 g3 :
  (forall l, In l (list_ascii_of_string sym) -> In l (list_ascii_of_string "aishopmnt")) ->
  match_amount sym s = Some (g1, g3) -> includes sym (toLowerCase s) = true.
Proof.
  intros Hsym H. destruct (match_amount_position _ _ _ _ H) as [i Hi].
  apply (includes_drop sym i). rewrite drop_string_lower.
  apply startsWith_includes, (symbol_at_lower _ _ _ Hsym Hi).
Qed.

(** X20. In the intent predicate of the token transfer the test for a
    mention of [aishop] decides nothing: a message with an amount of
    [AISHOP] mentions it.  The predicate is the conjunction of the other
    three tests; and a message with an amount of [MNT] mentions [mnt]. *)
Theorem aishop_mention_is_implied m :
  transferERC20_validate m
  = has_transfer_intent (toLowerCase (text_or_empty m))
    && not_null (extractEthereumWalletAddress (text_or_empty m))
    && not_null (extractTokenTransferInfo (text_or_empty m))
  /\ (not_null (extractAmount (text_or_empty m)) = true ->
      includes "mnt" (toLowerCase (text_or_empty m)) = true).
Proof.
  split.
  - unfold transferERC20_validate. cbn zeta.
    destruct (extractTokenTransferInfo (text_or_empty m)) as [info|] eqn:E.
    + unfold extractTokenTransferInfo in E.
      destruct (match_amount "aishop" (text_or_empty m)) as [[g1 g3]|] eqn:Em;
        [|discriminate].
      rewrite (match_amount_mentions "aishop" _ g1 g3); [|
        cbn; intros l Hl; repeat destruct Hl as [<-|Hl]; cbn; tauto | exact Em].
      cbn [not_null]. rewrite !andb_true_r. reflexivity.
    + rewrite !andb_false_r. reflexivity.
  - unfold extractAmount.
    destruct (match_amount "mnt" (text_or_empty m)) as [[g1 g3]|] eqn:Em;
      [|discriminate].
    intros _. apply (match_amount_mentions "mnt" _ g1 g3); [|exact Em].
    cbn. intros l Hl. repeat destruct Hl as [<-|Hl]; cbn; tauto.
Qed.


(** ** From an accepted message to the chain *)

(** X21. A native transfer the intent predicate accepts is sent as the
    message says, whenever the user has a session, the amount is one the
    chain client reads and the balance covers it: the handler hands over
    one transaction, from the address of the session to the address of the
    message, for the amount of the message. *)
Theorem accepted_transfer_is_sent h m w u p :
  transferMNT_validate m = true ->
  resolve_userId m = Some u ->
  cache_get_fault h (clock w) = None ->
  cache_get_fault h (S (clock w)) = None ->
  session_of h (default JUndefined (cache w !! user_wallet_key u)) = Some p ->
  exists to amountStr,
    extractEthereumWalletAddress (text_or_empty m) = Some to
    /\ extractAmount (text_or_empty m) = Some amountStr
    /\ forall value bal,
         parseEther h amountStr = Ok value ->
         rpc_getBalance h (S (S (clock w))) (wp_address p) = Ok bal ->
         value <= bal ->
         broadcasts (snd (transferMNT_handler h m w))
         = (broadcasts w ++ [SendTransaction (wp_address p) to value])%list.
Proof.
  intros Hv Hu Hg1 Hg2 Hs.
  unfold transferMNT_validate in Hv. cbn zeta in Hv.
  apply andb_prop in Hv as [Hv Hamount]. apply andb_prop in Hv as [_ Hto].
  destruct (extractEthereumWalletAddress (text_or_empty m)) as [to|] eqn:Eto;
    [|discriminate].
  destruct (extractAmount (text_or_empty m)) as [amountStr|] eqn:Eamount;
    [|discriminate].
  exists to, amountStr. repeat split.
  intros value bal Hvalue Hbal Hle.
  assert (Htext : content_text m = Some (text_or_empty m)).
  { unfold text_or_empty in *. destruct (content_text m); [reflexivity | discriminate]. }
  assert (Hne : nonempty (extractAmount (text_or_empty m)) = Some amountStr)
    by (rewrite Eamount; apply (extractAmount_nonempty (text_or_empty m)), Eamount).
  destruct (session_of_inv _ _ _ Hs) as (Htruthy & uw & key & Hd & Hk & Ha & Hp).
  apply Z.ltb_ge in Hle. rewrite Hp in Hbal. cbn [wp_address] in Hbal.
  destruct (transferMNT_handler h m w) as [r w'] eqn:Hrun. cbn [snd].
  unfold transferMNT_handler in Hrun. rewrite Hu, Htext, Hne in Hrun.
  rewrite Eto in Hrun.
  flow_all Hrun.
  all: simplify_eq; world_simpl.
  all: reflexivity.
Qed.

Lemma accepted_transfer_is_sent_witness :
  let h := Reference.make (Ok (10 ^ 18)) (Ok 0) Reference.no_settings in
  let m := Reference.message example_message in
  broadcasts (snd (transferMNT_handler h m Reference.with_wallet))
  = [SendTransaction Reference.account
       "0x1111111111111111111111111111111111111111" (5 * 10 ^ 17)].
Proof.
  intros h m.
  destruct (accepted_transfer_is_sent h m Reference.with_wallet "user-1"
              {| wp_privateKey := Reference.key; wp_address := Reference.account |})
    as (to & amountStr & Hto & Hamount & Hsent).
  - vm_compute. reflexivity.
  - reflexivity.
  - reflexivity.
  - reflexivity.
  - vm_compute. reflexivity.
  - assert (Eto : to = "0x1111111111111111111111111111111111111111").
    { vm_compute in Hto. injection Hto as <-. reflexivity. }
    assert (Ea : amountStr = "0.5").
    { vm_compute in Hamount. injection Hamount as <-. reflexivity. }
    subst to amountStr.
    apply (Hsent (5 * 10 ^ 17) (10 ^ 18)).
    + vm_compute. reflexivity.
    + reflexivity.
    + vm_compute. discriminate.
Defined.

(** X22. A token transfer the intent predicate accepts is sent as the
    message says, whenever the user has a session and the amount is one
    the chain client reads, unless the balance read shows too little: a
    balance that covers the amount, and a balance that cannot be read, both
    lead to one [transfer] handed over, from the address of the session to
    the address of the message. *)
Theorem accepted_token_transfer_is_sent h m w u p :
  transferERC20_validate m = true ->
  resolve_userId m = Some u ->
  cache_get_fault h (clock w) = None ->
  cache_get_fault h (S (clock w)) = None ->
  session_of h (default JUndefined (cache w !! user_wallet_key u)) = Some p ->
  exists to info,
    extractEthereumWalletAddress (text_or_empty m) = Some to
    /\ extractTokenTransferInfo (text_or_empty m) = Some info
    /\ forall value,
         parseUnits h (amount info) 18 = Ok value ->
         (forall bal,
            rpc_readContract h (S (S (clock w))) AISHOP_address "balanceOf"
              [wp_address p] = Ok bal -> value <= bal) ->
         broadcasts (snd (transferERC20_handler h m w))
         = (broadcasts w
            ++ [WriteContract (wp_address p) AISHOP_address to value])%list.
Proof.
  intros Hv Hu Hg1 Hg2 Hs.
  unfold transferERC20_validate in Hv. cbn zeta in Hv.
  apply andb_prop in Hv as [Hv Hinfo]. apply andb_prop in Hv as [_ Hto].
  destruct (extractEthereumWalletAddress (text_or_empty m)) as [to|] eqn:Eto;
    [|discriminate].
  destruct (extractTokenTransferInfo (text_or_empty m)) as [info|] eqn:Einfo;
    [|discriminate].
  exists to, info. repeat split.
  intros value Hvalue Hcover.
  pose proof (aishop_token _ _ Einfo) as Htoken.
  destruct (session_of_inv _ _ _ Hs) as (Htruthy & uw & key & Hd & Hk & Ha & Hp).
  rewrite Hp in Hcover. cbn [wp_address] in Hcover.
  destruct (transferERC20_handler h m w) as [r w'] eqn:Hrun. cbn [snd].
  unfold transferERC20_handler in Hrun. rewrite Hu, Eto, Einfo, Htoken in Hrun.
  flow_all Hrun.
  all: simplify_eq; world_simpl.
  all: try reflexivity.
  all: match goal with
       | H : rpc_readContract _ _ _ _ _ = Ok ?bal, L : (?bal <? _)%Z = true |- _ =>
           apply Z.ltb_lt in L; specialize (Hcover _ H); lia
       end.
Qed.

Lemma accepted_token_transfer_is_sent_witness :
  let h := Reference.make (Ok 0) (Throw (Error "rpc down")) Reference.no_settings in
  let m := Reference.message
             "enviar 5 AISHOP a 0x1111111111111111111111111111111111111111" in
  broadcasts (snd (transferERC20_handler h m Reference.with_wallet))
  = [WriteContract Reference.account AISHOP_address
       "0x1111111111111111111111111111111111111111" (5 * 10 ^ 18)].
Proof.
  intros h m.
  destruct (accepted_token_transfer_is_sent h m Reference.with_wallet "user-1"
              {| wp_privateKey := Reference.key; wp_address := Reference.account |})
    as (to & info & Hto & Hinfo & Hsent).
  - vm_compute. reflexivity.
  - reflexivity.
  - reflexivity.
  - reflexivity.
  - vm_compute. reflexivity.
  - assert (Eto : to = "0x1111111111111111111111111111111111111111").
    { vm_compute in Hto. injection Hto as <-. reflexivity. }
    assert (Ei : info = {| amount := "5"; symbol := "AISHOP" |}).
    { vm_compute in Hinfo. injection Hinfo as <-. reflexivity. }
    subst to info.
    apply (Hsent (5 * 10 ^ 18)).
    + vm_compute. reflexivity.
    + intros bal Hbal. vm_compute in Hbal. discriminate.
Defined.


(** ** A query for the address of a message *)

(** X23. When the message carries an address, the balance query and the
    provider answer for that address and do not consult the wallet store:
    the result, the replies and the records are the same whatever the cache
    holds.  The balance query then wants the key of the agent configured,
    and refuses without a call of the node when it is not. *)
Theorem explicit_address_ignores_store h m w c u a :
  resolve_userId m = Some u ->
  extractEthereumWalletAddress (text_or_empty m) = Some a ->
  (fst (checkBalance_handler h m (with_cache c w)) = fst (checkBalance_handler h m w)
   /\ replies (snd (checkBalance_handler h m (with_cache c w)))
      = replies (snd (checkBalance_handler h m w))
   /\ documents (snd (checkBalance_handler h m (with_cache c w)))
      = documents (snd (checkBalance_handler h m w)))
  /\ fst (walletProvider_get h m (with_cache c w)) = fst (walletProvider_get h m w)
  /\ (initWalletProvider h = None ->
      checkBalance_handler h m w
      = (Ok false,
         add_reply "No se pudo inicializar el cliente para consultar balances. Contacta a soporte." w)).
Proof.
  intros Hu Ha.
  assert (Hp : exists am, provider_address m = Some am).
  { unfold provider_address, text_or_empty in *.
    destruct (content_text m); [apply (extract_then_i _ _ Ha) | discriminate]. }
  destruct Hp as [am Ham].
  split; [|split].
  - destruct (checkBalance_handler h m w) as [r w1] eqn:Hrun.
    destruct (checkBalance_handler h m (with_cache c w)) as [r' w1'] eqn:Hrun'.
    unfold checkBalance_handler in Hrun, Hrun'. rewrite Hu, Ha in Hrun, Hrun'.
    destruct (initWalletProvider h) as [p0|];
      world_simpl; balance_flow Hrun; balance_flow Hrun'.
    all: simplify_eq; world_simpl.
    all: repeat split; reflexivity.
  - destruct (walletProvider_get h m w) as [r w1] eqn:Hrun.
    destruct (walletProvider_get h m (with_cache c w)) as [r' w1'] eqn:Hrun'.
    unfold walletProvider_get in Hrun, Hrun'. rewrite Hu, Ham in Hrun, Hrun'.
    world_simpl; balance_flow Hrun; balance_flow Hrun'.
    all: simplify_eq; world_simpl.
    all: reflexivity.
  - intros Hkey. unfold checkBalance_handler. rewrite Hu, Ha, Hkey. reflexivity.
Qed.

Lemma explicit_address_ignores_store_witness :
  let h := Reference.make (Ok (10 ^ 18)) (Ok 0) Reference.no_settings in
  let m := Reference.message "balance de 0x1111111111111111111111111111111111111111" in
  fst (checkBalance_handler h m Reference.with_wallet) = Ok false
  /\ fst (walletProvider_get h m Reference.with_wallet)
     = fst (walletProvider_get h m Reference.start).
Proof.
  intros h m.
  destruct (explicit_address_ignores_store h m Reference.start
              (cache Reference.with_wallet) "user-1"
              "0x1111111111111111111111111111111111111111")
    as (_ & Hprovider & Hkey).
  - reflexivity.
  - vm_compute. reflexivity.
  - split.
    + destruct (explicit_address_ignores_store h m Reference.with_wallet
                  (cache Reference.with_wallet) "user-1"
                  "0x1111111111111111111111111111111111111111" eq_refl)
        as (_ & _ & Hkey').
      * vm_compute. reflexivity.
      * rewrite Hkey'; reflexivity.
    + exact Hprovider.
Defined.


(** ** A stored value that opens no session *)





(** ** What the result of a balance query says *)

(** X25. A balance query that returns [true] has added one record and one
    reply: the reply is the text of the record, the record lists the
    balance of [MNT] and then the entry of [AISHOP], and its address is the
    address of the message when there is one, the address of the caller's
    session otherwise.  A balance query that returns [false] has added no
    record. *)
Theorem checkBalance_outcome h m w w' :
  (checkBalance_handler h m w = (Ok true, w') ->
   exists r native token address,
     documents w' = (documents w ++ [r])%list
     /\ replies w' = (replies w ++ [rec_text r])%list
     /\ rec_action r = "CHECK_BALANCE"
     /\ rec_userId r = memory_userId m
     /\ rec_payload r = Balances [("MNT", native); ("AISHOP", token)] address
     /\ match extractEthereumWalletAddress (text_or_empty m) with
        | Some a => address = a
        | None =>
            exists u p,
              resolve_userId m = Some u
              /\ session_of h (default JUndefined (cache w !! user_wallet_key u)) = Some p
              /\ address = wp_address p
        end)
  /\ (checkBalance_handler h m w = (Ok false, w') -> documents w' = documents w).
Proof.
  split; intros Hrun; unfold checkBalance_handler in Hrun.
  - destruct (resolve_userId m) as [u|];
      destruct (extractEthereumWalletAddress (text_or_empty m)) as [a|];
      try destruct (initWalletProvider h) as [p0|];
      world_simpl; balance_flow Hrun.
    all: simplify_eq; world_simpl.
    all: eexists _, _, _, _.
    all: repeat split; try reflexivity.
    all: eexists _, _; repeat split; unfold session_of.
    all: repeat match goal with
                | E : ?x = _ |- context [match ?x with _ => _ end] => rewrite E
                end.
    all: reflexivity.
  - destruct (resolve_userId m) as [u|];
      destruct (extractEthereumWalletAddress (text_or_empty m)) as [a|];
      try destruct (initWalletProvider h) as [p0|];
      world_simpl; balance_flow Hrun.
    all: simplify_eq; reflexivity.
Qed.

Lemma checkBalance_outcome_witness :
  let h := Reference.make (Ok (10 ^ 18)) (Ok 0) Reference.no_settings in
  let m := Reference.message "mi balance" in
  let run := checkBalance_handler h m Reference.with_wallet in
  fst run = Ok true
  /\ length (documents (snd run)) = 1%nat.
Proof.
  intros h m run.
  assert (Hrun : run = (Ok true, snd run)) by (vm_compute; reflexivity).
  destruct (proj1 (checkBalance_outcome h m Reference.with_wallet (snd run)) Hrun)
    as (r & native & token & address & Hd & _).
  rewrite Hrun at 1. split; [reflexivity|].
  rewrite Hd. reflexivity.
Defined.


(** ** Every request is answered *)

(** X26. No flow ends without a reply: provisioning and the transfers
    reply once or twice (a notice of work in progress, then the result),
    the balance query replies exactly once. *)
Theorem every_flow_answers h m w :
  (exists l, replies (snd (createWallet_handler h m w)) = (replies w ++ l)%list
             /\ (length l = 1 \/ length l = 2)%nat)
  /\ (exists l, replies (snd (transferMNT_handler h m w)) = (replies w ++ l)%list
                /\ (length l = 1 \/ length l = 2)%nat)
  /\ (exists l, replies (snd (transferERC20_handler h m w)) = (replies w ++ l)%list
                /\ (length l = 1 \/ length l = 2)%nat)
  /\ (exists t, replies (snd (checkBalance_handler h m w)) = (replies w ++ [t])%list).
Proof.
  split; [|split; [|split]].
  - destruct (createWallet_handler h m w) as [r w'] eqn:Hrun. cbn [snd].
    unfold createWallet_handler in Hrun.
    destruct (resolve_userId m) as [u|]; world_simpl; flow Hrun.
    all: simplify_eq; world_simpl.
    all: try solve [eexists (cons _ nil); split; [reflexivity | left; reflexivity]].
    all: solve [eexists (cons _ (cons _ nil));
                split; [rewrite <- app_assoc; reflexivity | right; reflexivity]].
  - destruct (transferMNT_handler h m w) as [r w'] eqn:Hrun. cbn [snd].
    unfold transferMNT_handler, text_or_empty in Hrun.
    destruct (resolve_userId m) as [u|]; destruct (content_text m) as [text|];
      world_simpl; flow_all Hrun.
    all: simplify_eq; world_simpl.
    all: try solve [eexists (cons _ nil); split; [reflexivity | left; reflexivity]].
    all: solve [eexists (cons _ (cons _ nil));
                split; [rewrite <- app_assoc; reflexivity | right; reflexivity]].
  - destruct (transferERC20_handler h m w) as [r w'] eqn:Hrun. cbn [snd].
    unfold transferERC20_handler in Hrun.
    destruct (resolve_userId m) as [u|];
      destruct (extractTokenTransferInfo (text_or_empty m)) as [info|] eqn:Hinfo;
      try pose proof (aishop_token _ _ Hinfo) as Htoken;
      world_simpl; flow_all Hrun.
    all: simplify_eq; world_simpl.
    all: try solve [eexists (cons _ nil); split; [reflexivity | left; reflexivity]].
    all: solve [eexists (cons _ (cons _ nil));
                split; [rewrite <- app_assoc; reflexivity | right; reflexivity]].
  - destruct (checkBalance_handler h m w) as [r w'] eqn:Hrun. cbn [snd].
    unfold checkBalance_handler in Hrun.
    destruct (resolve_userId m) as [u|]; world_simpl; balance_flow Hrun.
    all: simplify_eq; world_simpl.
    all: eexists; reflexivity.
Qed.
